(** * E-Learning app: the data-access layer of the stores, over the embedded
      SQLite schema of [src/services/database.ts].

    The stores ([authStore], [progressStore], the course store and the quiz
    store) are zustand containers whose operations issue parameterised SQL
    against one shared database handle.  Every operation is embedded as a
    function in a state-and-exception monad over the pair of the store's
    in-memory state and the outside world (database, engine fault schedule,
    statement log, clock, key-value storage).

    Conventions of the embedding:
    - a table is the list of its rows in rowid order, with the AUTOINCREMENT
      counter next to it;
    - INTEGER columns are [Z], REAL columns are [Q], nullable columns are
      [option]; [lesson_progress.timeSpent] counts whole seconds, which
      JavaScript adds as doubles ([js_add]);
    - foreign keys are declared by the schema but never enforced (the code
      never switches [PRAGMA foreign_keys] on), so they are not checked;
      UNIQUE constraints are checked on INSERT;
    - [console.error] output is not part of the state;
    - the SQL text of a statement is kept as written, with line breaks and
      runs of blanks inside it collapsed to one blank. *)

From Stdlib Require Import ZArith QArith List String Ascii Bool Lia.
From Stdlib Require Import SpecFloat.
From Stdlib Require Import Permutation Sorted.
Import ListNotations.

Local Open Scope string_scope.
Local Open Scope list_scope.
Local Open Scope Z_scope.

(** ** Exceptions and the store monad *)

Inductive SqliteCode : Type :=
| SQLITE_ERROR        (* the engine failed on the statement *)
| SQLITE_CONSTRAINT.  (* a UNIQUE constraint rejected the row *)

Inductive Exn : Type :=
| JsError (message : string)      (* [new Error(message)] thrown by a store *)
| SqliteError (code : SqliteCode). (* rejection of a database promise *)

Inductive Outcome (A : Type) : Type :=
| Ok (a : A)
| Raise (e : Exn).

Arguments Ok {A} a.
Arguments Raise {A} e.

(** An [async] function over a state [St]: it resolves or rejects, and the
    state it leaves behind is kept either way (nothing is rolled back). *)
Definition M (St A : Type) : Type := St -> Outcome A * St.

Definition ret {St A} (a : A) : M St A := fun st => (Ok a, st).

Definition bind {St A B} (m : M St A) (k : A -> M St B) : M St B :=
  fun st =>
    match m st with
    | (Ok a, st') => k a st'
    | (Raise e, st') => (Raise e, st')
    end.

Definition throw {St A} (e : Exn) : M St A := fun st => (Raise e, st).

(** [try { body } catch (error) { handler error }] *)
Definition try_catch {St A} (body : M St A) (handler : Exn -> M St A) : M St A :=
  fun st =>
    match body st with
    | (Ok a, st') => (Ok a, st')
    | (Raise e, st') => handler e st'
    end.

(** [try { body } finally { fin }]: [fin] runs on both exits; an exception of
    [fin] itself replaces the outcome of [body]. *)
Definition try_finally {St A} (body : M St A) (fin : M St unit) : M St A :=
  fun st =>
    match body st with
    | (r, st') =>
        match fin st' with
        | (Ok _, st'') => (r, st'')
        | (Raise e, st'') => (Raise e, st'')
        end
    end.

Declare Scope store_scope.
Delimit Scope store_scope with store.
Notation "x <- m ;; k" := (bind m (fun x => k))
  (at level 61, m at next level, right associativity) : store_scope.
Notation "m ;; k" := (bind m (fun _ => k))
  (at level 61, right associativity) : store_scope.
Local Open Scope store_scope.

(** ** Rows of the schema *)

Inductive Role : Type := teacher | student.

Inductive Status : Type := active | completed | dropped.

Inductive QuestionType : Type := multiple_choice | true_false | short_answer.

Definition role_text (r : Role) : string :=
  match r with teacher => "teacher" | student => "student" end.

Definition status_text (s : Status) : string :=
  match s with
  | active => "active" | completed => "completed" | dropped => "dropped"
  end.

Definition role_eqb (a b : Role) : bool :=
  match a, b with
  | teacher, teacher | student, student => true
  | _, _ => false
  end.

Definition status_eqb (a b : Status) : bool :=
  match a, b with
  | active, active | completed, completed | dropped, dropped => true
  | _, _ => false
  end.

Module User.
Record row : Type := mk {
  id : Z;
  email : string;
  password : string;
  name : string;
  role : Role;
  profileImage : option string;
  bio : option string;
  createdAt : string
}.
End User.

Module Course.
Record row : Type := mk {
  id : Z;
  teacherId : Z;
  title : string;
  description : option string;
  category : option string;
  coverImage : option string;
  duration : option string;
  level : option string;
  createdAt : string;
  updatedAt : string
}.
End Course.

Module Lesson.
Record row : Type := mk {
  id : Z;
  courseId : Z;
  title : string;
  description : option string;
  content : option string;
  videoUrl : option string;
  fileUrl : option string;
  fileType : option string;
  duration : option Z;
  sequenceNumber : Z;
  createdAt : string;
  updatedAt : string
}.
End Lesson.

Module Quiz.
Record row : Type := mk {
  id : Z;
  courseId : Z;
  title : string;
  description : option string;
  totalQuestions : option Z;
  passingScore : option Q;
  timeLimit : option Z;
  createdAt : string;
  updatedAt : string
}.
End Quiz.

Module QuizQuestion.
Record row : Type := mk {
  id : Z;
  quizId : Z;
  questionText : string;
  questionType : QuestionType;
  options : option string;
  correctAnswer : option string;
  sequenceNumber : option Z;
  createdAt : string
}.
End QuizQuestion.

Module Enrollment.
Record row : Type := mk {
  id : Z;
  studentId : Z;
  courseId : Z;
  enrolledAt : string;
  completionPercentage : Q;
  status : Status
}.
End Enrollment.

Module LessonProgress.
(** The stored row: [isCompleted] is the INTEGER 0 or 1 of the table. *)
Record row : Type := mk {
  id : Z;
  studentId : Z;
  lessonId : Z;
  isCompleted : Z;
  completedAt : option string;
  timeSpent : Z
}.

(** The [LessonProgress] interface of the store: [isCompleted] as a
    boolean, computed by [item.isCompleted === 1]. *)
Record t : Type := mkT {
  t_id : Z;
  t_studentId : Z;
  t_lessonId : Z;
  t_isCompleted : bool;
  t_completedAt : option string;
  t_timeSpent : Z
}.

Definition of_row (r : row) : t :=
  {| t_id := id r; t_studentId := studentId r; t_lessonId := lessonId r;
     t_isCompleted := (isCompleted r =? 1);
     t_completedAt := completedAt r; t_timeSpent := timeSpent r |}.
End LessonProgress.

Module QuizAttempt.
Record row : Type := mk {
  id : Z;
  studentId : Z;
  quizId : Z;
  score : option Q;
  totalQuestions : option Z;
  correctAnswers : option Z;
  attemptedAt : string;
  timeSpent : option Z
}.
End QuizAttempt.

Module QuizAnswer.
Record row : Type := mk {
  id : Z;
  attemptId : Z;
  questionId : Z;
  studentAnswer : option string;
  isCorrect : option Z
}.
End QuizAnswer.

Module Assignment.
Record row : Type := mk {
  id : Z;
  courseId : Z;
  title : string;
  description : option string;
  dueDate : option string;
  createdAt : string
}.
End Assignment.

Module Announcement.
(** [courseId] is nullable: NULL marks a school-wide announcement. *)
Record row : Type := mk {
  id : Z;
  courseId : option Z;
  teacherId : Z;
  title : string;
  content : string;
  attachments : option string;
  createdAt : string;
  updatedAt : string
}.
End Announcement.


(** ** Tables, the database and the SQL statements the stores use *)

(** A table: its rows in rowid order and the AUTOINCREMENT counter (the
    largest id ever handed out). *)
Record Table (R : Type) : Type := mkTable {
  rows : list R;
  seq : Z
}.

Arguments mkTable {R} rows seq.
Arguments rows {R} t.
Arguments seq {R} t.

Definition empty_table {R : Type} : Table R := mkTable [] 0.

(** [SELECT * FROM t WHERE p] *)
Definition select_where {R} (p : R -> bool) (t : Table R) : list R :=
  filter p (rows t).

(** [DELETE FROM t WHERE p] *)
Definition delete_where {R} (p : R -> bool) (t : Table R) : Table R :=
  mkTable (filter (fun r => negb (p r)) (rows t)) (seq t).

(** [UPDATE t SET ... WHERE p], the assignment given as a function on rows *)
Definition update_where {R} (p : R -> bool) (f : R -> R) (t : Table R) : Table R :=
  mkTable (map (fun r => if p r then f r else r) (rows t)) (seq t).

(** [INSERT INTO t ...] of the row [mk id], where [id] is the next
    AUTOINCREMENT value. *)
Definition insert_row {R} (mk : Z -> R) (t : Table R) : Table R :=
  mkTable (rows t ++ [mk (seq t + 1)]) (seq t + 1).

(** INSERT into a table with a UNIQUE constraint: rejected when a stored row
    conflicts with the new one. *)
Definition insert_unique {R} (conflict : R -> bool) (mk : Z -> R) (t : Table R)
  : option (Table R) :=
  if existsb conflict (rows t) then None else Some (insert_row mk t).

Record Database : Type := mkDatabase {
  users : Table User.row;
  courses : Table Course.row;
  lessons : Table Lesson.row;
  quizzes : Table Quiz.row;
  quiz_questions : Table QuizQuestion.row;
  enrollments : Table Enrollment.row;
  lesson_progress : Table LessonProgress.row;
  quiz_attempts : Table QuizAttempt.row;
  quiz_answers : Table QuizAnswer.row;
  assignments : Table Assignment.row;
  announcements : Table Announcement.row
}.

Definition empty_database : Database :=
  mkDatabase empty_table empty_table empty_table empty_table empty_table
             empty_table empty_table empty_table empty_table empty_table
             empty_table.

Definition with_users (t : Table User.row) (d : Database) : Database :=
  mkDatabase t (courses d) (lessons d) (quizzes d) (quiz_questions d)
             (enrollments d) (lesson_progress d) (quiz_attempts d)
             (quiz_answers d) (assignments d) (announcements d).

Definition with_courses (t : Table Course.row) (d : Database) : Database :=
  mkDatabase (users d) t (lessons d) (quizzes d) (quiz_questions d)
             (enrollments d) (lesson_progress d) (quiz_attempts d)
             (quiz_answers d) (assignments d) (announcements d).

Definition with_lessons (t : Table Lesson.row) (d : Database) : Database :=
  mkDatabase (users d) (courses d) t (quizzes d) (quiz_questions d)
             (enrollments d) (lesson_progress d) (quiz_attempts d)
             (quiz_answers d) (assignments d) (announcements d).

Definition with_quizzes (t : Table Quiz.row) (d : Database) : Database :=
  mkDatabase (users d) (courses d) (lessons d) t (quiz_questions d)
             (enrollments d) (lesson_progress d) (quiz_attempts d)
             (quiz_answers d) (assignments d) (announcements d).

Definition with_quiz_questions (t : Table QuizQuestion.row) (d : Database)
  : Database :=
  mkDatabase (users d) (courses d) (lessons d) (quizzes d) t
             (enrollments d) (lesson_progress d) (quiz_attempts d)
             (quiz_answers d) (assignments d) (announcements d).

Definition with_enrollments (t : Table Enrollment.row) (d : Database)
  : Database :=
  mkDatabase (users d) (courses d) (lessons d) (quizzes d) (quiz_questions d)
             t (lesson_progress d) (quiz_attempts d)
             (quiz_answers d) (assignments d) (announcements d).

Definition with_lesson_progress (t : Table LessonProgress.row) (d : Database)
  : Database :=
  mkDatabase (users d) (courses d) (lessons d) (quizzes d) (quiz_questions d)
             (enrollments d) t (quiz_attempts d)
             (quiz_answers d) (assignments d) (announcements d).

Definition with_quiz_attempts (t : Table QuizAttempt.row) (d : Database)
  : Database :=
  mkDatabase (users d) (courses d) (lessons d) (quizzes d) (quiz_questions d)
             (enrollments d) (lesson_progress d) t
             (quiz_answers d) (assignments d) (announcements d).

Definition with_quiz_answers (t : Table QuizAnswer.row) (d : Database)
  : Database :=
  mkDatabase (users d) (courses d) (lessons d) (quizzes d) (quiz_questions d)
             (enrollments d) (lesson_progress d) (quiz_attempts d)
             t (assignments d) (announcements d).

Definition with_assignments (t : Table Assignment.row) (d : Database)
  : Database :=
  mkDatabase (users d) (courses d) (lessons d) (quizzes d) (quiz_questions d)
             (enrollments d) (lesson_progress d) (quiz_attempts d)
             (quiz_answers d) t (announcements d).

Definition with_announcements (t : Table Announcement.row) (d : Database)
  : Database :=
  mkDatabase (users d) (courses d) (lessons d) (quizzes d) (quiz_questions d)
             (enrollments d) (lesson_progress d) (quiz_attempts d)
             (quiz_answers d) (assignments d) t.

(** ** The world outside the stores *)

(** A value bound to a [?] of a statement. *)
Inductive SqlValue : Type :=
| VNull
| VInt (z : Z)
| VReal (q : Q)
| VText (s : string).

(** A statement as handed to the database handle. *)
Record Statement : Type := mkStatement {
  sql : string;
  params : list SqlValue
}.

(** - [db]: the content of [elearning.db];
    - [faults]: the engine's fault schedule, one entry per statement still to
      come; [true] makes that statement's promise reject.  An exhausted
      schedule means no further fault;
    - [issued]: every statement handed to the handle so far, oldest first;
    - [now]: what [CURRENT_TIMESTAMP] evaluates to;
    - [currentUser]: the AsyncStorage entry of that key (the record that
      [JSON.stringify] serialised);
    - [kv_faults]: the fault schedule of AsyncStorage, read like [faults]. *)
Record World : Type := mkWorld {
  db : Database;
  faults : list bool;
  issued : list Statement;
  now : string;
  currentUser : option User.row;
  kv_faults : list bool
}.

Definition with_db (d : Database) (w : World) : World :=
  mkWorld d (faults w) (issued w) (now w) (currentUser w) (kv_faults w).

Definition with_faults (fs : list bool) (w : World) : World :=
  mkWorld (db w) fs (issued w) (now w) (currentUser w) (kv_faults w).

Definition with_issued (l : list Statement) (w : World) : World :=
  mkWorld (db w) (faults w) l (now w) (currentUser w) (kv_faults w).

Definition with_currentUser (u : option User.row) (w : World) : World :=
  mkWorld (db w) (faults w) (issued w) (now w) u (kv_faults w).

Definition with_kv_faults (fs : list bool) (w : World) : World :=
  mkWorld (db w) (faults w) (issued w) (now w) (currentUser w) fs.

(** The next entry of a fault schedule and the schedule that remains. *)
Definition next_fault (fs : list bool) : bool * list bool :=
  match fs with
  | [] => (false, [])
  | b :: fs' => (b, fs')
  end.

(** One statement against the handle: it is logged, then it either rejects
    with the engine's error (database untouched) or runs. *)
Definition statement {S A} (st : Statement)
    (run : World -> Outcome A * Database) : M (S * World) A :=
  fun '(s, w) =>
    let w1 := with_issued (issued w ++ [st]) w in
    let (fault, fs) := next_fault (faults w) in
    if fault
    then (Raise (SqliteError SQLITE_ERROR), (s, with_faults fs w1))
    else let (r, d) := run w in (r, (s, with_db d (with_faults fs w1))).

(** [db.getFirstAsync(sql, params)]: the first row of the result, or null. *)
Definition getFirstAsync {S R} (q : string) (ps : list SqlValue)
    (result : Database -> list R) : M (S * World) (option R) :=
  statement (mkStatement q ps) (fun w => (Ok (hd_error (result (db w))), db w)).

(** [db.getAllAsync(sql, params)]: all rows of the result. *)
Definition getAllAsync {S R} (q : string) (ps : list SqlValue)
    (result : Database -> list R) : M (S * World) (list R) :=
  statement (mkStatement q ps) (fun w => (Ok (result (db w)), db w)).

(** [db.runAsync(sql, params)]: a write; [effect] is the statement's meaning,
    [None] when a constraint rejects it.  No store operation embedded here
    looks at the value the promise resolves to. *)
Definition runAsync {S} (q : string) (ps : list SqlValue)
    (effect : World -> option Database) : M (S * World) unit :=
  statement (mkStatement q ps)
    (fun w => match effect w with
              | Some d => (Ok tt, d)
              | None => (Raise (SqliteError SQLITE_CONSTRAINT), db w)
              end).

(** zustand's [set(partial)] *)
Definition set {S} (f : S -> S) : M (S * World) unit :=
  fun '(s, w) => (Ok tt, (f s, w)).

(** zustand's [getState()] *)
Definition getState {S} : M (S * World) S :=
  fun '(s, w) => (Ok s, (s, w)).

(** [AsyncStorage.setItem('currentUser', JSON.stringify(user))] *)
Definition asyncStorage_setCurrentUser {S} (u : User.row) : M (S * World) unit :=
  fun '(s, w) =>
    let (fault, fs) := next_fault (kv_faults w) in
    if fault
    then (Raise (JsError "AsyncStorage"), (s, with_kv_faults fs w))
    else (Ok tt, (s, with_currentUser (Some u) (with_kv_faults fs w))).

(** The engine serves every statement of the run (no fault scheduled). *)
Definition quiet (w : World) : Prop := faults w = [].

(** ** ORDER BY, LEFT JOIN and GROUP BY over lists of rows *)

(** [ORDER BY]: insertion of a row into an ordered result.  SQLite leaves the
    order of rows with equal keys open; here they keep their input order. *)
Fixpoint insert_by {R} (le : R -> R -> bool) (x : R) (l : list R) : list R :=
  match l with
  | [] => [x]
  | y :: l' => if le x y then x :: l else y :: insert_by le x l'
  end.

Definition order_by {R} (le : R -> R -> bool) (l : list R) : list R :=
  fold_right (insert_by le) [] l.

(** [a LEFT JOIN t ON p]: the matching rows of [t], or one NULL row. *)
Definition left_join {R} (p : R -> bool) (t : list R) : list (option R) :=
  match filter p t with
  | [] => [None]
  | l => map Some l
  end.

(** [GROUP BY]: a row joins the group of the first row with the same key;
    groups come in the order of their first row. *)
Fixpoint add_to_groups {R} (same : R -> R -> bool) (x : R) (gs : list (list R))
  : list (list R) :=
  match gs with
  | [] => [[x]]
  | g :: gs' =>
      match g with
      | y :: _ =>
          if same y x then (g ++ [x]) :: gs' else g :: add_to_groups same x gs'
      | [] => g :: add_to_groups same x gs'
      end
  end.

Definition group_by {R} (same : R -> R -> bool) (l : list R) : list (list R) :=
  fold_left (fun gs x => add_to_groups same x gs) l [].

(** [COUNT(e)]: the rows where [e] is not NULL. *)
Definition sql_count {R} (nonnull : R -> bool) (g : list R) : Z :=
  Z.of_nat (List.length (filter nonnull g)).

(** [SUM(e)]: NULL when [e] is NULL on every row of the group. *)
Definition sql_sum {R} (e : R -> option Z) (g : list R) : option Z :=
  fold_left (fun acc r =>
               match e r, acc with
               | Some v, Some a => Some (a + v)
               | Some v, None => Some v
               | None, _ => acc
               end) g None.

(** ** The user/session store ([src/store/authStore.ts]) *)

Module Auth.

Record State : Type := mkState {
  user : option User.row;
  isLoading : bool;
  isLoggedIn : bool
}.

Definition initial : State := mkState None false false.

Definition set_isLoading (b : bool) (s : State) : State :=
  mkState (user s) b (isLoggedIn s).

Definition set_session (u : User.row) (s : State) : State :=
  mkState (Some u) (isLoading s) true.

(** [WHERE email = ? AND password = ? AND role = ?] *)
Definition matches_all (email password : string) (role : Role) (u : User.row)
  : bool :=
  (User.email u =? email)%string && (User.password u =? password)%string
  && role_eqb (User.role u) role.

(** [WHERE email = ? AND password = ?] *)
Definition matches_credentials (email password : string) (u : User.row) : bool :=
  (User.email u =? email)%string && (User.password u =? password)%string.

(** [WHERE email = ?] *)
Definition has_email (email : string) (u : User.row) : bool :=
  (User.email u =? email)%string.

Definition role_mismatch (actual : Role) : string :=
  String.append "This account is registered as a "
    (String.append (role_text actual) ". Please select the correct role.").

Definition invalid_credentials : string := "Invalid email or password".

Definition email_registered : string := "Email already registered".

Definition login (email password : string) (role : Role)
  : M (State * World) unit :=
  set (set_isLoading true) ;;
  try_finally
    (try_catch
       (result <- getFirstAsync
          "SELECT * FROM users WHERE email = ? AND password = ? AND role = ?"
          [VText email; VText password; VText (role_text role)]
          (fun d => select_where (matches_all email password role) (users d)) ;;
        match result with
        | Some user =>
            set (set_session user) ;;
            asyncStorage_setCurrentUser user
        | None =>
            userWithDifferentRole <- getFirstAsync
              "SELECT * FROM users WHERE email = ? AND password = ?"
              [VText email; VText password]
              (fun d => select_where (matches_credentials email password)
                          (users d)) ;;
            match userWithDifferentRole with
            | Some actualUser =>
                throw (JsError (role_mismatch (User.role actualUser)))
            | None => throw (JsError invalid_credentials)
            end
        end)
       (fun error => throw error))
    (set (set_isLoading false)).

Definition signup (email password name : string) (role : Role)
  : M (State * World) unit :=
  set (set_isLoading true) ;;
  try_finally
    (try_catch
       (existing <- getFirstAsync
          "SELECT id FROM users WHERE email = ?"
          [VText email]
          (fun d => map User.id (select_where (has_email email) (users d))) ;;
        match existing with
        | Some _ => throw (JsError email_registered)
        | None =>
            runAsync
              "INSERT INTO users (email, password, name, role) VALUES (?, ?, ?, ?)"
              [VText email; VText password; VText name; VText (role_text role)]
              (fun w =>
                 option_map (fun t => with_users t (db w))
                   (insert_unique (has_email email)
                      (fun id => User.mk id email password name role
                                   None None (now w))
                      (users (db w))))
            (* no auto-login: the session is left as it is *)
        end)
       (fun error => throw error))
    (set (set_isLoading false)).

End Auth.

(** ** JavaScript numbers

    A JavaScript number is an IEEE 754 double.  The whole numbers of seconds
    the progress store adds are kept as [Z]; [js_number z] is the value a
    whole number [z] has as a JavaScript number: [z] itself while it fits in
    the 53 bits of the significand, otherwise the nearest double, a tie going
    to the even significand.  Doubles end below 2^1024 (beyond is Infinity);
    whole numbers of that size are outside this embedding. *)
Definition js_number (z : Z) : Z :=
  let dropped := Z.log2 (Z.abs z) - 52 in
  if dropped <=? 0 then z
  else
    let significand := Z.shiftr (Z.abs z) dropped in
    let rest := Z.abs z - Z.shiftl significand dropped in
    let half := Z.shiftl 1 (dropped - 1) in
    let up := (half <? rest) || ((rest =? half) && Z.odd significand) in
    Z.sgn z * Z.shiftl (if up then significand + 1 else significand) dropped.

(** [a + b] in JavaScript, on whole numbers: the exact sum of the two
    doubles, rounded to a double. *)
Definition js_add (a b : Z) : Z := js_number (js_number a + js_number b).

Arguments js_number : simpl never.
Arguments js_add : simpl never.

(** [Number.MAX_SAFE_INTEGER], 2^53 - 1 *)
Definition max_safe_integer : Z := 9007199254740991.

(** [Number.isSafeInteger] on a whole number *)
Definition safe_integer (z : Z) : Prop :=
  - max_safe_integer <= z <= max_safe_integer.

(** The same numbers as the Standard Library's IEEE 754 binary64 has them. *)
Definition binary64_of (z : Z) : spec_float := binary_normalize 53 1024 z 0 false.

Definition binary64_add (a b : Z) : spec_float :=
  SFadd 53 1024 (binary64_of a) (binary64_of b).

(** ** The progress store ([src/store/progressStore.ts]) *)

(** Result rows of [fetchTeacherStudentProgress]. *)
Module TeacherReport.
Record row : Type := mk {
  studentId : Z;
  studentName : string;
  studentEmail : string;
  courseId : Z;
  courseTitle : string;
  completionPercentage : Q;
  enrolledAt : string;
  status : Status;
  totalLessons : Z;
  completedLessons : Z
}.
End TeacherReport.

(** Result rows of [fetchCourseStudentProgress]. *)
Module CourseReport.
Record row : Type := mk {
  studentId : Z;
  studentName : string;
  studentEmail : string;
  completionPercentage : Q;
  enrolledAt : string;
  status : Status;
  totalLessons : Z;
  completedLessons : Z;
  totalTimeSpent : option Z
}.
End CourseReport.

Module Progress.

Module St.
Record t : Type := mk {
  enrollments : list Enrollment.row;
  lessonProgress : list LessonProgress.t;
  isLoading : bool
}.
End St.

Definition initial : St.t := St.mk [] [] false.

Definition set_isLoading (b : bool) (s : St.t) : St.t :=
  St.mk (St.enrollments s) (St.lessonProgress s) b.

Definition set_enrollments (l : list Enrollment.row) (s : St.t) : St.t :=
  St.mk l (St.lessonProgress s) (St.isLoading s).

Definition set_lessonProgress (l : list LessonProgress.t) (s : St.t) : St.t :=
  St.mk (St.enrollments s) l (St.isLoading s).

(** [WHERE studentId = ? AND courseId = ?] on enrollments *)
Definition enrollment_of (studentId courseId : Z) (e : Enrollment.row) : bool :=
  (Enrollment.studentId e =? studentId) && (Enrollment.courseId e =? courseId).

(** [WHERE studentId = ? AND lessonId = ?] on lesson_progress *)
Definition progress_of (studentId lessonId : Z) (p : LessonProgress.row) : bool :=
  (LessonProgress.studentId p =? studentId)
  && (LessonProgress.lessonId p =? lessonId).

(** [SET status = 'active', completionPercentage = 0] *)
Definition reactivate (e : Enrollment.row) : Enrollment.row :=
  Enrollment.mk (Enrollment.id e) (Enrollment.studentId e)
    (Enrollment.courseId e) (Enrollment.enrolledAt e) 0%Q active.

(** [SET completionPercentage = ?] *)
Definition set_percentage (p : Q) (e : Enrollment.row) : Enrollment.row :=
  Enrollment.mk (Enrollment.id e) (Enrollment.studentId e)
    (Enrollment.courseId e) (Enrollment.enrolledAt e) p (Enrollment.status e).

(** [SET isCompleted = 1, completedAt = CURRENT_TIMESTAMP] *)
Definition stamp_complete (ts : string) (p : LessonProgress.row)
  : LessonProgress.row :=
  LessonProgress.mk (LessonProgress.id p) (LessonProgress.studentId p)
    (LessonProgress.lessonId p) 1 (Some ts) (LessonProgress.timeSpent p).

(** [SET isCompleted = 0, completedAt = NULL] *)
Definition clear_complete (p : LessonProgress.row) : LessonProgress.row :=
  LessonProgress.mk (LessonProgress.id p) (LessonProgress.studentId p)
    (LessonProgress.lessonId p) 0 None (LessonProgress.timeSpent p).

(** [SET timeSpent = ?] *)
Definition set_timeSpent (t : Z) (p : LessonProgress.row) : LessonProgress.row :=
  LessonProgress.mk (LessonProgress.id p) (LessonProgress.studentId p)
    (LessonProgress.lessonId p) (LessonProgress.isCompleted p)
    (LessonProgress.completedAt p) t.

Definition already_enrolled : string := "Already enrolled in this course".

Definition enrollInCourse (studentId courseId : Z) : M (St.t * World) unit :=
  try_catch
    (existing <- getFirstAsync
       "SELECT id, status FROM enrollments WHERE studentId = ? AND courseId = ?"
       [VInt studentId; VInt courseId]
       (fun d => map (fun e => (Enrollment.id e, Enrollment.status e))
                   (select_where (enrollment_of studentId courseId)
                      (enrollments d))) ;;
     match existing with
     | Some (_, status) =>
         if status_eqb status active
         then throw (JsError already_enrolled)
         else
           runAsync
             "UPDATE enrollments SET status = ?, completionPercentage = 0 WHERE studentId = ? AND courseId = ?"
             [VText "active"; VInt studentId; VInt courseId]
             (fun w =>
                Some (with_enrollments
                        (update_where (enrollment_of studentId courseId)
                           reactivate (enrollments (db w)))
                        (db w)))
     | None =>
         runAsync
           "INSERT INTO enrollments (studentId, courseId, completionPercentage, status) VALUES (?, ?, ?, ?)"
           [VInt studentId; VInt courseId; VInt 0; VText "active"]
           (fun w =>
              option_map (fun t => with_enrollments t (db w))
                (insert_unique (enrollment_of studentId courseId)
                   (fun id => Enrollment.mk id studentId courseId (now w)
                                0%Q active)
                   (enrollments (db w))))
     end)
    (fun error => throw error).

Definition unenrollFromCourse (studentId courseId : Z) : M (St.t * World) unit :=
  try_catch
    (runAsync
       "DELETE FROM enrollments WHERE studentId = ? AND courseId = ?"
       [VInt studentId; VInt courseId]
       (fun w =>
          Some (with_enrollments
                  (delete_where (enrollment_of studentId courseId)
                     (enrollments (db w)))
                  (db w))))
    (fun error => throw error).

Definition getEnrollment (studentId courseId : Z)
  : M (St.t * World) (option Enrollment.row) :=
  try_catch
    (result <- getFirstAsync
       "SELECT * FROM enrollments WHERE studentId = ? AND courseId = ?"
       [VInt studentId; VInt courseId]
       (fun d => select_where (enrollment_of studentId courseId)
                   (enrollments d)) ;;
     ret result)
    (fun _ => ret None).

Definition fetchStudentEnrollments (studentId : Z) : M (St.t * World) unit :=
  set (set_isLoading true) ;;
  try_finally
    (try_catch
       (result <- getAllAsync
          "SELECT * FROM enrollments WHERE studentId = ? ORDER BY enrolledAt DESC"
          [VInt studentId]
          (fun d =>
             order_by (fun a b => String.leb (Enrollment.enrolledAt b)
                                    (Enrollment.enrolledAt a))
               (select_where (fun e => Enrollment.studentId e =? studentId)
                  (enrollments d))) ;;
        set (set_enrollments result))
       (fun _ => ret tt))
    (set (set_isLoading false)).

Definition updateEnrollmentProgress (enrollmentId : Z) (completionPercentage : Q)
  : M (St.t * World) unit :=
  try_catch
    (runAsync
       "UPDATE enrollments SET completionPercentage = ? WHERE id = ?"
       [VReal completionPercentage; VInt enrollmentId]
       (fun w =>
          Some (with_enrollments
                  (update_where (fun e => Enrollment.id e =? enrollmentId)
                     (set_percentage completionPercentage)
                     (enrollments (db w)))
                  (db w))))
    (fun error => throw error).

Definition markLessonComplete (studentId lessonId : Z) : M (St.t * World) unit :=
  try_catch
    (existing <- getFirstAsync
       "SELECT id FROM lesson_progress WHERE studentId = ? AND lessonId = ?"
       [VInt studentId; VInt lessonId]
       (fun d => map LessonProgress.id
                   (select_where (progress_of studentId lessonId)
                      (lesson_progress d))) ;;
     match existing with
     | Some _ =>
         runAsync
           "UPDATE lesson_progress SET isCompleted = 1, completedAt = CURRENT_TIMESTAMP WHERE studentId = ? AND lessonId = ?"
           [VInt studentId; VInt lessonId]
           (fun w =>
              Some (with_lesson_progress
                      (update_where (progress_of studentId lessonId)
                         (stamp_complete (now w)) (lesson_progress (db w)))
                      (db w)))
     | None =>
         runAsync
           "INSERT INTO lesson_progress (studentId, lessonId, isCompleted, completedAt) VALUES (?, ?, 1, CURRENT_TIMESTAMP)"
           [VInt studentId; VInt lessonId]
           (fun w =>
              option_map (fun t => with_lesson_progress t (db w))
                (insert_unique (progress_of studentId lessonId)
                   (fun id => LessonProgress.mk id studentId lessonId 1
                                (Some (now w)) 0)
                   (lesson_progress (db w))))
     end)
    (fun error => throw error).

Definition markLessonIncomplete (studentId lessonId : Z)
  : M (St.t * World) unit :=
  try_catch
    (runAsync
       "UPDATE lesson_progress SET isCompleted = 0, completedAt = NULL WHERE studentId = ? AND lessonId = ?"
       [VInt studentId; VInt lessonId]
       (fun w =>
          Some (with_lesson_progress
                  (update_where (progress_of studentId lessonId)
                     clear_complete (lesson_progress (db w)))
                  (db w))))
    (fun error => throw error).

Definition getLessonProgress (studentId lessonId : Z)
  : M (St.t * World) (option LessonProgress.t) :=
  try_catch
    (result <- getFirstAsync
       "SELECT * FROM lesson_progress WHERE studentId = ? AND lessonId = ?"
       [VInt studentId; VInt lessonId]
       (fun d => select_where (progress_of studentId lessonId)
                   (lesson_progress d)) ;;
     match result with
     | Some r => ret (Some (LessonProgress.of_row r))
     | None => ret None
     end)
    (fun _ => ret None).

(** [lesson_progress lp INNER JOIN lessons l ON lp.lessonId = l.id
     WHERE lp.studentId = ? AND l.courseId = ?], projected on [lp.*] *)
Definition course_lesson_progress (studentId courseId : Z) (d : Database)
  : list LessonProgress.row :=
  map fst
    (filter
       (fun j => (LessonProgress.studentId (fst j) =? studentId)
                 && (Lesson.courseId (snd j) =? courseId))
       (flat_map
          (fun lp =>
             map (fun l => (lp, l))
               (filter (fun l => LessonProgress.lessonId lp =? Lesson.id l)
                  (rows (lessons d))))
          (rows (lesson_progress d)))).

Definition fetchCourseLessonProgress (studentId courseId : Z)
  : M (St.t * World) unit :=
  set (set_isLoading true) ;;
  try_finally
    (try_catch
       (result <- getAllAsync
          "SELECT lp.* FROM lesson_progress lp INNER JOIN lessons l ON lp.lessonId = l.id WHERE lp.studentId = ? AND l.courseId = ?"
          [VInt studentId; VInt courseId]
          (course_lesson_progress studentId courseId) ;;
        set (set_lessonProgress (map LessonProgress.of_row result)))
       (fun _ => ret tt))
    (set (set_isLoading false)).

Definition updateLessonTimeSpent (studentId lessonId timeSpent : Z)
  : M (St.t * World) unit :=
  try_catch
    (existing <- getFirstAsync
       "SELECT id, timeSpent FROM lesson_progress WHERE studentId = ? AND lessonId = ?"
       [VInt studentId; VInt lessonId]
       (fun d => map (fun p => (LessonProgress.id p, LessonProgress.timeSpent p))
                   (select_where (progress_of studentId lessonId)
                      (lesson_progress d))) ;;
     match existing with
     | Some (_, stored) =>
         let totalTime := js_add stored timeSpent in
         runAsync
           "UPDATE lesson_progress SET timeSpent = ? WHERE studentId = ? AND lessonId = ?"
           [VInt totalTime; VInt studentId; VInt lessonId]
           (fun w =>
              Some (with_lesson_progress
                      (update_where (progress_of studentId lessonId)
                         (set_timeSpent totalTime) (lesson_progress (db w)))
                      (db w)))
     | None =>
         runAsync
           "INSERT INTO lesson_progress (studentId, lessonId, timeSpent) VALUES (?, ?, ?)"
           [VInt studentId; VInt lessonId; VInt (js_number timeSpent)]
           (fun w =>
              option_map (fun t => with_lesson_progress t (db w))
                (insert_unique (progress_of studentId lessonId)
                   (fun id => LessonProgress.mk id studentId lessonId 0 None
                                (js_number timeSpent))
                   (lesson_progress (db w))))
     end)
    (fun error => throw error).

Definition getCourseProgress (studentId courseId : Z) : M (St.t * World) Q :=
  try_catch
    (result <- getFirstAsync
       "SELECT completionPercentage FROM enrollments WHERE studentId = ? AND courseId = ?"
       [VInt studentId; VInt courseId]
       (fun d => map Enrollment.completionPercentage
                   (select_where (enrollment_of studentId courseId)
                      (enrollments d))) ;;
     match result with
     | Some completionPercentage => ret completionPercentage
     | None => ret 0%Q
     end)
    (fun _ => ret 0%Q).

(** One row of the join of [fetchTeacherStudentProgress]:
    enrollments e, users u, courses c, lessons l (LEFT), lesson_progress lp
    (LEFT). *)
Record TeacherJoin : Type := mkTeacherJoin {
  tj_e : Enrollment.row;
  tj_u : User.row;
  tj_c : Course.row;
  tj_l : option Lesson.row;
  tj_lp : option LessonProgress.row
}.

(** [LEFT JOIN lesson_progress lp ON l.id = lp.lessonId AND lp.studentId = u.id];
    a NULL lesson matches no progress row. *)
Definition join_progress (u : User.row) (l : option Lesson.row) (d : Database)
  : list (option LessonProgress.row) :=
  match l with
  | Some l' =>
      left_join (fun lp => (Lesson.id l' =? LessonProgress.lessonId lp)
                           && (LessonProgress.studentId lp =? User.id u))
        (rows (lesson_progress d))
  | None => [None]
  end.

Definition teacher_join (d : Database) : list TeacherJoin :=
  flat_map (fun e =>
    flat_map (fun u =>
      flat_map (fun c =>
        flat_map (fun l =>
          map (fun lp => mkTeacherJoin e u c l lp) (join_progress u l d))
          (left_join (fun l => Course.id c =? Lesson.courseId l)
             (rows (lessons d))))
        (filter (fun c => Enrollment.courseId e =? Course.id c)
           (rows (courses d))))
      (filter (fun u => Enrollment.studentId e =? User.id u) (rows (users d))))
    (rows (enrollments d)).

Definition is_some {A} (o : option A) : bool :=
  match o with Some _ => true | None => false end.

(** [CASE WHEN lp.isCompleted = 1 THEN 1 END] is not NULL *)
Definition completed_progress (lp : option LessonProgress.row) : bool :=
  match lp with
  | Some p => LessonProgress.isCompleted p =? 1
  | None => false
  end.

(** The aggregate row of one group; the bare columns are read off the group's
    first row. *)
Definition teacher_report_of (g : list TeacherJoin) : list TeacherReport.row :=
  match g with
  | [] => []
  | j :: _ =>
      [TeacherReport.mk (User.id (tj_u j)) (User.name (tj_u j))
         (User.email (tj_u j)) (Course.id (tj_c j)) (Course.title (tj_c j))
         (Enrollment.completionPercentage (tj_e j))
         (Enrollment.enrolledAt (tj_e j)) (Enrollment.status (tj_e j))
         (sql_count (fun r => is_some (tj_l r)) g)
         (sql_count (fun r => completed_progress (tj_lp r)) g)]
  end.

(** [ORDER BY a, b] on two text keys *)
Definition text_pair_le (a1 b1 a2 b2 : string) : bool :=
  match String.compare a1 a2 with
  | Lt => true
  | Gt => false
  | Eq => String.leb b1 b2
  end.

Definition teacher_student_progress (teacherId : Z) (d : Database)
  : list TeacherReport.row :=
  order_by
    (fun a b => text_pair_le (TeacherReport.studentName a)
                  (TeacherReport.courseTitle a) (TeacherReport.studentName b)
                  (TeacherReport.courseTitle b))
    (flat_map teacher_report_of
       (group_by
          (fun a b => (User.id (tj_u a) =? User.id (tj_u b))
                      && (Course.id (tj_c a) =? Course.id (tj_c b)))
          (filter
             (fun j => (Course.teacherId (tj_c j) =? teacherId)
                       && status_eqb (Enrollment.status (tj_e j)) active)
             (teacher_join d)))).

Definition fetchTeacherStudentProgress (teacherId : Z)
  : M (St.t * World) (list TeacherReport.row) :=
  try_catch
    (result <- getAllAsync
       "SELECT u.id as studentId, u.name as studentName, u.email as studentEmail, c.id as courseId, c.title as courseTitle, e.completionPercentage, e.enrolledAt, e.status, COUNT(l.id) as totalLessons, COUNT(CASE WHEN lp.isCompleted = 1 THEN 1 END) as completedLessons FROM enrollments e INNER JOIN users u ON e.studentId = u.id INNER JOIN courses c ON e.courseId = c.id LEFT JOIN lessons l ON c.id = l.courseId LEFT JOIN lesson_progress lp ON l.id = lp.lessonId AND lp.studentId = u.id WHERE c.teacherId = ? AND e.status = 'active' GROUP BY u.id, c.id ORDER BY u.name, c.title"
       [VInt teacherId]
       (teacher_student_progress teacherId) ;;
     ret result)
    (fun _ => ret []).

(** One row of the join of [fetchCourseStudentProgress]:
    enrollments e, users u, lessons l (LEFT), lesson_progress lp (LEFT). *)
Record CourseJoin : Type := mkCourseJoin {
  cj_e : Enrollment.row;
  cj_u : User.row;
  cj_l : option Lesson.row;
  cj_lp : option LessonProgress.row
}.

Definition course_join (d : Database) : list CourseJoin :=
  flat_map (fun e =>
    flat_map (fun u =>
      flat_map (fun l =>
        map (fun lp => mkCourseJoin e u l lp) (join_progress u l d))
        (left_join (fun l => Enrollment.courseId e =? Lesson.courseId l)
           (rows (lessons d))))
      (filter (fun u => Enrollment.studentId e =? User.id u) (rows (users d))))
    (rows (enrollments d)).

Definition course_report_of (g : list CourseJoin) : list CourseReport.row :=
  match g with
  | [] => []
  | j :: _ =>
      [CourseReport.mk (User.id (cj_u j)) (User.name (cj_u j))
         (User.email (cj_u j))
         (Enrollment.completionPercentage (cj_e j))
         (Enrollment.enrolledAt (cj_e j)) (Enrollment.status (cj_e j))
         (sql_count (fun r => is_some (cj_l r)) g)
         (sql_count (fun r => completed_progress (cj_lp r)) g)
         (sql_sum (fun r => option_map LessonProgress.timeSpent (cj_lp r)) g)]
  end.

Definition course_student_progress (courseId : Z) (d : Database)
  : list CourseReport.row :=
  order_by
    (fun a b => String.leb (CourseReport.studentName a)
                  (CourseReport.studentName b))
    (flat_map course_report_of
       (group_by (fun a b => User.id (cj_u a) =? User.id (cj_u b))
          (filter
             (fun j => (Enrollment.courseId (cj_e j) =? courseId)
                       && status_eqb (Enrollment.status (cj_e j)) active)
             (course_join d)))).

Definition fetchCourseStudentProgress (courseId : Z)
  : M (St.t * World) (list CourseReport.row) :=
  try_catch
    (result <- getAllAsync
       "SELECT u.id as studentId, u.name as studentName, u.email as studentEmail, e.completionPercentage, e.enrolledAt, e.status, COUNT(l.id) as totalLessons, COUNT(CASE WHEN lp.isCompleted = 1 THEN 1 END) as completedLessons, SUM(lp.timeSpent) as totalTimeSpent FROM enrollments e INNER JOIN users u ON e.studentId = u.id LEFT JOIN lessons l ON e.courseId = l.courseId LEFT JOIN lesson_progress lp ON l.id = lp.lessonId AND lp.studentId = u.id WHERE e.courseId = ? AND e.status = 'active' GROUP BY u.id ORDER BY u.name"
       [VInt courseId]
       (course_student_progress courseId) ;;
     ret result)
    (fun _ => ret []).

End Progress.

(** ** The course/lesson store *)

(** The argument of [createLesson]: a lesson without id and timestamps. *)
Module LessonDraft.
Record t : Type := mk {
  courseId : Z;
  title : string;
  description : option string;
  content : option string;
  videoUrl : option string;
  fileUrl : option string;
  fileType : option string;
  duration : option Z;
  sequenceNumber : Z
}.
End LessonDraft.

(** [s || null] on an optional string: the empty string is falsy. *)
Definition text_or_null (s : option string) : option string :=
  match s with
  | Some "" => None
  | _ => s
  end.

(** [n || null] on an optional number: zero is falsy. *)
Definition number_or_null (n : option Z) : option Z :=
  match n with
  | Some 0 => None
  | _ => n
  end.

(** [n || 0] on a number *)
Definition number_or_zero (n : Z) : Z := if n =? 0 then 0 else n.

Module CourseStore.

Module St.
Record t : Type := mk {
  courses : list Course.row;
  lessons : list Lesson.row;
  currentCourse : option Course.row;
  isLoading : bool
}.
End St.

Definition initial : St.t := St.mk [] [] None false.

Definition set_isLoading (b : bool) (s : St.t) : St.t :=
  St.mk (St.courses s) (St.lessons s) (St.currentCourse s) b.

Definition set_lessons (l : list Lesson.row) (s : St.t) : St.t :=
  St.mk (St.courses s) l (St.currentCourse s) (St.isLoading s).

(** The meaning of the six statements of [deleteCourse]. *)
Definition delete_lessons_of (courseId : Z) (d : Database) : Database :=
  with_lessons
    (delete_where (fun l => Lesson.courseId l =? courseId) (lessons d)) d.

Definition delete_quizzes_of (courseId : Z) (d : Database) : Database :=
  with_quizzes
    (delete_where (fun q => Quiz.courseId q =? courseId) (quizzes d)) d.

Definition delete_enrollments_of (courseId : Z) (d : Database) : Database :=
  with_enrollments
    (delete_where (fun e => Enrollment.courseId e =? courseId) (enrollments d))
    d.

(** [courseId = ?] is not true of a NULL [courseId]: school-wide
    announcements stay. *)
Definition announcement_of (courseId : Z) (a : Announcement.row) : bool :=
  match Announcement.courseId a with
  | Some c => c =? courseId
  | None => false
  end.

Definition delete_announcements_of (courseId : Z) (d : Database) : Database :=
  with_announcements
    (delete_where (announcement_of courseId) (announcements d)) d.

Definition delete_assignments_of (courseId : Z) (d : Database) : Database :=
  with_assignments
    (delete_where (fun a => Assignment.courseId a =? courseId) (assignments d))
    d.

Definition delete_course_row (courseId : Z) (d : Database) : Database :=
  with_courses (delete_where (fun c => Course.id c =? courseId) (courses d)) d.

Definition deleteCourse (courseId : Z) : M (St.t * World) unit :=
  try_catch
    ((* Delete related data first *)
     runAsync "DELETE FROM lessons WHERE courseId = ?" [VInt courseId]
       (fun w => Some (delete_lessons_of courseId (db w))) ;;
     runAsync "DELETE FROM quizzes WHERE courseId = ?" [VInt courseId]
       (fun w => Some (delete_quizzes_of courseId (db w))) ;;
     runAsync "DELETE FROM enrollments WHERE courseId = ?" [VInt courseId]
       (fun w => Some (delete_enrollments_of courseId (db w))) ;;
     runAsync "DELETE FROM announcements WHERE courseId = ?" [VInt courseId]
       (fun w => Some (delete_announcements_of courseId (db w))) ;;
     runAsync "DELETE FROM assignments WHERE courseId = ?" [VInt courseId]
       (fun w => Some (delete_assignments_of courseId (db w))) ;;
     runAsync "DELETE FROM courses WHERE id = ?" [VInt courseId]
       (fun w => Some (delete_course_row courseId (db w))))
    (fun error => throw error).

(** [WHERE courseId = ? ORDER BY sequenceNumber ASC] *)
Definition lessons_of_course (courseId : Z) (d : Database) : list Lesson.row :=
  order_by (fun a b => Lesson.sequenceNumber a <=? Lesson.sequenceNumber b)
    (select_where (fun l => Lesson.courseId l =? courseId) (lessons d)).

Definition fetchLessons (courseId : Z) : M (St.t * World) unit :=
  set (set_isLoading true) ;;
  try_finally
    (try_catch
       (result <- getAllAsync
          "SELECT * FROM lessons WHERE courseId = ? ORDER BY sequenceNumber ASC"
          [VInt courseId]
          (lessons_of_course courseId) ;;
        set (set_lessons result))
       (fun _ => ret tt))
    (set (set_isLoading false)).

Definition sql_text (s : option string) : SqlValue :=
  match s with Some x => VText x | None => VNull end.

Definition sql_int (n : option Z) : SqlValue :=
  match n with Some x => VInt x | None => VNull end.

(** The row [createLesson] stores for a draft. *)
Definition lesson_row (lesson : LessonDraft.t) (ts : string) (id : Z)
  : Lesson.row :=
  Lesson.mk id (LessonDraft.courseId lesson) (LessonDraft.title lesson)
    (text_or_null (LessonDraft.description lesson))
    (text_or_null (LessonDraft.content lesson))
    (text_or_null (LessonDraft.videoUrl lesson))
    (text_or_null (LessonDraft.fileUrl lesson))
    (text_or_null (LessonDraft.fileType lesson))
    (number_or_null (LessonDraft.duration lesson))
    (number_or_zero (LessonDraft.sequenceNumber lesson))
    ts ts.

Definition createLesson (lesson : LessonDraft.t) : M (St.t * World) unit :=
  try_catch
    (runAsync
       "INSERT INTO lessons (courseId, title, description, content, videoUrl, fileUrl, fileType, duration, sequenceNumber) VALUES (?, ?, ?, ?, ?, ?, ?, ?, ?)"
       [VInt (LessonDraft.courseId lesson);
        VText (LessonDraft.title lesson);
        sql_text (text_or_null (LessonDraft.description lesson));
        sql_text (text_or_null (LessonDraft.content lesson));
        sql_text (text_or_null (LessonDraft.videoUrl lesson));
        sql_text (text_or_null (LessonDraft.fileUrl lesson));
        sql_text (text_or_null (LessonDraft.fileType lesson));
        sql_int (number_or_null (LessonDraft.duration lesson));
        VInt (number_or_zero (LessonDraft.sequenceNumber lesson))]
       (fun w =>
          Some (with_lessons
                  (insert_row (lesson_row lesson (now w)) (lessons (db w)))
                  (db w))))
    (fun error => throw error).

Definition deleteLesson (lessonId : Z) : M (St.t * World) unit :=
  try_catch
    (runAsync "DELETE FROM lesson_progress WHERE lessonId = ?" [VInt lessonId]
       (fun w =>
          Some (with_lesson_progress
                  (delete_where (fun p => LessonProgress.lessonId p =? lessonId)
                     (lesson_progress (db w)))
                  (db w))) ;;
     runAsync "DELETE FROM lessons WHERE id = ?" [VInt lessonId]
       (fun w =>
          Some (with_lessons
                  (delete_where (fun l => Lesson.id l =? lessonId)
                     (lessons (db w)))
                  (db w))))
    (fun error => throw error).

End CourseStore.

(** ** The quiz store (second part of [src/store/announcementStore.ts]) *)

Module QuizStore.

Module St.
Record t : Type := mk {
  quizzes : list Quiz.row;
  currentQuiz : option Quiz.row;
  quizQuestions : list QuizQuestion.row;
  quizAttempts : list QuizAttempt.row;
  isLoading : bool
}.
End St.

Definition initial : St.t := St.mk [] None [] [] false.

Definition deleteQuiz (quizId : Z) : M (St.t * World) unit :=
  try_catch
    (runAsync "DELETE FROM quiz_questions WHERE quizId = ?" [VInt quizId]
       (fun w =>
          Some (with_quiz_questions
                  (delete_where (fun q => QuizQuestion.quizId q =? quizId)
                     (quiz_questions (db w)))
                  (db w))) ;;
     runAsync "DELETE FROM quiz_attempts WHERE quizId = ?" [VInt quizId]
       (fun w =>
          Some (with_quiz_attempts
                  (delete_where (fun a => QuizAttempt.quizId a =? quizId)
                     (quiz_attempts (db w)))
                  (db w))) ;;
     runAsync "DELETE FROM quizzes WHERE id = ?" [VInt quizId]
       (fun w =>
          Some (with_quizzes
                  (delete_where (fun q => Quiz.id q =? quizId) (quizzes (db w)))
                  (db w))))
    (fun error => throw error).

Definition deleteQuestion (questionId : Z) : M (St.t * World) unit :=
  try_catch
    (runAsync "DELETE FROM quiz_answers WHERE questionId = ?" [VInt questionId]
       (fun w =>
          Some (with_quiz_answers
                  (delete_where (fun a => QuizAnswer.questionId a =? questionId)
                     (quiz_answers (db w)))
                  (db w))) ;;
     runAsync "DELETE FROM quiz_questions WHERE id = ?" [VInt questionId]
       (fun w =>
          Some (with_quiz_questions
                  (delete_where (fun q => QuizQuestion.id q =? questionId)
                     (quiz_questions (db w)))
                  (db w))))
    (fun error => throw error).

End QuizStore.

(** ** The cascade order and the invariants the schema maintains *)

(** The cascade of [deleteCourse] as the specification orders it: lessons,
    quizzes, enrollments, announcements, assignments, then the course row;
    each statement with its meaning. *)
Definition cascade_order (courseId : Z)
  : list (Statement * (Database -> Database)) :=
  [(mkStatement "DELETE FROM lessons WHERE courseId = ?" [VInt courseId],
    CourseStore.delete_lessons_of courseId);
   (mkStatement "DELETE FROM quizzes WHERE courseId = ?" [VInt courseId],
    CourseStore.delete_quizzes_of courseId);
   (mkStatement "DELETE FROM enrollments WHERE courseId = ?" [VInt courseId],
    CourseStore.delete_enrollments_of courseId);
   (mkStatement "DELETE FROM announcements WHERE courseId = ?" [VInt courseId],
    CourseStore.delete_announcements_of courseId);
   (mkStatement "DELETE FROM assignments WHERE courseId = ?" [VInt courseId],
    CourseStore.delete_assignments_of courseId);
   (mkStatement "DELETE FROM courses WHERE id = ?" [VInt courseId],
    CourseStore.delete_course_row courseId)].

(** The statements of a prefix of the cascade, and the database after it. *)
Definition cascade_statements (k : nat) (courseId : Z) : list Statement :=
  map fst (firstn k (cascade_order courseId)).

Definition cascade_applied (k : nat) (courseId : Z) (d : Database) : Database :=
  fold_left (fun acc f => f acc) (map snd (firstn k (cascade_order courseId))) d.

(** [users.email] is UNIQUE. *)
Definition unique_emails (d : Database) : Prop :=
  NoDup (map User.email (rows (users d))).

(** [UNIQUE(studentId, courseId)] on enrollments. *)
Definition unique_enrollments (d : Database) : Prop :=
  NoDup (map (fun e => (Enrollment.studentId e, Enrollment.courseId e))
           (rows (enrollments d))).

(** [UNIQUE(studentId, lessonId)] on lesson_progress. *)
Definition unique_progress (d : Database) : Prop :=
  NoDup (map (fun p => (LessonProgress.studentId p, LessonProgress.lessonId p))
           (rows (lesson_progress d))).

(** How far a run of [n] statements gets on a fault schedule: the number of
    statements served, and whether a fault stopped the run. *)
Fixpoint served_before_fault (n : nat) (fs : list bool) : nat * bool :=
  match n with
  | O => (O, false)
  | S n' =>
      match fs with
      | true :: _ => (O, true)
      | false :: fs' =>
          let (k, hit) := served_before_fault n' fs' in (S k, hit)
      | [] => (n, false)
      end
  end.

(** The world a fault-free statement leaves: the database it produced, the
    statement appended to the log. *)
Definition served (st : Statement) (d : Database) (w : World) : World :=
  mkWorld d [] (issued w ++ [st]) (now w) (currentUser w) (kv_faults w).

(** The world a rejected statement leaves: the rest of the schedule, the
    statement appended to the log, the database as it was. *)
Definition rejected (st : Statement) (fs : list bool) (w : World) : World :=
  mkWorld (db w) fs (issued w ++ [st]) (now w) (currentUser w) (kv_faults w).

(** ** Reading a run *)

Definition outcome {St A} (r : Outcome A * St) : Outcome A := fst r.

Definition store {S A} (r : Outcome A * (S * World)) : S := fst (snd r).

Definition world {S A} (r : Outcome A * (S * World)) : World := snd (snd r).

(** ** Lessons created in some order *)

(** [createLesson] called for each draft in turn. *)
Fixpoint create_in_order (ds : list LessonDraft.t)
  : M (CourseStore.St.t * World) unit :=
  match ds with
  | [] => ret tt
  | d :: ds' => CourseStore.createLesson d ;; create_in_order ds'
  end.

(** A draft as [createLesson] stores it. *)
Definition stored_draft (d : LessonDraft.t) : LessonDraft.t :=
  LessonDraft.mk (LessonDraft.courseId d) (LessonDraft.title d)
    (text_or_null (LessonDraft.description d))
    (text_or_null (LessonDraft.content d))
    (text_or_null (LessonDraft.videoUrl d))
    (text_or_null (LessonDraft.fileUrl d))
    (text_or_null (LessonDraft.fileType d))
    (number_or_null (LessonDraft.duration d))
    (number_or_zero (LessonDraft.sequenceNumber d)).

(** A stored lesson without its id and timestamps. *)
Definition lesson_content (l : Lesson.row) : LessonDraft.t :=
  LessonDraft.mk (Lesson.courseId l) (Lesson.title l) (Lesson.description l)
    (Lesson.content l) (Lesson.videoUrl l) (Lesson.fileUrl l)
    (Lesson.fileType l) (Lesson.duration l) (Lesson.sequenceNumber l).

(** The lessons the store holds after the drafts were created in the given
    order and the course was fetched. *)
Definition fetched_after (ds : list LessonDraft.t) (courseId : Z)
    (s : CourseStore.St.t) (w : World) : list Lesson.row :=
  CourseStore.St.lessons
    (store ((create_in_order ds ;; CourseStore.fetchLessons courseId) (s, w))).

(** ** Sample data for the worked instances *)

(** A fault-free world around a database, at a fixed clock reading. *)
Definition sample_world (d : Database) : World :=
  mkWorld d [] [] "2024-03-01 09:00:00" None [].

(** Student 7 is active in course 3, has dropped course 4 and has completed
    course 6. *)
Definition sample_enrollments : Table Enrollment.row :=
  mkTable
    [Enrollment.mk 1 7 3 "2024-01-10 08:00:00" 40%Q active;
     Enrollment.mk 2 7 4 "2024-01-11 08:00:00" 55%Q dropped;
     Enrollment.mk 3 7 6 "2024-01-12 08:00:00" 100%Q completed]
    3.

Definition enrolled_db : Database :=
  with_enrollments sample_enrollments empty_database.

(** Student 7 has completed lesson 11 and spent 120 seconds on it. *)
Definition sample_progress : Table LessonProgress.row :=
  mkTable [LessonProgress.mk 1 7 11 1 (Some "2024-02-01 10:00:00") 120] 1.

Definition progress_db : Database :=
  with_lesson_progress sample_progress empty_database.

(** Two of the accounts that [seedDatabase] creates. *)
Definition sample_users : Table User.row :=
  mkTable
    [User.mk 1 "teacher1@school.com" "password123" "John Smith" teacher None
       (Some "Mathematics Teacher") "2024-01-01 00:00:00";
     User.mk 2 "student1@school.com" "password123" "Alice Brown" student None
       (Some "Grade 10 Student") "2024-01-01 00:00:00"]
    2.

Definition seeded_db : Database := with_users sample_users empty_database.

(** Teacher 1 owns course 3 with two lessons, a quiz with one question, one
    attempt and its answer, and an assignment; student 7 is enrolled and has
    progress on lesson 11; a course announcement stands next to a school-wide
    one. *)
Definition course_db : Database :=
  mkDatabase
    (mkTable
       (rows sample_users
        ++ [User.mk 7 "student2@school.com" "password123" "Bob Wilson" student
              None (Some "Grade 10 Student") "2024-01-01 00:00:00"])
       7)
    (mkTable [Course.mk 3 1 "Algebra I" None None None None None
                "2024-01-05 00:00:00" "2024-01-05 00:00:00"] 3)
    (mkTable [Lesson.mk 11 3 "Groups" None None None None None None 2
                "2024-01-06 00:00:00" "2024-01-06 00:00:00";
              Lesson.mk 12 3 "Sets" None None None None None None 1
                "2024-01-07 00:00:00" "2024-01-07 00:00:00"] 12)
    (mkTable [Quiz.mk 5 3 "Week 1" None (Some 1) (Some 50%Q) None
                "2024-01-08 00:00:00" "2024-01-08 00:00:00"] 5)
    (mkTable [QuizQuestion.mk 1 5 "2 + 2 = 4" true_false None (Some "True")
                (Some 1) "2024-01-08 00:00:00"] 1)
    sample_enrollments
    sample_progress
    (mkTable [QuizAttempt.mk 1 7 5 (Some 100%Q) (Some 1) (Some 1)
                "2024-02-02 00:00:00" (Some 30)] 1)
    (mkTable [QuizAnswer.mk 1 1 1 (Some "True") (Some 1)] 1)
    (mkTable [Assignment.mk 1 3 "Homework 1" None None "2024-01-09 00:00:00"] 1)
    (mkTable [Announcement.mk 1 (Some 3) 1 "Welcome" "Hello" None
                "2024-01-09 00:00:00" "2024-01-09 00:00:00";
              Announcement.mk 2 None 1 "Holiday" "School closed" None
                "2024-01-09 00:00:00" "2024-01-09 00:00:00"] 2).

(** ** Frames: what a run may have changed *)

(** Between two databases, at most the enrollments table differs. *)
Definition only_enrollments_changed (d d' : Database) : Prop :=
  d' = with_enrollments (enrollments d') d.

(** Between two databases, at most the lesson_progress table differs. *)
Definition only_lesson_progress_changed (d d' : Database) : Prop :=
  d' = with_lesson_progress (lesson_progress d') d.

(** Between two databases, at most the users table differs. *)
Definition only_users_changed (d d' : Database) : Prop :=
  d' = with_users (users d') d.

(** The same world at another reading of the clock. *)
Definition with_now (t : string) (w : World) : World :=
  mkWorld (db w) (faults w) (issued w) t (currentUser w) (kv_faults w).

(** ** The rest of the user/session store ([src/store/authStore.ts]) *)

(** [AsyncStorage.getItem('currentUser')], with [JSON.parse] undoing the
    [JSON.stringify] of [asyncStorage_setCurrentUser]. *)
Definition asyncStorage_getCurrentUser {S} : M (S * World) (option User.row) :=
  fun '(s, w) =>
    let (fault, fs) := next_fault (kv_faults w) in
    if fault
    then (Raise (JsError "AsyncStorage"), (s, with_kv_faults fs w))
    else (Ok (currentUser w), (s, with_kv_faults fs w)).

(** [AsyncStorage.removeItem('currentUser')] *)
Definition asyncStorage_removeCurrentUser {S} : M (S * World) unit :=
  fun '(s, w) =>
    let (fault, fs) := next_fault (kv_faults w) in
    if fault
    then (Raise (JsError "AsyncStorage"), (s, with_kv_faults fs w))
    else (Ok tt, (s, with_currentUser None (with_kv_faults fs w))).

Module Session.

(** [set({ user: null, isLoggedIn: false })] *)
Definition clear_session (s : Auth.State) : Auth.State :=
  Auth.mkState None (Auth.isLoading s) false.

Definition logout : M (Auth.State * World) unit :=
  set clear_session ;;
  (* Clear user session from AsyncStorage *)
  asyncStorage_removeCurrentUser.

Definition getCurrentUser : M (Auth.State * World) (option User.row) :=
  try_catch
    ((* Restore user session from AsyncStorage *)
     userData <- asyncStorage_getCurrentUser ;;
     match userData with
     | Some user =>
         set (Auth.set_session user) ;;
         ret (Some user)
     | None => ret None
     end)
    (fun _ => ret None).

(** [{ ...user, name, bio }], and [SET name = ?, bio = ?] on a row *)
Definition set_profile (name bio : string) (u : User.row) : User.row :=
  User.mk (User.id u) (User.email u) (User.password u) name (User.role u)
    (User.profileImage u) (Some bio) (User.createdAt u).

(** [set({ user: updatedUser })] *)
Definition set_user (u : User.row) (s : Auth.State) : Auth.State :=
  Auth.mkState (Some u) (Auth.isLoading s) (Auth.isLoggedIn s).

Definition no_user : string := "No user logged in".

Definition updateProfile (name bio : string) : M (Auth.State * World) unit :=
  set (Auth.set_isLoading true) ;;
  try_finally
    (try_catch
       (state <- getState ;;
        match Auth.user state with
        | None => throw (JsError no_user)
        | Some user =>
            (* Update user in database *)
            runAsync
              "UPDATE users SET name = ?, bio = ? WHERE id = ?"
              [VText name; VText bio; VInt (User.id user)]
              (fun w =>
                 Some (with_users
                         (update_where (fun u => User.id u =? User.id user)
                            (set_profile name bio) (users (db w)))
                         (db w))) ;;
            (* Update user in state *)
            set (set_user (set_profile name bio user)) ;;
            (* Update AsyncStorage *)
            asyncStorage_setCurrentUser (set_profile name bio user)
        end)
       (fun error => throw error))
    (set (Auth.set_isLoading false)).

End Session.

(** ** The rest of the course/lesson store *)

(** The argument of [createCourse]: a course without id and timestamps. *)
Module CourseDraft.
Record t : Type := mk {
  teacherId : Z;
  teacherName : option string;
  title : string;
  description : option string;
  category : option string;
  coverImage : option string;
  duration : option string;
  level : option string
}.
End CourseDraft.

Module Courses.

Definition set_courses (l : list Course.row) (s : CourseStore.St.t)
  : CourseStore.St.t :=
  CourseStore.St.mk l (CourseStore.St.lessons s)
    (CourseStore.St.currentCourse s) (CourseStore.St.isLoading s).

(** [WHERE teacherId = ? ORDER BY createdAt DESC] *)
Definition courses_of_teacher (teacherId : Z) (d : Database) : list Course.row :=
  order_by (fun a b => String.leb (Course.createdAt b) (Course.createdAt a))
    (select_where (fun c => Course.teacherId c =? teacherId) (courses d)).

Definition fetchTeacherCourses (teacherId : Z)
  : M (CourseStore.St.t * World) unit :=
  set (CourseStore.set_isLoading true) ;;
  try_finally
    (try_catch
       (result <- getAllAsync
          "SELECT * FROM courses WHERE teacherId = ? ORDER BY createdAt DESC"
          [VInt teacherId]
          (courses_of_teacher teacherId) ;;
        set (set_courses result))
       (fun _ => ret tt))
    (set (CourseStore.set_isLoading false)).

(** [courses c INNER JOIN enrollments e ON c.id = e.courseId
     WHERE e.studentId = ? ORDER BY c.createdAt DESC], projected on [c.*] *)
Definition courses_of_student (studentId : Z) (d : Database) : list Course.row :=
  order_by (fun a b => String.leb (Course.createdAt b) (Course.createdAt a))
    (map fst
       (filter (fun j => Enrollment.studentId (snd j) =? studentId)
          (flat_map
             (fun c =>
                map (fun e => (c, e))
                  (filter (fun e => Course.id c =? Enrollment.courseId e)
                     (rows (enrollments d))))
             (rows (courses d))))).

Definition fetchEnrolledCourses (studentId : Z)
  : M (CourseStore.St.t * World) unit :=
  set (CourseStore.set_isLoading true) ;;
  try_finally
    (try_catch
       (result <- getAllAsync
          "SELECT c.* FROM courses c INNER JOIN enrollments e ON c.id = e.courseId WHERE e.studentId = ? ORDER BY c.createdAt DESC"
          [VInt studentId]
          (courses_of_student studentId) ;;
        set (set_courses result))
       (fun _ => ret tt))
    (set (CourseStore.set_isLoading false)).

Definition getCourseById (courseId : Z)
  : M (CourseStore.St.t * World) (option Course.row) :=
  try_catch
    (result <- getFirstAsync
       "SELECT * FROM courses WHERE id = ?"
       [VInt courseId]
       (fun d => select_where (fun c => Course.id c =? courseId) (courses d)) ;;
     ret result)
    (fun _ => ret None).

Definition getLessonById (lessonId : Z)
  : M (CourseStore.St.t * World) (option Lesson.row) :=
  try_catch
    (result <- getFirstAsync
       "SELECT * FROM lessons WHERE id = ?"
       [VInt lessonId]
       (fun d => select_where (fun l => Lesson.id l =? lessonId) (lessons d)) ;;
     ret result)
    (fun _ => ret None).



End Courses.

(** ** Screens of the teacher and the student dashboard *)

(** What a handler tells the user: nothing, an alert, or an alert followed by
    leaving the screen. *)
Inductive Feedback : Type :=
| Silent
| Alert (title message : string)
| AlertAndGoBack (title message : string).


(** [user?.id] is truthy: there is a user and its id is not 0. *)
Definition user_id (user : option User.row) : option Z :=
  match user with
  | Some u => if User.id u =? 0 then None else Some (User.id u)
  | None => None
  end.

Module CreateCourseScreen.


End CreateCourseScreen.

Module TeacherDashboard.

(** The [onPress] of the Delete button of [handleDeleteCourse]. *)
Definition confirmDeleteCourse (user : option User.row) (courseId : Z)
  : M (CourseStore.St.t * World) Feedback :=
  try_catch
    (CourseStore.deleteCourse courseId ;;
     match user_id user with
     | Some id => Courses.fetchTeacherCourses id
     | None => ret tt
     end ;;
     ret (Alert "Success" "Course deleted successfully"))
    (fun _ => ret (Alert "Error" "Failed to delete course")).

End TeacherDashboard.

Module StudentDashboard.

(** [getProgressPercentage]: [enrollments.find(e => e.courseId === courseId)]
    on the cache of the progress store, then
    [enrollment?.completionPercentage || 0]. *)
Definition getProgressPercentage (enrollments : list Enrollment.row)
    (courseId : Z) : Q :=
  match find (fun e => Enrollment.courseId e =? courseId) enrollments with
  | Some enrollment =>
      if Qeq_bool (Enrollment.completionPercentage enrollment) 0
      then 0%Q
      else Enrollment.completionPercentage enrollment
  | None => 0%Q
  end.

End StudentDashboard.

(** ** The rest of the quiz store, and the quiz screen *)

(** [db.runAsync] of an INSERT whose [lastInsertRowId] the caller reads:
    [effect] gives the new id and the database, [None] when a constraint
    rejects the row. *)
Definition runAsync_insert {S} (q : string) (ps : list SqlValue)
    (effect : World -> option (Z * Database)) : M (S * World) Z :=
  statement (mkStatement q ps)
    (fun w => match effect w with
              | Some (id, d) => (Ok id, d)
              | None => (Raise (SqliteError SQLITE_CONSTRAINT), db w)
              end).

(** The argument of [createQuiz]. *)
Module QuizDraft.
Record t : Type := mk {
  courseId : Z;
  title : string;
  description : option string;
  totalQuestions : Z;
  passingScore : Q;
  timeLimit : option Z
}.
End QuizDraft.

(** The argument of [addQuestion]. *)
Module QuestionDraft.
Record t : Type := mk {
  quizId : Z;
  questionText : string;
  questionType : QuestionType;
  options : option string;
  correctAnswer : string;
  sequenceNumber : Z
}.
End QuestionDraft.

(** The argument of [submitQuizAttempt]. *)
Module AttemptDraft.
Record t : Type := mk {
  studentId : Z;
  quizId : Z;
  score : Q;
  totalQuestions : Z;
  correctAnswers : Z;
  attemptedAt : string;
  timeSpent : option Z
}.
End AttemptDraft.

Definition question_type_text (t : QuestionType) : string :=
  match t with
  | multiple_choice => "multiple_choice"
  | true_false => "true_false"
  | short_answer => "short_answer"
  end.

Module Quizzes.

Definition set_quizQuestions (l : list QuizQuestion.row) (s : QuizStore.St.t)
  : QuizStore.St.t :=
  QuizStore.St.mk (QuizStore.St.quizzes s) (QuizStore.St.currentQuiz s) l
    (QuizStore.St.quizAttempts s) (QuizStore.St.isLoading s).

Definition set_quizAttempts (l : list QuizAttempt.row) (s : QuizStore.St.t)
  : QuizStore.St.t :=
  QuizStore.St.mk (QuizStore.St.quizzes s) (QuizStore.St.currentQuiz s)
    (QuizStore.St.quizQuestions s) l (QuizStore.St.isLoading s).

Definition set_isLoading (b : bool) (s : QuizStore.St.t) : QuizStore.St.t :=
  QuizStore.St.mk (QuizStore.St.quizzes s) (QuizStore.St.currentQuiz s)
    (QuizStore.St.quizQuestions s) (QuizStore.St.quizAttempts s) b.

Definition getQuizById (quizId : Z)
  : M (QuizStore.St.t * World) (option Quiz.row) :=
  try_catch
    (result <- getFirstAsync
       "SELECT * FROM quizzes WHERE id = ?"
       [VInt quizId]
       (fun d => select_where (fun q => Quiz.id q =? quizId) (quizzes d)) ;;
     ret result)
    (fun _ => ret None).

(** The row [createQuiz] stores. *)
Definition quiz_row (quiz : QuizDraft.t) (ts : string) (id : Z) : Quiz.row :=
  Quiz.mk id (QuizDraft.courseId quiz) (QuizDraft.title quiz)
    (QuizDraft.description quiz) (Some (QuizDraft.totalQuestions quiz))
    (Some (QuizDraft.passingScore quiz)) (QuizDraft.timeLimit quiz) ts ts.

Definition createQuiz (quiz : QuizDraft.t) : M (QuizStore.St.t * World) Z :=
  try_catch
    (result <- runAsync_insert
       "INSERT INTO quizzes (courseId, title, description, totalQuestions, passingScore, timeLimit) VALUES (?, ?, ?, ?, ?, ?)"
       [VInt (QuizDraft.courseId quiz); VText (QuizDraft.title quiz);
        CourseStore.sql_text (QuizDraft.description quiz);
        VInt (QuizDraft.totalQuestions quiz);
        VReal (QuizDraft.passingScore quiz);
        CourseStore.sql_int (QuizDraft.timeLimit quiz)]
       (fun w =>
          Some (seq (quizzes (db w)) + 1,
                with_quizzes
                  (insert_row (quiz_row quiz (now w)) (quizzes (db w)))
                  (db w))) ;;
     ret result)
    (fun error => throw error).

(** [ORDER BY sequenceNumber ASC] on a nullable column: NULL sorts first. *)
Definition nullable_le (a b : option Z) : bool :=
  match a, b with
  | None, _ => true
  | Some _, None => false
  | Some x, Some y => x <=? y
  end.

Definition questions_of_quiz (quizId : Z) (d : Database)
  : list QuizQuestion.row :=
  order_by (fun a b => nullable_le (QuizQuestion.sequenceNumber a)
                         (QuizQuestion.sequenceNumber b))
    (select_where (fun q => QuizQuestion.quizId q =? quizId)
       (quiz_questions d)).

Definition fetchQuizQuestions (quizId : Z) : M (QuizStore.St.t * World) unit :=
  set (set_isLoading true) ;;
  try_finally
    (try_catch
       (result <- getAllAsync
          "SELECT * FROM quiz_questions WHERE quizId = ? ORDER BY sequenceNumber ASC"
          [VInt quizId]
          (questions_of_quiz quizId) ;;
        set (set_quizQuestions result))
       (fun _ => ret tt))
    (set (set_isLoading false)).

Definition addQuestion (question : QuestionDraft.t)
  : M (QuizStore.St.t * World) unit :=
  try_catch
    (runAsync
       "INSERT INTO quiz_questions (quizId, questionText, questionType, options, correctAnswer, sequenceNumber) VALUES (?, ?, ?, ?, ?, ?)"
       [VInt (QuestionDraft.quizId question);
        VText (QuestionDraft.questionText question);
        VText (question_type_text (QuestionDraft.questionType question));
        CourseStore.sql_text (QuestionDraft.options question);
        VText (QuestionDraft.correctAnswer question);
        VInt (QuestionDraft.sequenceNumber question)]
       (fun w =>
          Some (with_quiz_questions
                  (insert_row
                     (fun id =>
                        QuizQuestion.mk id (QuestionDraft.quizId question)
                          (QuestionDraft.questionText question)
                          (QuestionDraft.questionType question)
                          (QuestionDraft.options question)
                          (Some (QuestionDraft.correctAnswer question))
                          (Some (QuestionDraft.sequenceNumber question))
                          (now w))
                     (quiz_questions (db w)))
                  (db w))))
    (fun error => throw error).

(** [WHERE studentId = ? AND quizId = ? ORDER BY attemptedAt DESC] *)
Definition attempts_of (studentId quizId : Z) (d : Database)
  : list QuizAttempt.row :=
  order_by (fun a b => String.leb (QuizAttempt.attemptedAt b)
                         (QuizAttempt.attemptedAt a))
    (select_where (fun a => (QuizAttempt.studentId a =? studentId)
                            && (QuizAttempt.quizId a =? quizId))
       (quiz_attempts d)).

Definition fetchStudentAttempts (studentId quizId : Z)
  : M (QuizStore.St.t * World) unit :=
  try_catch
    (result <- getAllAsync
       "SELECT * FROM quiz_attempts WHERE studentId = ? AND quizId = ? ORDER BY attemptedAt DESC"
       [VInt studentId; VInt quizId]
       (attempts_of studentId quizId) ;;
     set (set_quizAttempts result))
    (fun _ => ret tt).

(** The row [submitQuizAttempt] stores: the INSERT names no [attemptedAt],
    so the column takes [CURRENT_TIMESTAMP] and the draft's own value is not
    used. *)
Definition attempt_row (attempt : AttemptDraft.t) (ts : string) (id : Z)
  : QuizAttempt.row :=
  QuizAttempt.mk id (AttemptDraft.studentId attempt)
    (AttemptDraft.quizId attempt) (Some (AttemptDraft.score attempt))
    (Some (AttemptDraft.totalQuestions attempt))
    (Some (AttemptDraft.correctAnswers attempt)) ts
    (AttemptDraft.timeSpent attempt).

Definition submitQuizAttempt (attempt : AttemptDraft.t)
  : M (QuizStore.St.t * World) Z :=
  try_catch
    (result <- runAsync_insert
       "INSERT INTO quiz_attempts (studentId, quizId, score, totalQuestions, correctAnswers, timeSpent) VALUES (?, ?, ?, ?, ?, ?)"
       [VInt (AttemptDraft.studentId attempt);
        VInt (AttemptDraft.quizId attempt);
        VReal (AttemptDraft.score attempt);
        VInt (AttemptDraft.totalQuestions attempt);
        VInt (AttemptDraft.correctAnswers attempt);
        CourseStore.sql_int (AttemptDraft.timeSpent attempt)]
       (fun w =>
          Some (seq (quiz_attempts (db w)) + 1,
                with_quiz_attempts
                  (insert_row (attempt_row attempt (now w))
                     (quiz_attempts (db w)))
                  (db w))) ;;
     ret result)
    (fun error => throw error).

(** [isCorrect ? 1 : 0] *)
Definition flag (b : bool) : Z := if b then 1 else 0.

Definition recordAnswer (attemptId questionId : Z) (answer : string)
    (isCorrect : bool) : M (QuizStore.St.t * World) unit :=
  try_catch
    (runAsync
       "INSERT INTO quiz_answers (attemptId, questionId, studentAnswer, isCorrect) VALUES (?, ?, ?, ?)"
       [VInt attemptId; VInt questionId; VText answer; VInt (flag isCorrect)]
       (fun w =>
          Some (with_quiz_answers
                  (insert_row
                     (fun id => QuizAnswer.mk id attemptId questionId
                                  (Some answer) (Some (flag isCorrect)))
                     (quiz_answers (db w)))
                  (db w))))
    (fun error => throw error).

End Quizzes.

Module QuizScreen.

(** The parameters handed to the QuizResult screen; [score] is a JavaScript
    number, given as the IEEE 754 double it is. *)
Record ResultParams : Type := mkResultParams {
  quizId : Z;
  courseId : Z;
  score : spec_float;
  correctAnswers : Z;
  totalQuestions : Z
}.

Inductive Submitted : Type :=
| ToQuizResult (params : ResultParams)
| SubmitAlert (title message : string).

(** [answers[question.id] || ''] *)
Definition answer_of (answers : Z -> option string) (questionId : Z) : string :=
  match answers questionId with
  | Some s => s
  | None => ""
  end.

(** [studentAnswer === question.correctAnswer] *)
Definition is_correct (studentAnswer : string) (question : QuizQuestion.row)
  : bool :=
  match QuizQuestion.correctAnswer question with
  | Some c => (studentAnswer =? c)%string
  | None => false
  end.

(** The [for (const question of quizQuestions)] loop, from the count of
    correct answers so far to the final count.  [correctCount++] is exact: an
    array has fewer than 2^32 elements, far below the safe integers. *)
Fixpoint record_answers (attemptId : Z) (answers : Z -> option string)
    (questions : list QuizQuestion.row) (correctCount : Z)
  : M (QuizStore.St.t * World) Z :=
  match questions with
  | [] => ret correctCount
  | question :: rest =>
      let studentAnswer := answer_of answers (QuizQuestion.id question) in
      let isCorrect := is_correct studentAnswer question in
      let correctCount' :=
        if isCorrect then correctCount + 1 else correctCount in
      Quizzes.recordAnswer attemptId (QuizQuestion.id question) studentAnswer
        isCorrect ;;
      record_answers attemptId answers rest correctCount'
  end.

(** [(correctCount / quizQuestions.length) * 100] in double arithmetic;
    0 / 0 is NaN. *)
Definition score_of (correctCount n : Z) : spec_float :=
  SFmul 53 1024
    (SFdiv 53 1024 (binary64_of correctCount) (binary64_of n))
    (binary64_of 100).

(** The [onPress] of the Submit button of [handleSubmitQuiz].  The clock is
    read twice: [elapsed] is what
    [Math.floor((Date.now() - startTime) / 1000)] evaluates to and [isoNow]
    what [new Date().toISOString()] evaluates to. *)
Definition confirmSubmitQuiz (userId quizId courseId : Z)
    (answers : Z -> option string) (elapsed : Z) (isoNow : string)
  : M (QuizStore.St.t * World) Submitted :=
  try_catch
    (state <- getState ;;
     let quizQuestions := QuizStore.St.quizQuestions state in
     let timeSpent := elapsed in
     attemptId <- Quizzes.submitQuizAttempt
       (AttemptDraft.mk userId quizId 0%Q
          (Z.of_nat (List.length quizQuestions)) 0 isoNow (Some timeSpent)) ;;
     correctCount <- record_answers attemptId answers quizQuestions 0 ;;
     ret (ToQuizResult
            (mkResultParams quizId courseId
               (score_of correctCount (Z.of_nat (List.length quizQuestions)))
               correctCount (Z.of_nat (List.length quizQuestions)))))
    (fun _ => ret (SubmitAlert "Error" "Failed to submit quiz")).

End QuizScreen.

(** What a submission leaves in [quiz_answers]: one row per question, in the
    order of the questions, with ids from [next] on. *)
Fixpoint answer_rows (attemptId : Z) (answers : Z -> option string)
    (questions : list QuizQuestion.row) (next : Z) : list QuizAnswer.row :=
  match questions with
  | [] => []
  | question :: rest =>
      let studentAnswer :=
        QuizScreen.answer_of answers (QuizQuestion.id question) in
      QuizAnswer.mk next attemptId (QuizQuestion.id question)
        (Some studentAnswer)
        (Some (Quizzes.flag (QuizScreen.is_correct studentAnswer question)))
      :: answer_rows attemptId answers rest (next + 1)
  end.

(** The questions answered correctly. *)
Definition correct_count (answers : Z -> option string)
    (questions : list QuizQuestion.row) : Z :=
  Z.of_nat
    (List.length
       (filter (fun question =>
                  QuizScreen.is_correct
                    (QuizScreen.answer_of answers (QuizQuestion.id question))
                    question)
          questions)).

(** AUTOINCREMENT never hands out an id twice: the stored ids are at most the
    counter. *)
Definition ids_below_seq {R} (id : R -> Z) (t : Table R) : Prop :=
  forall r, In r (rows t) -> id r <= seq t.

(** ** Sample accounts ([seedDatabase] of [src/services/database.ts]) *)

Module Seed.

Definition insert_user (email password name : string) (role : Role)
    (bio : string) : M (unit * World) unit :=
  runAsync
    "INSERT INTO users (email, password, name, role, bio) VALUES (?, ?, ?, ?, ?)"
    [VText email; VText password; VText name; VText (role_text role);
     VText bio]
    (fun w =>
       option_map (fun t => with_users t (db w))
         (insert_unique (Auth.has_email email)
            (fun id => User.mk id email password name role None (Some bio)
                         (now w))
            (users (db w)))).

Definition seedDatabase : M (unit * World) unit :=
  try_catch
    (existingTeacher <- getFirstAsync
       "SELECT id FROM users WHERE email = ?"
       [VText "teacher1@school.com"]
       (fun d => map User.id
                   (select_where (Auth.has_email "teacher1@school.com")
                      (users d))) ;;
     match existingTeacher with
     | Some _ => ret tt
     | None =>
         insert_user "teacher1@school.com" "password123" "John Smith" teacher
           "Mathematics Teacher" ;;
         insert_user "teacher2@school.com" "password123" "Sarah Johnson"
           teacher "Science Teacher" ;;
         insert_user "student1@school.com" "password123" "Alice Brown" student
           "Grade 10 Student" ;;
         insert_user "student2@school.com" "password123" "Bob Wilson" student
           "Grade 10 Student"
     end)
    (fun error => throw error).

End Seed.

(** A property of the database that every INSERT of an account keeps is kept
    by a sequence of them, however far it gets. *)
Definition kept_by_insert (I : Database -> Prop) : Prop :=
  forall (w : World) (email password name : string) (role : Role)
         (bio : string),
    I (db w) ->
    I (db (world (Seed.insert_user email password name role bio (tt, w)))).

(** The first sample teacher is stored. *)
Definition teacher1_stored (d : Database) : Prop :=
  existsb (Auth.has_email "teacher1@school.com") (rows (users d)) = true.

(** The accounts [seedDatabase] creates, in order: position, email, name,
    role and bio; the password of each is [password123]. *)
Definition sample_accounts : list (Z * string * string * Role * string) :=
  [(1, "teacher1@school.com", "John Smith", teacher, "Mathematics Teacher");
   (2, "teacher2@school.com", "Sarah Johnson", teacher, "Science Teacher");
   (3, "student1@school.com", "Alice Brown", student, "Grade 10 Student");
   (4, "student2@school.com", "Bob Wilson", student, "Grade 10 Student")].

(** A database in which one of the sample emails was registered through the
    signup screen before the sample accounts were created. *)
Definition early_signup_db : Database :=
  with_users
    (mkTable
       [User.mk 1 "student1@school.com" "secret" "Alice B." student None None
          "2024-01-01 00:00:00"]
       1)
    empty_database.

(** ** Lemmas on the engine and on the list operations *)

Lemma statement_quiet {S A} (st : Statement) (run : World -> Outcome A * Database)
    (s : S) (w : World) :
  quiet w ->
  statement st run (s, w) = (fst (run w), (s, served st (snd (run w)) w)).
Proof.
  unfold quiet, statement, served. intros Hq. rewrite Hq. simpl.
  destruct (run w) as [r d]. reflexivity.
Qed.

Lemma statement_fault {S A} (st : Statement) (run : World -> Outcome A * Database)
    (s : S) (w : World) (fs : list bool) :
  faults w = true :: fs ->
  statement st run (s, w) = (Raise (SqliteError SQLITE_ERROR), (s, rejected st fs w)).
Proof.
  unfold statement, rejected. intros Hf. rewrite Hf. reflexivity.
Qed.

Lemma statement_pass {S A} (st : Statement) (run : World -> Outcome A * Database)
    (s : S) (w : World) (fs : list bool) :
  faults w = false :: fs ->
  statement st run (s, w)
  = (fst (run w),
     (s, mkWorld (snd (run w)) fs (issued w ++ [st]) (now w) (currentUser w)
           (kv_faults w))).
Proof.
  unfold statement. intros Hf. rewrite Hf. simpl.
  destruct (run w) as [r d]. reflexivity.
Qed.

Lemma served_quiet (st : Statement) (d : Database) (w : World) :
  quiet (served st d w).
Proof. reflexivity. Qed.

(** Under a uniqueness constraint on the key [k], a predicate that fixes the
    key selects the one row that has it. *)
Lemma filter_unique {R K} (k : R -> K) (p : R -> bool) (l : list R) (e : R) :
  NoDup (map k l) ->
  (forall a b, p a = true -> p b = true -> k a = k b) ->
  In e l -> p e = true ->
  filter p l = [e].
Proof.
  intros Hnd Hk. induction l as [|a l IH]; simpl; intros Hin Hp.
  - contradiction.
  - inversion Hnd as [|? ? Hnotin Hnd']; subst.
    destruct Hin as [->|Hin].
    + rewrite Hp. f_equal.
      destruct (filter p l) as [|x xs] eqn:Hf; [reflexivity|].
      exfalso. apply Hnotin.
      assert (Hx : In x (filter p l)) by (rewrite Hf; left; reflexivity).
      apply filter_In in Hx. destruct Hx as [Hxl Hpx].
      rewrite (Hk e x Hp Hpx). apply in_map. exact Hxl.
    + destruct (p a) eqn:Hpa.
      * exfalso. apply Hnotin. rewrite (Hk a e Hpa Hp). apply in_map. exact Hin.
      * apply IH; assumption.
Qed.

Lemma filter_none {R} (p : R -> bool) (l : list R) :
  (forall e, In e l -> p e = false) -> filter p l = [].
Proof.
  induction l as [|a l IH]; simpl; intros H; [reflexivity|].
  rewrite (H a (or_introl eq_refl)). apply IH. intros e He. apply H. right. exact He.
Qed.

Lemma filter_update {R} (p : R -> bool) (f : R -> R) (l : list R) :
  (forall r, p (f r) = p r) ->
  filter p (map (fun r => if p r then f r else r) l) = map f (filter p l).
Proof.
  intros Hpf. induction l as [|a l IH]; simpl; [reflexivity|].
  destruct (p a) eqn:Hpa.
  - rewrite Hpf, Hpa. simpl. f_equal. exact IH.
  - rewrite Hpa. exact IH.
Qed.

Lemma existsb_none {R} (p : R -> bool) (l : list R) :
  filter p l = [] -> existsb p l = false.
Proof.
  induction l as [|a l IH]; simpl; [reflexivity|].
  destruct (p a); [discriminate|]. exact IH.
Qed.

Lemma enrollment_key (studentId courseId : Z) (a b : Enrollment.row) :
  Progress.enrollment_of studentId courseId a = true ->
  Progress.enrollment_of studentId courseId b = true ->
  (Enrollment.studentId a, Enrollment.courseId a)
  = (Enrollment.studentId b, Enrollment.courseId b).
Proof.
  unfold Progress.enrollment_of. intros Ha Hb.
  apply andb_true_iff in Ha, Hb. destruct Ha as [Ha1 Ha2], Hb as [Hb1 Hb2].
  apply Z.eqb_eq in Ha1, Ha2, Hb1, Hb2. congruence.
Qed.

Lemma progress_key (studentId lessonId : Z) (a b : LessonProgress.row) :
  Progress.progress_of studentId lessonId a = true ->
  Progress.progress_of studentId lessonId b = true ->
  (LessonProgress.studentId a, LessonProgress.lessonId a)
  = (LessonProgress.studentId b, LessonProgress.lessonId b).
Proof.
  unfold Progress.progress_of. intros Ha Hb.
  apply andb_true_iff in Ha, Hb. destruct Ha as [Ha1 Ha2], Hb as [Hb1 Hb2].
  apply Z.eqb_eq in Ha1, Ha2, Hb1, Hb2. congruence.
Qed.

(** ** enrollInCourse *)

Section EnrollInCourse.

Variables (s : Progress.St.t) (w : World) (studentId courseId : Z).
Hypothesis Hquiet : quiet w.

Let mine := Progress.enrollment_of studentId courseId.
Let table := enrollments (db w).

(** The first look-up decides the branch. *)
Lemma enroll_when_active (e : Enrollment.row) (rest : list Enrollment.row) :
  select_where mine table = e :: rest ->
  Enrollment.status e = active ->
  Progress.enrollInCourse studentId courseId (s, w)
  = (Raise (JsError Progress.already_enrolled),
     (s, served
           (mkStatement
              "SELECT id, status FROM enrollments WHERE studentId = ? AND courseId = ?"
              [VInt studentId; VInt courseId])
           (db w) w)).
Proof.
  intros Hsel Hst.
  unfold Progress.enrollInCourse, try_catch, bind, getFirstAsync; cbv beta.
  rewrite statement_quiet by exact Hquiet. simpl.
  fold mine. fold table. rewrite Hsel. simpl. rewrite Hst. reflexivity.
Qed.

Lemma enroll_when_inactive (e : Enrollment.row) (rest : list Enrollment.row) :
  select_where mine table = e :: rest ->
  Enrollment.status e <> active ->
  outcome (Progress.enrollInCourse studentId courseId (s, w)) = Ok tt
  /\ store (Progress.enrollInCourse studentId courseId (s, w)) = s
  /\ db (world (Progress.enrollInCourse studentId courseId (s, w)))
     = with_enrollments (update_where mine Progress.reactivate table) (db w).
Proof.
  intros Hsel Hst.
  unfold Progress.enrollInCourse, try_catch, bind, getFirstAsync, runAsync;
    cbv beta.
  rewrite statement_quiet by exact Hquiet. simpl.
  fold mine. fold table. rewrite Hsel. simpl.
  destruct (Enrollment.status e) eqn:He; [congruence| |]; simpl; auto.
Qed.

Lemma enroll_when_absent :
  select_where mine table = [] ->
  outcome (Progress.enrollInCourse studentId courseId (s, w)) = Ok tt
  /\ store (Progress.enrollInCourse studentId courseId (s, w)) = s
  /\ db (world (Progress.enrollInCourse studentId courseId (s, w)))
     = with_enrollments
         (insert_row
            (fun id => Enrollment.mk id studentId courseId (now w) 0%Q active)
            table)
         (db w).
Proof.
  intros Hsel.
  unfold Progress.enrollInCourse, try_catch, bind, getFirstAsync, runAsync;
    cbv beta.
  rewrite statement_quiet by exact Hquiet. simpl.
  fold mine. fold table. rewrite Hsel. simpl.
  unfold insert_unique. rewrite existsb_none by exact Hsel. simpl. auto.
Qed.

End EnrollInCourse.

Lemma filter_update_others {R} (p : R -> bool) (f : R -> R) (l : list R) :
  (forall r, p (f r) = p r) ->
  filter (fun r => negb (p r)) (map (fun r => if p r then f r else r) l)
  = filter (fun r => negb (p r)) l.
Proof.
  intros Hpf. induction l as [|a l IH]; simpl; [reflexivity|].
  destruct (p a) eqn:Hpa.
  - rewrite Hpf, Hpa. simpl. exact IH.
  - rewrite Hpa. simpl. f_equal. exact IH.
Qed.

Lemma reactivate_keeps_key (studentId courseId : Z) (e : Enrollment.row) :
  Progress.enrollment_of studentId courseId (Progress.reactivate e)
  = Progress.enrollment_of studentId courseId e.
Proof. reflexivity. Qed.

Lemma reactivate_row (studentId courseId : Z) (e : Enrollment.row) :
  Progress.enrollment_of studentId courseId e = true ->
  Progress.reactivate e
  = Enrollment.mk (Enrollment.id e) studentId courseId (Enrollment.enrolledAt e)
      0%Q active.
Proof.
  unfold Progress.enrollment_of, Progress.reactivate. intros H.
  apply andb_true_iff in H. destruct H as [H1 H2].
  apply Z.eqb_eq in H1, H2. rewrite H1, H2. reflexivity.
Qed.

Lemma select_enrollment (d : Database) (studentId courseId : Z)
    (e : Enrollment.row) :
  unique_enrollments d ->
  In e (rows (enrollments d)) ->
  Progress.enrollment_of studentId courseId e = true ->
  select_where (Progress.enrollment_of studentId courseId) (enrollments d) = [e].
Proof.
  intros Hu Hin He.
  apply (filter_unique
           (fun x => (Enrollment.studentId x, Enrollment.courseId x)));
    [exact Hu | apply enrollment_key | exact Hin | exact He].
Qed.

(** Re-enrolling over a stored row that is not active: the row is rewritten
    in place. *)
Lemma enroll_reactivation (s : Progress.St.t) (w : World)
    (studentId courseId : Z) (e : Enrollment.row) :
  quiet w -> unique_enrollments (db w) ->
  In e (rows (enrollments (db w))) ->
  Progress.enrollment_of studentId courseId e = true ->
  Enrollment.status e <> active ->
  let r := Progress.enrollInCourse studentId courseId (s, w) in
  let mine := Progress.enrollment_of studentId courseId in
  outcome r = Ok tt
  /\ db (world r)
     = with_enrollments
         (update_where mine Progress.reactivate (enrollments (db w))) (db w)
  /\ filter mine (rows (enrollments (db (world r))))
     = [Enrollment.mk (Enrollment.id e) studentId courseId
          (Enrollment.enrolledAt e) 0%Q active]
  /\ filter (fun x => negb (mine x)) (rows (enrollments (db (world r))))
     = filter (fun x => negb (mine x)) (rows (enrollments (db w)))
  /\ List.length (rows (enrollments (db (world r))))
     = List.length (rows (enrollments (db w))).
Proof.
  intros Hq Hu Hin Hmine Hst r mine. subst r mine.
  pose proof (select_enrollment (db w) studentId courseId e Hu Hin Hmine)
    as Hsel.
  destruct (enroll_when_inactive s w studentId courseId Hq e [] Hsel Hst)
    as (Hout & _ & Hdb).
  split; [exact Hout|]. split; [exact Hdb|].
  rewrite Hdb. unfold select_where in Hsel.
  cbn [enrollments with_enrollments rows update_where].
  split; [|split].
  - rewrite filter_update by apply reactivate_keeps_key.
    rewrite Hsel. simpl. f_equal. apply reactivate_row. exact Hmine.
  - apply filter_update_others. apply reactivate_keeps_key.
  - apply length_map.
Qed.

(** C1: for every student and course, on a database that serves the
    statements, [enrollInCourse] (a) fails with the already-enrolled error,
    leaving the database as it was, when the stored enrollment of the pair is
    active; (b) rewrites the stored row to status active and completion 0,
    adding no row, when it is dropped; (c) appends a fresh row with status
    active and completion 0 when the pair has no row. *)
Theorem enrollInCourse_three_cases (s : Progress.St.t) (w : World)
    (studentId courseId : Z) :
  quiet w -> unique_enrollments (db w) ->
  let r := Progress.enrollInCourse studentId courseId (s, w) in
  let mine := Progress.enrollment_of studentId courseId in
  let before := rows (enrollments (db w)) in
  let after := rows (enrollments (db (world r))) in
  (forall e, In e before -> mine e = true -> Enrollment.status e = active ->
     outcome r = Raise (JsError "Already enrolled in this course")
     /\ db (world r) = db w)
  /\ (forall e, In e before -> mine e = true -> Enrollment.status e = dropped ->
     outcome r = Ok tt
     /\ filter mine after
        = [Enrollment.mk (Enrollment.id e) studentId courseId
             (Enrollment.enrolledAt e) 0%Q active]
     /\ filter (fun x => negb (mine x)) after
        = filter (fun x => negb (mine x)) before
     /\ List.length after = List.length before
     /\ seq (enrollments (db (world r))) = seq (enrollments (db w)))
  /\ ((forall e, In e before -> mine e = false) ->
     outcome r = Ok tt
     /\ after
        = before ++ [Enrollment.mk (seq (enrollments (db w)) + 1) studentId
                       courseId (now w) 0%Q active]
     /\ seq (enrollments (db (world r))) = seq (enrollments (db w)) + 1).
Proof.
  intros Hq Hu r mine before after. repeat split.
  - assert (Hsel : select_where mine (enrollments (db w)) = [e])
      by (apply select_enrollment; assumption).
    subst r. rewrite (enroll_when_active s w studentId courseId Hq e [] Hsel H1).
    reflexivity.
  - assert (Hsel : select_where mine (enrollments (db w)) = [e])
      by (apply select_enrollment; assumption).
    subst r. rewrite (enroll_when_active s w studentId courseId Hq e [] Hsel H1).
    reflexivity.
  - apply (enroll_reactivation s w studentId courseId e); auto; congruence.
  - apply (enroll_reactivation s w studentId courseId e); auto; congruence.
  - apply (enroll_reactivation s w studentId courseId e); auto; congruence.
  - apply (enroll_reactivation s w studentId courseId e); auto; congruence.
  - assert (Hst : Enrollment.status e <> active) by congruence.
    destruct (enroll_reactivation s w studentId courseId e Hq Hu H H0 Hst)
      as (_ & Hdb & _).
    subst r. rewrite Hdb. reflexivity.
  - apply (enroll_when_absent s w studentId courseId Hq).
    apply filter_none. assumption.
  - destruct (enroll_when_absent s w studentId courseId Hq) as (_ & _ & Hdb).
    { apply filter_none. assumption. }
    subst after r. rewrite Hdb. reflexivity.
  - destruct (enroll_when_absent s w studentId courseId Hq) as (_ & _ & Hdb).
    { apply filter_none. assumption. }
    subst r. rewrite Hdb. reflexivity.
Qed.

Lemma enrolled_db_unique : unique_enrollments enrolled_db.
Proof.
  unfold unique_enrollments. simpl.
  repeat constructor; simpl; intuition congruence.
Qed.

Lemma enrollInCourse_three_cases_witness :
  outcome (Progress.enrollInCourse 7 3
             (Progress.initial, sample_world enrolled_db))
  = Raise (JsError "Already enrolled in this course")
  /\ filter (Progress.enrollment_of 7 4)
       (rows (enrollments
                (db (world (Progress.enrollInCourse 7 4
                              (Progress.initial, sample_world enrolled_db))))))
     = [Enrollment.mk 2 7 4 "2024-01-11 08:00:00" 0%Q active]
  /\ rows (enrollments
             (db (world (Progress.enrollInCourse 7 5
                           (Progress.initial, sample_world enrolled_db)))))
     = rows sample_enrollments
       ++ [Enrollment.mk 4 7 5 "2024-03-01 09:00:00" 0%Q active].
Proof.
  split; [|split].
  - destruct (enrollInCourse_three_cases Progress.initial
                (sample_world enrolled_db) 7 3 eq_refl enrolled_db_unique)
      as (Hactive & _ & _).
    destruct (Hactive (Enrollment.mk 1 7 3 "2024-01-10 08:00:00" 40%Q active))
      as (Hout & _); [simpl; auto | reflexivity | reflexivity | exact Hout].
  - destruct (enrollInCourse_three_cases Progress.initial
                (sample_world enrolled_db) 7 4 eq_refl enrolled_db_unique)
      as (_ & Hdropped & _).
    destruct (Hdropped (Enrollment.mk 2 7 4 "2024-01-11 08:00:00" 55%Q dropped))
      as (_ & Hrow & _); [simpl; auto | reflexivity | reflexivity | exact Hrow].
  - destruct (enrollInCourse_three_cases Progress.initial
                (sample_world enrolled_db) 7 5 eq_refl enrolled_db_unique)
      as (_ & _ & Habsent).
    destruct Habsent as (_ & Hrows & _); [|exact Hrows].
    simpl. intros e [<-|[<-|[<-|[]]]]; reflexivity.
Defined.

(** C10: [enrollInCourse] reactivates every stored enrollment that is not
    active, a completed one included: the call succeeds, the row of the pair
    gets status active and completion 0 (the completed state is gone), and no
    row is added. *)
Theorem enrollInCourse_erases_completed (s : Progress.St.t) (w : World)
    (studentId courseId : Z) (e : Enrollment.row) :
  quiet w -> unique_enrollments (db w) ->
  In e (rows (enrollments (db w))) ->
  Progress.enrollment_of studentId courseId e = true ->
  Enrollment.status e = completed ->
  let r := Progress.enrollInCourse studentId courseId (s, w) in
  outcome r = Ok tt
  /\ filter (Progress.enrollment_of studentId courseId)
       (rows (enrollments (db (world r))))
     = [Enrollment.mk (Enrollment.id e) studentId courseId
          (Enrollment.enrolledAt e) 0%Q active]
  /\ List.length (rows (enrollments (db (world r))))
     = List.length (rows (enrollments (db w))).
Proof.
  intros Hq Hu Hin Hmine Hst r.
  assert (Hna : Enrollment.status e <> active) by congruence.
  destruct (enroll_reactivation s w studentId courseId e Hq Hu Hin Hmine Hna)
    as (Hout & _ & Hrow & _ & Hlen).
  auto.
Qed.

Lemma enrollInCourse_erases_completed_witness :
  outcome (Progress.enrollInCourse 7 6
             (Progress.initial, sample_world enrolled_db)) = Ok tt
  /\ filter (Progress.enrollment_of 7 6)
       (rows (enrollments
                (db (world (Progress.enrollInCourse 7 6
                              (Progress.initial, sample_world enrolled_db))))))
     = [Enrollment.mk 3 7 6 "2024-01-12 08:00:00" 0%Q active].
Proof.
  destruct (enrollInCourse_erases_completed Progress.initial
              (sample_world enrolled_db) 7 6
              (Enrollment.mk 3 7 6 "2024-01-12 08:00:00" 100%Q completed)
              eq_refl enrolled_db_unique)
    as (Hout & Hrow & _); [simpl; auto | reflexivity | reflexivity |].
  split; [exact Hout | exact Hrow].
Defined.

(** ** Lesson progress: completion marks and time spent *)

Lemma update_none {R} (p : R -> bool) (f : R -> R) (t : Table R) :
  select_where p t = [] -> update_where p f t = t.
Proof.
  unfold select_where, update_where. destruct t as [l n]. simpl. intros H.
  f_equal. induction l as [|a l IH]; simpl in *; [reflexivity|].
  destruct (p a); [discriminate|]. f_equal. exact (IH H).
Qed.

Lemma with_lesson_progress_same (d : Database) :
  with_lesson_progress (lesson_progress d) d = d.
Proof. destruct d. reflexivity. Qed.

Lemma select_progress (d : Database) (studentId lessonId : Z)
    (p : LessonProgress.row) :
  unique_progress d ->
  In p (rows (lesson_progress d)) ->
  Progress.progress_of studentId lessonId p = true ->
  select_where (Progress.progress_of studentId lessonId) (lesson_progress d)
  = [p].
Proof.
  intros Hu Hin Hp.
  apply (filter_unique
           (fun x => (LessonProgress.studentId x, LessonProgress.lessonId x)));
    [exact Hu | apply progress_key | exact Hin | exact Hp].
Qed.

Lemma select_after_insert {R} (p : R -> bool) (mk : Z -> R) (t : Table R) :
  select_where p t = [] -> p (mk (seq t + 1)) = true ->
  select_where p (insert_row mk t) = [mk (seq t + 1)].
Proof.
  unfold select_where, insert_row. simpl. intros Hnone Hp.
  rewrite filter_app, Hnone. simpl. rewrite Hp. reflexivity.
Qed.

Section LessonMarks.

Variables (s : Progress.St.t) (w : World) (studentId lessonId : Z).
Hypothesis Hquiet : quiet w.

Lemma complete_when_present (p : LessonProgress.row)
    (rest : list LessonProgress.row) :
  select_where (Progress.progress_of studentId lessonId)
    (lesson_progress (db w)) = p :: rest ->
  exists w',
    Progress.markLessonComplete studentId lessonId (s, w) = (Ok tt, (s, w'))
    /\ quiet w' /\ now w' = now w
    /\ db w'
       = with_lesson_progress
           (update_where (Progress.progress_of studentId lessonId)
              (Progress.stamp_complete (now w)) (lesson_progress (db w)))
           (db w).
Proof.
  intros Hsel.
  unfold Progress.markLessonComplete, try_catch, bind, getFirstAsync, runAsync;
    cbv beta.
  rewrite statement_quiet by exact Hquiet. simpl.
  rewrite Hsel. simpl. eexists. repeat split.
Qed.

Lemma complete_when_absent :
  select_where (Progress.progress_of studentId lessonId)
    (lesson_progress (db w)) = [] ->
  exists w',
    Progress.markLessonComplete studentId lessonId (s, w) = (Ok tt, (s, w'))
    /\ quiet w' /\ now w' = now w
    /\ db w'
       = with_lesson_progress
           (insert_row
              (fun id => LessonProgress.mk id studentId lessonId 1
                           (Some (now w)) 0)
              (lesson_progress (db w)))
           (db w).
Proof.
  intros Hsel.
  unfold Progress.markLessonComplete, try_catch, bind, getFirstAsync, runAsync;
    cbv beta.
  rewrite statement_quiet by exact Hquiet. simpl.
  rewrite Hsel. simpl.
  unfold insert_unique. rewrite existsb_none by exact Hsel. simpl.
  eexists. repeat split.
Qed.

Lemma incomplete_always :
  exists w',
    Progress.markLessonIncomplete studentId lessonId (s, w) = (Ok tt, (s, w'))
    /\ quiet w' /\ now w' = now w
    /\ db w'
       = with_lesson_progress
           (update_where (Progress.progress_of studentId lessonId)
              Progress.clear_complete (lesson_progress (db w)))
           (db w).
Proof.
  unfold Progress.markLessonIncomplete, try_catch, runAsync; cbv beta.
  rewrite statement_quiet by exact Hquiet. simpl.
  eexists. repeat split.
Qed.

End LessonMarks.

Lemma update_rows_none {R} (p : R -> bool) (f : R -> R) (l : list R) :
  (forall e, In e l -> p e = false) ->
  map (fun r => if p r then f r else r) l = l.
Proof.
  induction l as [|a l IH]; simpl; intros H; [reflexivity|].
  rewrite (H a (or_introl eq_refl)). f_equal. apply IH.
  intros e He. apply H. right. exact He.
Qed.

Lemma progress_of_new (studentId lessonId id c t : Z) (at_ : option string) :
  Progress.progress_of studentId lessonId
    (LessonProgress.mk id studentId lessonId c at_ t) = true.
Proof.
  unfold Progress.progress_of. simpl. rewrite !Z.eqb_refl. reflexivity.
Qed.

Lemma progress_row_eta (studentId lessonId : Z) (p : LessonProgress.row)
    (c t : Z) (at_ : option string) :
  Progress.progress_of studentId lessonId p = true ->
  LessonProgress.mk (LessonProgress.id p) (LessonProgress.studentId p)
    (LessonProgress.lessonId p) c at_ t
  = LessonProgress.mk (LessonProgress.id p) studentId lessonId c at_ t.
Proof.
  unfold Progress.progress_of. intros H.
  apply andb_true_iff in H. destruct H as [H1 H2].
  apply Z.eqb_eq in H1, H2. rewrite H1, H2. reflexivity.
Qed.

(** C2 (amended): [markLessonComplete] is an upsert keyed on
    (studentId, lessonId): it rewrites the stored row of the pair
    (isCompleted 1, completedAt stamped) or, when there is none, inserts one.
    [markLessonIncomplete] is a plain UPDATE: it rewrites the stored row
    (isCompleted 0, completedAt NULL) and, when there is none, leaves the
    database as it was - it inserts nothing.  For a pair without a row,
    [markLessonComplete] followed by [markLessonIncomplete] leaves exactly
    one row of the pair, with isCompleted 0 and completedAt NULL. *)
Theorem markLesson_upsert_and_update (s : Progress.St.t) (w : World)
    (studentId lessonId : Z) :
  quiet w -> unique_progress (db w) ->
  let mine := Progress.progress_of studentId lessonId in
  let before := rows (lesson_progress (db w)) in
  let next := seq (lesson_progress (db w)) + 1 in
  let after (r : Outcome unit * (Progress.St.t * World)) :=
    rows (lesson_progress (db (world r))) in
  let done := Progress.markLessonComplete studentId lessonId (s, w) in
  let undone := Progress.markLessonIncomplete studentId lessonId (s, w) in
  let both :=
    (Progress.markLessonComplete studentId lessonId ;;
     Progress.markLessonIncomplete studentId lessonId) (s, w) in
  (forall p, In p before -> mine p = true ->
     outcome done = Ok tt
     /\ filter mine (after done)
        = [LessonProgress.mk (LessonProgress.id p) studentId lessonId 1
             (Some (now w)) (LessonProgress.timeSpent p)]
     /\ List.length (after done) = List.length before
     /\ outcome undone = Ok tt
     /\ filter mine (after undone)
        = [LessonProgress.mk (LessonProgress.id p) studentId lessonId 0
             None (LessonProgress.timeSpent p)]
     /\ List.length (after undone) = List.length before)
  /\ ((forall p, In p before -> mine p = false) ->
     outcome done = Ok tt
     /\ after done
        = before ++ [LessonProgress.mk next studentId lessonId 1
                       (Some (now w)) 0]
     /\ outcome undone = Ok tt
     /\ db (world undone) = db w
     /\ outcome both = Ok tt
     /\ after both
        = before ++ [LessonProgress.mk next studentId lessonId 0 None 0]
     /\ filter mine (after both)
        = [LessonProgress.mk next studentId lessonId 0 None 0]).
Proof.
  intros Hq Hu mine before next after done undone both.
  subst mine before next after done undone both. cbv beta.
  destruct (incomplete_always s w studentId lessonId Hq)
    as (wi & Hi & _ & _ & Hidb).
  split.
  - intros p Hin Hp.
    pose proof (select_progress (db w) studentId lessonId p Hu Hin Hp) as Hsel.
    destruct (complete_when_present s w studentId lessonId Hq p [] Hsel)
      as (wc & Hc & _ & _ & Hcdb).
    rewrite Hc, Hi. unfold outcome, world. simpl fst. simpl snd.
    rewrite Hcdb, Hidb. unfold select_where in Hsel.
    cbn [lesson_progress with_lesson_progress rows update_where].
    rewrite !filter_update by reflexivity. rewrite Hsel. simpl map.
    unfold Progress.stamp_complete, Progress.clear_complete.
    rewrite !(progress_row_eta studentId lessonId p) by exact Hp.
    rewrite !length_map. repeat split.
  - intros Hnone.
    assert (Hsel : select_where (Progress.progress_of studentId lessonId)
                     (lesson_progress (db w)) = [])
      by (apply filter_none; exact Hnone).
    destruct (complete_when_absent s w studentId lessonId Hq Hsel)
      as (wc & Hc & Hcq & Hcnow & Hcdb).
    destruct (incomplete_always s wc studentId lessonId Hcq)
      as (wb & Hb & _ & _ & Hbdb).
    unfold bind. rewrite Hc, Hi, Hb. unfold outcome, world. simpl fst. simpl snd.
    rewrite Hbdb, Hidb, Hcdb.
    rewrite (update_none _ _ _ Hsel), with_lesson_progress_same.
    cbn [lesson_progress with_lesson_progress rows update_where insert_row].
    rewrite map_app, (update_rows_none _ _ _ Hnone). simpl map.
    rewrite progress_of_new. unfold Progress.clear_complete. simpl.
    rewrite filter_app. unfold select_where in Hsel. rewrite Hsel. simpl.
    rewrite progress_of_new. repeat split.
Qed.

Lemma progress_db_unique : unique_progress progress_db.
Proof.
  unfold unique_progress. simpl.
  repeat constructor; simpl; intuition congruence.
Qed.

Lemma markLesson_upsert_and_update_witness :
  filter (Progress.progress_of 7 11)
    (rows (lesson_progress
             (db (world (Progress.markLessonIncomplete 7 11
                           (Progress.initial, sample_world progress_db))))))
  = [LessonProgress.mk 1 7 11 0 None 120]
  /\ rows (lesson_progress
             (db (world ((Progress.markLessonComplete 7 12 ;;
                          Progress.markLessonIncomplete 7 12)
                           (Progress.initial, sample_world progress_db)))))
     = rows sample_progress ++ [LessonProgress.mk 2 7 12 0 None 0].
Proof.
  destruct (markLesson_upsert_and_update Progress.initial
              (sample_world progress_db) 7 11 eq_refl progress_db_unique)
    as (Hpresent & _).
  destruct (markLesson_upsert_and_update Progress.initial
              (sample_world progress_db) 7 12 eq_refl progress_db_unique)
    as (_ & Habsent).
  split.
  - destruct (Hpresent
                (LessonProgress.mk 1 7 11 1 (Some "2024-02-01 10:00:00") 120))
      as (_ & _ & _ & _ & Hrow & _); [simpl; auto | reflexivity | exact Hrow].
  - destruct Habsent as (_ & _ & _ & _ & _ & Hrows & _); [|exact Hrows].
    simpl. intros p [<-|[]]. reflexivity.
Defined.

(** C2, the claim as written fails: on a pair without a progress row,
    [markLessonIncomplete] succeeds and still no row of the pair exists. *)
Lemma markLessonIncomplete_creates_no_row :
  select_where (Progress.progress_of 7 12) (lesson_progress progress_db) = []
  /\ outcome (Progress.markLessonIncomplete 7 12
                (Progress.initial, sample_world progress_db)) = Ok tt
  /\ select_where (Progress.progress_of 7 12)
       (lesson_progress
          (db (world (Progress.markLessonIncomplete 7 12
                        (Progress.initial, sample_world progress_db))))) = []
  /\ rows (lesson_progress
             (db (world (Progress.markLessonIncomplete 7 12
                           (Progress.initial, sample_world progress_db)))))
     = rows (lesson_progress progress_db).
Proof. vm_compute. repeat split. Qed.

Lemma update_twice {R} (p : R -> bool) (f g : R -> R) (t : Table R) :
  (forall r, p (f r) = p r) -> (forall r, g (f r) = g r) ->
  update_where p g (update_where p f t) = update_where p g t.
Proof.
  intros Hp Hg. unfold update_where. simpl. f_equal.
  rewrite map_map. apply map_ext. intros r.
  destruct (p r) eqn:Hr.
  - rewrite Hp, Hr. apply Hg.
  - rewrite Hr. reflexivity.
Qed.

Lemma select_after_update {R} (p : R -> bool) (f : R -> R) (t : Table R) :
  (forall r, p (f r) = p r) ->
  select_where p (update_where p f t) = map f (select_where p t).
Proof. intros Hp. unfold select_where, update_where. simpl. apply filter_update. exact Hp. Qed.

Section TimeSpent.

Variables (s : Progress.St.t) (w : World) (studentId lessonId timeSpent : Z).
Hypothesis Hquiet : quiet w.

Lemma time_when_present (p : LessonProgress.row)
    (rest : list LessonProgress.row) :
  select_where (Progress.progress_of studentId lessonId)
    (lesson_progress (db w)) = p :: rest ->
  exists w',
    Progress.updateLessonTimeSpent studentId lessonId timeSpent (s, w)
    = (Ok tt, (s, w'))
    /\ quiet w' /\ now w' = now w
    /\ db w'
       = with_lesson_progress
           (update_where (Progress.progress_of studentId lessonId)
              (Progress.set_timeSpent
                 (js_add (LessonProgress.timeSpent p) timeSpent))
              (lesson_progress (db w)))
           (db w).
Proof.
  intros Hsel.
  unfold Progress.updateLessonTimeSpent, try_catch, bind, getFirstAsync,
    runAsync; cbv beta.
  rewrite statement_quiet by exact Hquiet. simpl.
  rewrite Hsel. simpl. eexists. repeat split.
Qed.

Lemma time_when_absent :
  select_where (Progress.progress_of studentId lessonId)
    (lesson_progress (db w)) = [] ->
  exists w',
    Progress.updateLessonTimeSpent studentId lessonId timeSpent (s, w)
    = (Ok tt, (s, w'))
    /\ quiet w' /\ now w' = now w
    /\ db w'
       = with_lesson_progress
           (insert_row
              (fun id => LessonProgress.mk id studentId lessonId 0 None
                           (js_number timeSpent))
              (lesson_progress (db w)))
           (db w).
Proof.
  intros Hsel.
  unfold Progress.updateLessonTimeSpent, try_catch, bind, getFirstAsync,
    runAsync; cbv beta.
  rewrite statement_quiet by exact Hquiet. simpl.
  rewrite Hsel. simpl.
  unfold insert_unique. rewrite existsb_none by exact Hsel. simpl.
  eexists. repeat split.
Qed.

End TimeSpent.

Lemma with_lesson_progress_twice (t1 t2 : Table LessonProgress.row)
    (d : Database) :
  with_lesson_progress t2 (with_lesson_progress t1 d)
  = with_lesson_progress t2 d.
Proof. reflexivity. Qed.

Lemma lesson_progress_with (t : Table LessonProgress.row) (d : Database) :
  lesson_progress (with_lesson_progress t d) = t.
Proof. reflexivity. Qed.

(** A safe integer is a double: nothing is rounded. *)
Lemma js_number_safe (z : Z) : safe_integer z -> js_number z = z.
Proof.
  unfold safe_integer, max_safe_integer, js_number. intros Hz.
  destruct (Z.eq_dec (Z.abs z) 0) as [H0|H0].
  - rewrite H0. reflexivity.
  - assert (Hlog : Z.log2 (Z.abs z) < 53).
    { apply Z.log2_lt_pow2; lia. }
    destruct (Z.log2 (Z.abs z) - 52 <=? 0) eqn:Hd; [reflexivity|].
    apply Z.leb_gt in Hd. lia.
Qed.

(** While the operands and the sum are safe integers, the JavaScript sum is
    the sum. *)
Lemma js_add_safe (a b : Z) :
  safe_integer a -> safe_integer b -> safe_integer (a + b) ->
  js_add a b = a + b.
Proof.
  intros Ha Hb Hab. unfold js_add.
  rewrite (js_number_safe a Ha), (js_number_safe b Hb).
  apply js_number_safe. exact Hab.
Qed.

(** Where it rounds, [js_add] rounds as IEEE 754 binary64 addition does. *)
Lemma js_add_is_binary64_add :
  Forall (fun '(a, b) => binary64_add a b = binary64_of (js_add a b))
    [(120, 45); (30, 30); (-7, 3);
     (9007199254740991, 1); (9007199254740991, 2); (9007199254740992, 1);
     (9007199254740992, 2); (9007199254740992, 3); (9007199254740994, 1);
     (-9007199254740992, -1); (-9007199254740992, -3);
     (18014398509481984, 2); (18014398509481984, 3);
     (9223372036854775807, 1); (4611686018427387904, 4611686018427387904)].
Proof. repeat constructor. Qed.







(** ** login and signup *)

Lemma role_eqb_eq (a b : Role) : role_eqb a b = true <-> a = b.
Proof. destruct a, b; simpl; split; intros H; congruence. Qed.

Lemma matches_all_iff (email password : string) (role : Role) (u : User.row) :
  Auth.matches_all email password role u = true
  <-> User.email u = email /\ User.password u = password /\ User.role u = role.
Proof.
  unfold Auth.matches_all.
  rewrite !andb_true_iff, !String.eqb_eq, role_eqb_eq. tauto.
Qed.

Lemma matches_credentials_iff (email password : string) (u : User.row) :
  Auth.matches_credentials email password u = true
  <-> User.email u = email /\ User.password u = password.
Proof.
  unfold Auth.matches_credentials.
  rewrite andb_true_iff, !String.eqb_eq. tauto.
Qed.

Section Login.

Variables (s : Auth.State) (w : World) (email password : string) (role : Role).
Hypothesis Hquiet : quiet w.

Lemma login_match (u : User.row) (rest : list User.row) :
  select_where (Auth.matches_all email password role) (users (db w))
  = u :: rest ->
  kv_faults w = [] ->
  exists w',
    Auth.login email password role (s, w)
    = (Ok tt, (Auth.mkState (Some u) false true, w'))
    /\ db w' = db w /\ currentUser w' = Some u.
Proof.
  intros Hsel Hkv.
  unfold Auth.login, bind, try_finally, try_catch, getFirstAsync; cbv beta.
  simpl set. cbv beta iota. rewrite statement_quiet by exact Hquiet. simpl.
  rewrite Hsel. simpl. unfold with_kv_faults, with_currentUser. simpl.
  rewrite Hkv. simpl. eexists. repeat split.
Qed.

Lemma login_wrong_role (u : User.row) (rest : list User.row) :
  select_where (Auth.matches_all email password role) (users (db w)) = [] ->
  select_where (Auth.matches_credentials email password) (users (db w))
  = u :: rest ->
  exists w',
    Auth.login email password role (s, w)
    = (Raise (JsError (Auth.role_mismatch (User.role u))),
       (Auth.set_isLoading false s, w'))
    /\ db w' = db w /\ currentUser w' = currentUser w.
Proof.
  intros Hall Hcred.
  unfold Auth.login, bind, try_finally, try_catch, getFirstAsync; cbv beta.
  simpl set. cbv beta iota. rewrite statement_quiet by exact Hquiet. simpl.
  rewrite Hall. simpl. rewrite Hcred. simpl.
  eexists. repeat split.
Qed.

Lemma login_unknown :
  select_where (Auth.matches_all email password role) (users (db w)) = [] ->
  select_where (Auth.matches_credentials email password) (users (db w)) = [] ->
  exists w',
    Auth.login email password role (s, w)
    = (Raise (JsError Auth.invalid_credentials),
       (Auth.set_isLoading false s, w'))
    /\ db w' = db w /\ currentUser w' = currentUser w.
Proof.
  intros Hall Hcred.
  unfold Auth.login, bind, try_finally, try_catch, getFirstAsync; cbv beta.
  simpl set. cbv beta iota. rewrite statement_quiet by exact Hquiet. simpl.
  rewrite Hall. simpl. rewrite Hcred. simpl.
  eexists. repeat split.
Qed.

End Login.

Lemma select_credentials (d : Database) (email password : string)
    (u : User.row) :
  unique_emails d ->
  In u (rows (users d)) ->
  User.email u = email -> User.password u = password ->
  select_where (Auth.matches_credentials email password) (users d) = [u].
Proof.
  intros Hu Hin He Hp.
  apply (filter_unique User.email); [exact Hu | | exact Hin | ].
  - intros a b Ha Hb. apply matches_credentials_iff in Ha, Hb.
    destruct Ha as [Ha _], Hb as [Hb _]. congruence.
  - apply matches_credentials_iff. split; assumption.
Qed.

Lemma select_all_three (d : Database) (email password : string) (role : Role)
    (u : User.row) :
  unique_emails d ->
  In u (rows (users d)) ->
  User.email u = email -> User.password u = password ->
  select_where (Auth.matches_all email password role) (users d)
  = if role_eqb (User.role u) role then [u] else [].
Proof.
  intros Hu Hin He Hp.
  pose proof (select_credentials d email password u Hu Hin He Hp) as Hcred.
  destruct (role_eqb (User.role u) role) eqn:Hr.
  - apply (filter_unique User.email); [exact Hu | | exact Hin | ].
    + intros a b Ha Hb. apply matches_all_iff in Ha, Hb.
      destruct Ha as [Ha _], Hb as [Hb _]. congruence.
    + apply matches_all_iff. apply role_eqb_eq in Hr. auto.
  - apply filter_none. intros e Hine.
    destruct (Auth.matches_all email password role e) eqn:Hall; [|reflexivity].
    exfalso. apply matches_all_iff in Hall. destruct Hall as (H1 & H2 & H3).
    assert (Hc : In e (select_where (Auth.matches_credentials email password)
                         (users d))).
    { apply filter_In. split; [exact Hine|].
      apply matches_credentials_iff. split; assumption. }
    rewrite Hcred in Hc. destruct Hc as [<-|[]].
    apply role_eqb_eq in H3. congruence.
Qed.

(** C5: on a database that serves the statements and keeps [email] UNIQUE,
    [login(email, password, role)] (a) fails with the role-mismatch message
    naming the stored role when a stored user has this email and password
    but another role; (b) fails with the generic invalid-credentials message
    when no stored user has this email and password; (c) succeeds when a
    stored user matches all three (and AsyncStorage takes the session): that
    user becomes the session user, and its role is the requested one.  A
    failed login leaves the session as it was. *)
Theorem login_outcomes (s : Auth.State) (w : World) (email password : string)
    (role : Role) :
  quiet w -> unique_emails (db w) ->
  let r := Auth.login email password role (s, w) in
  let stored := rows (users (db w)) in
  (forall u, In u stored ->
     User.email u = email -> User.password u = password ->
     User.role u <> role ->
     outcome r
     = Raise (JsError
                (String.append "This account is registered as a "
                   (String.append (role_text (User.role u))
                      ". Please select the correct role.")))
     /\ Auth.user (store r) = Auth.user s
     /\ Auth.isLoggedIn (store r) = Auth.isLoggedIn s)
  /\ ((forall u, In u stored ->
         ~ (User.email u = email /\ User.password u = password)) ->
     outcome r = Raise (JsError "Invalid email or password")
     /\ Auth.user (store r) = Auth.user s
     /\ Auth.isLoggedIn (store r) = Auth.isLoggedIn s)
  /\ (forall u, In u stored ->
     User.email u = email -> User.password u = password ->
     User.role u = role ->
     kv_faults w = [] ->
     outcome r = Ok tt
     /\ (exists u', Auth.user (store r) = Some u' /\ u' = u
                    /\ User.role u' = role)
     /\ Auth.isLoggedIn (store r) = true
     /\ currentUser (world r) = Some u).
Proof.
  intros Hq Hu r stored. subst r stored. split; [|split].
  - intros u Hin He Hp Hr.
    pose proof (select_all_three (db w) email password role u Hu Hin He Hp)
      as Hall.
    assert (Hne : role_eqb (User.role u) role = false).
    { destruct (role_eqb (User.role u) role) eqn:E; [|reflexivity].
      apply role_eqb_eq in E. contradiction. }
    rewrite Hne in Hall.
    destruct (login_wrong_role s w email password role Hq u []
                Hall (select_credentials (db w) email password u Hu Hin He Hp))
      as (w' & Hrun & _).
    rewrite Hrun. repeat split.
  - intros Hnone.
    assert (Hcred : select_where (Auth.matches_credentials email password)
                      (users (db w)) = []).
    { apply filter_none. intros e Hine.
      destruct (Auth.matches_credentials email password e) eqn:E;
        [|reflexivity].
      exfalso. apply (Hnone e Hine). apply matches_credentials_iff. exact E. }
    assert (Hall : select_where (Auth.matches_all email password role)
                     (users (db w)) = []).
    { apply filter_none. intros e Hine.
      destruct (Auth.matches_all email password role e) eqn:E; [|reflexivity].
      exfalso. apply (Hnone e Hine). apply matches_all_iff in E. tauto. }
    destruct (login_unknown s w email password role Hq Hall Hcred)
      as (w' & Hrun & _).
    rewrite Hrun. repeat split.
  - intros u Hin He Hp Hr Hkv.
    pose proof (select_all_three (db w) email password role u Hu Hin He Hp)
      as Hall.
    assert (Heq : role_eqb (User.role u) role = true)
      by (apply role_eqb_eq; exact Hr).
    rewrite Heq in Hall.
    destruct (login_match s w email password role Hq u [] Hall Hkv)
      as (w' & Hrun & _ & Hcur).
    rewrite Hrun. unfold outcome, store, world. simpl.
    repeat split; [|exact Hcur].
    exists u. auto.
Qed.

Lemma seeded_db_unique : unique_emails seeded_db.
Proof.
  unfold unique_emails. simpl.
  repeat constructor; simpl; intuition discriminate.
Qed.

Lemma login_outcomes_witness :
  outcome (Auth.login "teacher1@school.com" "password123" student
             (Auth.initial, sample_world seeded_db))
  = Raise (JsError
             "This account is registered as a teacher. Please select the correct role.")
  /\ outcome (Auth.login "nobody@school.com" "password123" student
                (Auth.initial, sample_world seeded_db))
     = Raise (JsError "Invalid email or password")
  /\ Auth.isLoggedIn
       (store (Auth.login "student1@school.com" "password123" student
                 (Auth.initial, sample_world seeded_db))) = true.
Proof.
  split; [|split].
  - destruct (login_outcomes Auth.initial (sample_world seeded_db)
                "teacher1@school.com" "password123" student
                eq_refl seeded_db_unique) as (Hrole & _ & _).
    destruct (Hrole (User.mk 1 "teacher1@school.com" "password123"
                       "John Smith" teacher None (Some "Mathematics Teacher")
                       "2024-01-01 00:00:00")) as (Hout & _);
      [simpl; auto | reflexivity | reflexivity | discriminate | exact Hout].
  - destruct (login_outcomes Auth.initial (sample_world seeded_db)
                "nobody@school.com" "password123" student
                eq_refl seeded_db_unique) as (_ & Hnone & _).
    destruct Hnone as (Hout & _); [|exact Hout].
    simpl. intros u [<-|[<-|[]]] [He _]; discriminate He.
  - destruct (login_outcomes Auth.initial (sample_world seeded_db)
                "student1@school.com" "password123" student
                eq_refl seeded_db_unique) as (_ & _ & Hok).
    destruct (Hok (User.mk 2 "student1@school.com" "password123"
                     "Alice Brown" student None (Some "Grade 10 Student")
                     "2024-01-01 00:00:00")) as (_ & _ & Hin & _);
      [simpl; auto | reflexivity | reflexivity | reflexivity | reflexivity
      | exact Hin].
Defined.

Section Signup.

Variables (s : Auth.State) (w : World) (email password name : string)
          (role : Role).
Hypothesis Hquiet : quiet w.

Lemma signup_duplicate (id : User.row) (rest : list User.row) :
  select_where (Auth.has_email email) (users (db w)) = id :: rest ->
  exists w',
    Auth.signup email password name role (s, w)
    = (Raise (JsError Auth.email_registered), (Auth.set_isLoading false s, w'))
    /\ db w' = db w /\ currentUser w' = currentUser w.
Proof.
  intros Hsel.
  unfold Auth.signup, bind, try_finally, try_catch, getFirstAsync; cbv beta.
  simpl set. cbv beta iota. rewrite statement_quiet by exact Hquiet. simpl.
  rewrite Hsel. simpl. eexists. repeat split.
Qed.

Lemma signup_fresh :
  select_where (Auth.has_email email) (users (db w)) = [] ->
  exists w',
    Auth.signup email password name role (s, w)
    = (Ok tt, (Auth.set_isLoading false s, w'))
    /\ db w'
       = with_users
           (insert_row
              (fun id => User.mk id email password name role None None (now w))
              (users (db w)))
           (db w)
    /\ currentUser w' = currentUser w.
Proof.
  intros Hsel.
  unfold Auth.signup, bind, try_finally, try_catch, getFirstAsync, runAsync;
    cbv beta.
  simpl set. cbv beta iota. rewrite statement_quiet by exact Hquiet. simpl.
  rewrite Hsel. simpl.
  unfold insert_unique. rewrite existsb_none by exact Hsel. simpl.
  eexists. repeat split.
Qed.

End Signup.

(** C6: on a database that serves the statements, [signup] (a) fails with
    the duplicate-email error and leaves the database as it was when a user
    row with the email exists; (b) otherwise appends exactly one user row,
    the one of the new account, and leaves the in-memory session and the
    stored session untouched (no auto-login). *)
Theorem signup_outcomes (s : Auth.State) (w : World)
    (email password name : string) (role : Role) :
  quiet w ->
  let r := Auth.signup email password name role (s, w) in
  let stored := rows (users (db w)) in
  ((exists u, In u stored /\ User.email u = email) ->
     outcome r = Raise (JsError "Email already registered")
     /\ db (world r) = db w)
  /\ ((forall u, In u stored -> User.email u <> email) ->
     outcome r = Ok tt
     /\ rows (users (db (world r)))
        = stored ++ [User.mk (seq (users (db w)) + 1) email password name role
                       None None (now w)]
     /\ List.length (rows (users (db (world r)))) = S (List.length stored)
     /\ Auth.user (store r) = Auth.user s
     /\ Auth.isLoggedIn (store r) = Auth.isLoggedIn s
     /\ currentUser (world r) = currentUser w).
Proof.
  intros Hq r stored. subst r stored. split.
  - intros (u & Hin & He).
    destruct (select_where (Auth.has_email email) (users (db w)))
      as [|x rest] eqn:Hsel.
    + exfalso.
      assert (Hx : In u (select_where (Auth.has_email email) (users (db w)))).
      { apply filter_In. split; [exact Hin|].
        unfold Auth.has_email. apply String.eqb_eq. exact He. }
      rewrite Hsel in Hx. exact Hx.
    + destruct (signup_duplicate s w email password name role Hq x rest Hsel)
        as (w' & Hrun & Hdb & _).
      rewrite Hrun. split; [reflexivity | exact Hdb].
  - intros Hnone.
    assert (Hsel : select_where (Auth.has_email email) (users (db w)) = []).
    { apply filter_none. intros e Hine. unfold Auth.has_email.
      apply String.eqb_neq. apply Hnone. exact Hine. }
    destruct (signup_fresh s w email password name role Hq Hsel)
      as (w' & Hrun & Hdb & Hcur).
    rewrite Hrun. unfold outcome, store, world. simpl fst. simpl snd.
    rewrite Hdb. cbn [users with_users rows insert_row].
    rewrite length_app. simpl List.length. rewrite Nat.add_1_r.
    repeat split. exact Hcur.
Qed.

Lemma signup_outcomes_witness :
  (outcome (Auth.signup "student1@school.com" "secret" "Another Alice" teacher
              (Auth.initial, sample_world seeded_db))
   = Raise (JsError "Email already registered")
   /\ db (world (Auth.signup "student1@school.com" "secret" "Another Alice"
                   teacher (Auth.initial, sample_world seeded_db)))
      = seeded_db)
  /\ rows (users (db (world (Auth.signup "carol@school.com" "secret" "Carol"
                               student (Auth.initial, sample_world seeded_db)))))
     = rows sample_users
       ++ [User.mk 3 "carol@school.com" "secret" "Carol" student None None
             "2024-03-01 09:00:00"].
Proof.
  split.
  - destruct (signup_outcomes Auth.initial (sample_world seeded_db)
                "student1@school.com" "secret" "Another Alice" teacher eq_refl)
      as (Hdup & _).
    apply Hdup.
    exists (User.mk 2 "student1@school.com" "password123" "Alice Brown"
              student None (Some "Grade 10 Student") "2024-01-01 00:00:00").
    split; [simpl; auto | reflexivity].
  - destruct (signup_outcomes Auth.initial (sample_world seeded_db)
                "carol@school.com" "secret" "Carol" student eq_refl)
      as (_ & Hnew).
    destruct Hnew as (_ & Hrows & _); [|exact Hrows].
    simpl. intros u [<-|[<-|[]]]; discriminate.
Defined.

(** ** deleteCourse, deleteLesson, deleteQuiz, deleteQuestion *)

Lemma select_deleted {R} (p : R -> bool) (t : Table R) :
  select_where p (delete_where p t) = [].
Proof.
  unfold select_where, delete_where. simpl.
  apply filter_none. intros e He. apply filter_In in He.
  destruct He as [_ He]. destruct (p e); [discriminate | reflexivity].
Qed.

(** Case analysis on the next entry of the fault schedule of a world given by
    its fields. *)
Ltac next_statement f :=
  let b := fresh "b" in
  destruct f as [|b f]; [|destruct b].

Lemma deleteCourse_run (s : CourseStore.St.t) (w : World) (courseId : Z) :
  let r := CourseStore.deleteCourse courseId (s, w) in
  let (k, hit) := served_before_fault 6 (faults w) in
  store r = s
  /\ db (world r) = cascade_applied k courseId (db w)
  /\ (if hit
      then outcome r = Raise (SqliteError SQLITE_ERROR)
           /\ issued (world r) = issued w ++ cascade_statements (S k) courseId
           /\ (k < 6)%nat
      else outcome r = Ok tt
           /\ issued (world r) = issued w ++ cascade_statements 6 courseId
           /\ k = 6%nat).
Proof.
  destruct w as [d f i n cu kv].
  unfold CourseStore.deleteCourse, try_catch, bind, runAsync, statement,
    cascade_applied, cascade_statements, outcome, store, world.
  cbn [faults db issued].
  next_statement f; [| |next_statement f; [| |next_statement f;
   [| |next_statement f; [| |next_statement f; [| |next_statement f]]]]];
    cbn -[Z.eqb delete_where]; rewrite <- ?app_assoc; cbn [app];
    repeat split; lia.
Qed.

Lemma served_before_first_fault (k : nat) (fs : list bool) :
  (k < 6)%nat ->
  served_before_fault 6 (repeat false k ++ true :: fs) = (k, true).
Proof.
  intros Hk.
  do 6 (destruct k as [|k]; [reflexivity|]). lia.
Qed.

(** No prefix of the cascade touches the tables below lessons and quizzes. *)
Lemma cascade_frame (k : nat) (courseId : Z) (d : Database) :
  lesson_progress (cascade_applied k courseId d) = lesson_progress d
  /\ quiz_questions (cascade_applied k courseId d) = quiz_questions d
  /\ quiz_attempts (cascade_applied k courseId d) = quiz_attempts d
  /\ quiz_answers (cascade_applied k courseId d) = quiz_answers d
  /\ users (cascade_applied k courseId d) = users d.
Proof.
  do 7 (destruct k as [|k]; [repeat split|]). repeat split.
Qed.

(** C3: for every course id and every fault schedule, when [deleteCourse]
    succeeds no row of lessons, quizzes, enrollments, announcements and
    assignments references the course and the course row is gone, the six
    DELETE statements having been issued in exactly that order; it does
    succeed when the engine serves the statements; and when the statement
    number k+1 fails, the error reaches the caller, the statements after it
    are never issued and the first k deletes stay applied (no rollback). *)
Theorem deleteCourse_cascade (s : CourseStore.St.t) (w : World) (courseId : Z) :
  let r := CourseStore.deleteCourse courseId (s, w) in
  (outcome r = Ok tt ->
     select_where (fun l => Lesson.courseId l =? courseId)
       (lessons (db (world r))) = []
     /\ select_where (fun q => Quiz.courseId q =? courseId)
          (quizzes (db (world r))) = []
     /\ select_where (fun e => Enrollment.courseId e =? courseId)
          (enrollments (db (world r))) = []
     /\ select_where (fun a => match Announcement.courseId a with
                               | Some c => c =? courseId
                               | None => false
                               end)
          (announcements (db (world r))) = []
     /\ select_where (fun a => Assignment.courseId a =? courseId)
          (assignments (db (world r))) = []
     /\ select_where (fun c => Course.id c =? courseId)
          (courses (db (world r))) = []
     /\ issued (world r)
        = issued w
          ++ [mkStatement "DELETE FROM lessons WHERE courseId = ?"
                [VInt courseId];
              mkStatement "DELETE FROM quizzes WHERE courseId = ?"
                [VInt courseId];
              mkStatement "DELETE FROM enrollments WHERE courseId = ?"
                [VInt courseId];
              mkStatement "DELETE FROM announcements WHERE courseId = ?"
                [VInt courseId];
              mkStatement "DELETE FROM assignments WHERE courseId = ?"
                [VInt courseId];
              mkStatement "DELETE FROM courses WHERE id = ?" [VInt courseId]])
  /\ (quiet w -> outcome r = Ok tt)
  /\ (forall k fs, (k < 6)%nat -> faults w = repeat false k ++ true :: fs ->
     outcome r = Raise (SqliteError SQLITE_ERROR)
     /\ issued (world r) = issued w ++ cascade_statements (S k) courseId
     /\ db (world r) = cascade_applied k courseId (db w)).
Proof.
  intros r. pose proof (deleteCourse_run s w courseId) as Hrun.
  fold r in Hrun. cbv zeta in Hrun. split; [|split].
  - intros Hok.
    destruct (served_before_fault 6 (faults w)) as [k hit].
    destruct Hrun as (_ & Hdb & Hrest).
    destruct hit; [destruct Hrest as (Hraise & _); congruence|].
    destruct Hrest as (_ & Hissued & ->).
    rewrite Hdb, Hissued.
    unfold cascade_applied, cascade_statements. cbn -[Z.eqb select_where delete_where].
    repeat split; apply select_deleted.
  - intros Hq. unfold quiet in Hq. rewrite Hq in Hrun.
    simpl in Hrun. apply Hrun.
  - intros k fs Hk Hf. rewrite Hf, (served_before_first_fault k fs Hk) in Hrun.
    destruct Hrun as (_ & Hdb & Hraise & Hissued & _). auto.
Qed.

Lemma deleteCourse_cascade_witness :
  outcome (CourseStore.deleteCourse 3
             (CourseStore.initial, sample_world course_db)) = Ok tt
  /\ select_where (fun l => Lesson.courseId l =? 3)
       (lessons (db (world (CourseStore.deleteCourse 3
                              (CourseStore.initial, sample_world course_db)))))
     = []
  /\ db (world (CourseStore.deleteCourse 3
                  (CourseStore.initial,
                   with_faults [false; false; true] (sample_world course_db))))
     = CourseStore.delete_quizzes_of 3
         (CourseStore.delete_lessons_of 3 course_db).
Proof.
  destruct (deleteCourse_cascade CourseStore.initial (sample_world course_db) 3)
    as (Hdone & Hok & _).
  destruct (deleteCourse_cascade CourseStore.initial
              (with_faults [false; false; true] (sample_world course_db)) 3)
    as (_ & _ & Hfault).
  split; [exact (Hok eq_refl)|]. split.
  - apply (Hdone (Hok eq_refl)).
  - destruct (Hfault 2%nat [] ltac:(lia) eq_refl) as (_ & _ & Hdb). exact Hdb.
Defined.

Lemma deleteLesson_quiet (s : CourseStore.St.t) (w : World) (lessonId : Z) :
  quiet w ->
  outcome (CourseStore.deleteLesson lessonId (s, w)) = Ok tt
  /\ db (world (CourseStore.deleteLesson lessonId (s, w)))
     = with_lessons
         (delete_where (fun l => Lesson.id l =? lessonId) (lessons (db w)))
         (with_lesson_progress
            (delete_where (fun p => LessonProgress.lessonId p =? lessonId)
               (lesson_progress (db w)))
            (db w)).
Proof.
  destruct w as [d f i n cu kv]. unfold quiet. cbn [faults]. intros ->.
  split; reflexivity.
Qed.

Lemma deleteQuiz_quiet (s : QuizStore.St.t) (w : World) (quizId : Z) :
  quiet w ->
  outcome (QuizStore.deleteQuiz quizId (s, w)) = Ok tt
  /\ db (world (QuizStore.deleteQuiz quizId (s, w)))
     = with_quizzes
         (delete_where (fun q => Quiz.id q =? quizId) (quizzes (db w)))
         (with_quiz_attempts
            (delete_where (fun a => QuizAttempt.quizId a =? quizId)
               (quiz_attempts (db w)))
            (with_quiz_questions
               (delete_where (fun q => QuizQuestion.quizId q =? quizId)
                  (quiz_questions (db w)))
               (db w))).
Proof.
  destruct w as [d f i n cu kv]. unfold quiet. cbn [faults]. intros ->.
  split; reflexivity.
Qed.

Lemma deleteQuestion_quiet (s : QuizStore.St.t) (w : World) (questionId : Z) :
  quiet w ->
  outcome (QuizStore.deleteQuestion questionId (s, w)) = Ok tt
  /\ db (world (QuizStore.deleteQuestion questionId (s, w)))
     = with_quiz_questions
         (delete_where (fun q => QuizQuestion.id q =? questionId)
            (quiz_questions (db w)))
         (with_quiz_answers
            (delete_where (fun a => QuizAnswer.questionId a =? questionId)
               (quiz_answers (db w)))
            (db w)).
Proof.
  destruct w as [d f i n cu kv]. unfold quiet. cbn [faults]. intros ->.
  split; reflexivity.
Qed.

(** C9 (amended): [deleteCourse] does not cascade past its direct children.
    Whatever the fault schedule, it leaves lesson_progress, quiz_questions,
    quiz_attempts and quiz_answers exactly as they were - rows below the
    deleted course's lessons and quizzes stay as orphans - and the statements
    it issues are a prefix of its own six DELETEs.  The narrower operations
    do remove such rows: [deleteLesson] the progress rows of its lesson,
    [deleteQuiz] the questions and the attempts of its quiz, [deleteQuestion]
    the answers to its question.  [deleteQuiz] itself leaves quiz_answers as
    they were. *)
Theorem deleteCourse_leaves_grandchildren (s : CourseStore.St.t)
    (sq : QuizStore.St.t) (w : World) (courseId lessonId quizId questionId : Z) :
  let r := CourseStore.deleteCourse courseId (s, w) in
  let rl := CourseStore.deleteLesson lessonId (s, w) in
  let rq := QuizStore.deleteQuiz quizId (sq, w) in
  let rn := QuizStore.deleteQuestion questionId (sq, w) in
  (lesson_progress (db (world r)) = lesson_progress (db w)
   /\ quiz_questions (db (world r)) = quiz_questions (db w)
   /\ quiz_attempts (db (world r)) = quiz_attempts (db w)
   /\ quiz_answers (db (world r)) = quiz_answers (db w)
   /\ exists k, issued (world r) = issued w ++ cascade_statements k courseId)
  /\ (quiet w ->
      outcome rl = Ok tt
      /\ select_where (fun p => LessonProgress.lessonId p =? lessonId)
           (lesson_progress (db (world rl))) = [])
  /\ (quiet w ->
      outcome rq = Ok tt
      /\ select_where (fun q => QuizQuestion.quizId q =? quizId)
           (quiz_questions (db (world rq))) = []
      /\ select_where (fun a => QuizAttempt.quizId a =? quizId)
           (quiz_attempts (db (world rq))) = []
      /\ quiz_answers (db (world rq)) = quiz_answers (db w))
  /\ (quiet w ->
      outcome rn = Ok tt
      /\ select_where (fun a => QuizAnswer.questionId a =? questionId)
           (quiz_answers (db (world rn))) = []).
Proof.
  intros r rl rq rn. split; [|split; [|split]].
  - pose proof (deleteCourse_run s w courseId) as Hrun.
    fold r in Hrun. cbv zeta in Hrun.
    destruct (served_before_fault 6 (faults w)) as [k hit].
    destruct Hrun as (_ & Hdb & Hrest). rewrite Hdb.
    destruct (cascade_frame k courseId (db w)) as (H1 & H2 & H3 & H4 & _).
    repeat split; try assumption.
    destruct hit.
    + exists (S k). apply Hrest.
    + exists 6%nat. apply Hrest.
  - intros Hq. destruct (deleteLesson_quiet s w lessonId Hq) as (Hout & Hdb).
    subst rl. rewrite Hdb. split; [exact Hout|].
    cbn [lesson_progress with_lessons with_lesson_progress].
    apply select_deleted.
  - intros Hq. destruct (deleteQuiz_quiet sq w quizId Hq) as (Hout & Hdb).
    subst rq. rewrite Hdb. split; [exact Hout|].
    cbn [quiz_questions quiz_attempts quiz_answers with_quizzes
           with_quiz_attempts with_quiz_questions].
    repeat split; apply select_deleted.
  - intros Hq. destruct (deleteQuestion_quiet sq w questionId Hq) as (Hout & Hdb).
    subst rn. rewrite Hdb. split; [exact Hout|].
    cbn [quiz_answers with_quiz_questions with_quiz_answers].
    apply select_deleted.
Qed.

Lemma deleteCourse_leaves_grandchildren_witness :
  rows (lesson_progress
          (db (world (CourseStore.deleteCourse 3
                        (CourseStore.initial, sample_world course_db)))))
  = [LessonProgress.mk 1 7 11 1 (Some "2024-02-01 10:00:00") 120]
  /\ select_where (fun p => LessonProgress.lessonId p =? 11)
       (lesson_progress
          (db (world (CourseStore.deleteLesson 11
                        (CourseStore.initial, sample_world course_db))))) = []
  /\ quiz_answers
       (db (world (QuizStore.deleteQuiz 5
                     (QuizStore.initial, sample_world course_db))))
     = quiz_answers course_db.
Proof.
  destruct (deleteCourse_leaves_grandchildren CourseStore.initial
              QuizStore.initial (sample_world course_db) 3 11 5 1)
    as ((Hlp & _) & Hlesson & Hquiz & _).
  split; [|split].
  - rewrite Hlp. reflexivity.
  - apply (Hlesson eq_refl).
  - apply (Hquiz eq_refl).
Defined.

(** C9, the claim as written fails for quiz_answers: [deleteQuiz] removes the
    questions and the attempts of quiz 5 and leaves the answer that belonged
    to them in the database; it is [deleteQuestion] that removes it. *)
Lemma deleteQuiz_orphans_answers :
  outcome (QuizStore.deleteQuiz 5 (QuizStore.initial, sample_world course_db))
  = Ok tt
  /\ rows (quiz_questions
             (db (world (QuizStore.deleteQuiz 5
                           (QuizStore.initial, sample_world course_db))))) = []
  /\ rows (quiz_attempts
             (db (world (QuizStore.deleteQuiz 5
                           (QuizStore.initial, sample_world course_db))))) = []
  /\ rows (quiz_answers
             (db (world (QuizStore.deleteQuiz 5
                           (QuizStore.initial, sample_world course_db)))))
     = [QuizAnswer.mk 1 1 1 (Some "True") (Some 1)]
  /\ rows (quiz_answers
             (db (world (QuizStore.deleteQuestion 1
                           (QuizStore.initial, sample_world course_db))))) = [].
Proof. vm_compute. repeat split. Qed.

(** ** fetchLessons: ORDER BY sequenceNumber ASC *)

Lemma insert_by_perm {R} (le : R -> R -> bool) (x : R) (l : list R) :
  Permutation (insert_by le x l) (x :: l).
Proof.
  induction l as [|y l IH]; simpl; [reflexivity|].
  destruct (le x y); [reflexivity|].
  rewrite IH. apply perm_swap.
Qed.

Lemma order_by_perm {R} (le : R -> R -> bool) (l : list R) :
  Permutation (order_by le l) l.
Proof.
  induction l as [|x l IH]; simpl; [reflexivity|].
  rewrite insert_by_perm. apply perm_skip. exact IH.
Qed.

Lemma filter_perm {R} (p : R -> bool) (l1 l2 : list R) :
  Permutation l1 l2 -> Permutation (filter p l1) (filter p l2).
Proof.
  induction 1 as [|x l l' _ IH|x y l|l l' l'' _ IH1 _ IH2]; simpl.
  - reflexivity.
  - destruct (p x); [apply perm_skip|]; exact IH.
  - destruct (p x), (p y); try reflexivity. apply perm_swap.
  - etransitivity; eassumption.
Qed.

Lemma map_insert_by {R T} (f : R -> T) (le : R -> R -> bool)
    (le' : T -> T -> bool) (x : R) (l : list R) :
  (forall a b, le a b = le' (f a) (f b)) ->
  map f (insert_by le x l) = insert_by le' (f x) (map f l).
Proof.
  intros Hle. induction l as [|y l IH]; simpl; [reflexivity|].
  rewrite <- Hle. destruct (le x y); simpl; [reflexivity|].
  f_equal. exact IH.
Qed.

Lemma map_order_by {R T} (f : R -> T) (le : R -> R -> bool)
    (le' : T -> T -> bool) (l : list R) :
  (forall a b, le a b = le' (f a) (f b)) ->
  map f (order_by le l) = order_by le' (map f l).
Proof.
  intros Hle. induction l as [|x l IH]; simpl; [reflexivity|].
  rewrite (map_insert_by f le le') by exact Hle. f_equal. exact IH.
Qed.

Lemma map_filter_through {R T} (f : R -> T) (p : R -> bool) (p' : T -> bool)
    (l : list R) :
  (forall a, p a = p' (f a)) ->
  map f (filter p l) = filter p' (map f l).
Proof.
  intros Hp. induction l as [|x l IH]; simpl; [reflexivity|].
  rewrite <- Hp. destruct (p x); simpl; [f_equal|]; exact IH.
Qed.

Section OrderByKey.

Context {R : Type} (key : R -> Z).

Let le (a b : R) : bool := key a <=? key b.
Let before (a b : R) : Prop := key a <= key b.

Lemma insert_by_key_sorted (x : R) (l : list R) :
  StronglySorted before l -> StronglySorted before (insert_by le x l).
Proof.
  induction l as [|y l IH]; simpl; intros Hs.
  - constructor; constructor.
  - apply StronglySorted_inv in Hs. destruct Hs as [Hs Hall].
    unfold le at 1. destruct (key x <=? key y) eqn:Hxy.
    + apply Z.leb_le in Hxy. constructor.
      * constructor; assumption.
      * constructor; [exact Hxy|].
        eapply Forall_impl; [|exact Hall].
        intros a Ha. unfold before in *. lia.
    + apply Z.leb_gt in Hxy. constructor.
      * apply IH. exact Hs.
      * eapply Permutation_Forall.
        -- symmetry. apply insert_by_perm.
        -- constructor; [unfold before; lia | exact Hall].
Qed.

Lemma order_by_key_sorted (l : list R) :
  StronglySorted before (order_by le l).
Proof.
  induction l as [|x l IH]; simpl; [constructor|].
  apply insert_by_key_sorted. exact IH.
Qed.

End OrderByKey.

(** Two ascending lists of integers with the same elements are equal. *)
Lemma sorted_perm_unique (l1 l2 : list Z) :
  StronglySorted Z.le l1 -> StronglySorted Z.le l2 -> Permutation l1 l2 ->
  l1 = l2.
Proof.
  revert l2. induction l1 as [|a l1 IH]; intros l2 H1 H2 Hp.
  - apply Permutation_nil in Hp. symmetry. exact Hp.
  - destruct l2 as [|b l2].
    + apply Permutation_sym, Permutation_nil in Hp. discriminate.
    + apply StronglySorted_inv in H1, H2.
      destruct H1 as [H1 Ha], H2 as [H2 Hb].
      assert (Hab : a = b).
      { assert (Hin1 : In a (b :: l2))
          by (eapply Permutation_in; [exact Hp | left; reflexivity]).
        assert (Hin2 : In b (a :: l1))
          by (eapply Permutation_in;
              [apply Permutation_sym; exact Hp | left; reflexivity]).
        rewrite Forall_forall in Ha, Hb.
        destruct Hin1 as [->|Hin1]; [reflexivity|].
        destruct Hin2 as [->|Hin2]; [reflexivity|].
        specialize (Ha b Hin2). specialize (Hb a Hin1). lia. }
      subst b. f_equal. apply IH; try assumption.
      eapply Permutation_cons_inv. exact Hp.
Qed.

Lemma sorted_map_key {R} (key : R -> Z) (l : list R) :
  StronglySorted (fun a b => key a <= key b) l ->
  StronglySorted Z.le (map key l).
Proof.
  induction 1 as [|a l Hs IH Hall]; simpl; constructor.
  - exact IH.
  - apply Forall_map. exact Hall.
Qed.

(** With pairwise distinct keys, equal key sequences and equal contents make
    equal lists. *)
Lemma perm_same_keys_eq {R} (key : R -> Z) (l1 l2 : list R) :
  Permutation l1 l2 -> map key l1 = map key l2 -> NoDup (map key l1) ->
  l1 = l2.
Proof.
  revert l2. induction l1 as [|a l1 IH]; intros l2 Hp Hk Hnd.
  - apply Permutation_nil in Hp. symmetry. exact Hp.
  - destruct l2 as [|b l2]; [discriminate|].
    simpl in Hk. injection Hk as Hab Hk.
    inversion Hnd as [|? ? Hnotin Hnd']; subst.
    assert (Heq : a = b).
    { assert (Hin : In a (b :: l2))
        by (eapply Permutation_in; [exact Hp | left; reflexivity]).
      destruct Hin as [->|Hin]; [reflexivity|].
      exfalso. apply Hnotin. rewrite Hk. apply in_map. exact Hin. }
    subst b. f_equal. apply IH; try assumption.
    eapply Permutation_cons_inv. exact Hp.
Qed.

(** Sorting by an integer key does not depend on the order of the input, up
    to the order of rows with equal keys. *)
Lemma order_by_key_independent {R} (key : R -> Z) (l1 l2 : list R) :
  Permutation l1 l2 ->
  let sort := order_by (fun a b => key a <=? key b) in
  Permutation (sort l1) (sort l2)
  /\ map key (sort l1) = map key (sort l2)
  /\ (NoDup (map key (sort l1)) -> sort l1 = sort l2).
Proof.
  intros Hp sort.
  assert (Hperm : Permutation (sort l1) (sort l2)).
  { subst sort. cbv beta. rewrite !order_by_perm. exact Hp. }
  assert (Hkeys : map key (sort l1) = map key (sort l2)).
  { apply sorted_perm_unique.
    - apply sorted_map_key. apply (order_by_key_sorted key).
    - apply sorted_map_key. apply (order_by_key_sorted key).
    - apply Permutation_map. exact Hperm. }
  split; [exact Hperm|]. split; [exact Hkeys|].
  intros Hnd. apply (perm_same_keys_eq key); assumption.
Qed.

Lemma fetchLessons_quiet (s : CourseStore.St.t) (w : World) (courseId : Z) :
  quiet w ->
  exists w',
    CourseStore.fetchLessons courseId (s, w)
    = (Ok tt,
       (CourseStore.St.mk (CourseStore.St.courses s)
          (CourseStore.lessons_of_course courseId (db w))
          (CourseStore.St.currentCourse s) false,
        w'))
    /\ db w' = db w.
Proof.
  intros Hq.
  unfold CourseStore.fetchLessons, bind, try_finally, try_catch, getAllAsync;
    cbv beta.
  simpl set. cbv beta iota. rewrite statement_quiet by exact Hq. simpl.
  eexists. split; reflexivity.
Qed.

Lemma createLesson_quiet (s : CourseStore.St.t) (w : World)
    (lesson : LessonDraft.t) :
  quiet w ->
  exists w',
    CourseStore.createLesson lesson (s, w) = (Ok tt, (s, w'))
    /\ quiet w' /\ now w' = now w
    /\ db w'
       = with_lessons
           (insert_row (CourseStore.lesson_row lesson (now w)) (lessons (db w)))
           (db w).
Proof.
  intros Hq.
  unfold CourseStore.createLesson, try_catch, runAsync; cbv beta.
  rewrite statement_quiet by exact Hq. simpl.
  eexists. repeat split.
Qed.

Lemma create_in_order_quiet (ds : list LessonDraft.t) (s : CourseStore.St.t)
    (w : World) :
  quiet w ->
  exists w',
    create_in_order ds (s, w) = (Ok tt, (s, w'))
    /\ quiet w'
    /\ map lesson_content (rows (lessons (db w')))
       = map lesson_content (rows (lessons (db w))) ++ map stored_draft ds.
Proof.
  revert w. induction ds as [|d ds IH]; intros w Hq.
  - exists w. simpl. rewrite app_nil_r. repeat split. exact Hq.
  - destruct (createLesson_quiet s w d Hq) as (w1 & H1 & Hq1 & _ & Hdb1).
    destruct (IH w1 Hq1) as (w2 & H2 & Hq2 & Hrows).
    exists w2. simpl. unfold bind. rewrite H1, H2.
    split; [reflexivity|]. split; [exact Hq2|].
    rewrite Hrows, Hdb1.
    cbn [lessons with_lessons rows insert_row].
    rewrite map_app, <- app_assoc. reflexivity.
Qed.

Lemma content_of_course (courseId : Z) (d : Database) :
  map lesson_content (CourseStore.lessons_of_course courseId d)
  = order_by
      (fun a b => LessonDraft.sequenceNumber a <=? LessonDraft.sequenceNumber b)
      (filter (fun a => LessonDraft.courseId a =? courseId)
         (map lesson_content (rows (lessons d)))).
Proof.
  unfold CourseStore.lessons_of_course, select_where.
  rewrite (map_order_by lesson_content _
             (fun a b => LessonDraft.sequenceNumber a
                         <=? LessonDraft.sequenceNumber b))
    by reflexivity.
  f_equal. apply map_filter_through. reflexivity.
Qed.

Lemma fetched_after_quiet (ds : list LessonDraft.t) (courseId : Z)
    (s : CourseStore.St.t) (w : World) :
  quiet w ->
  exists d,
    fetched_after ds courseId s w = CourseStore.lessons_of_course courseId d
    /\ map lesson_content (rows (lessons d))
       = map lesson_content (rows (lessons (db w))) ++ map stored_draft ds.
Proof.
  intros Hq.
  destruct (create_in_order_quiet ds s w Hq) as (w1 & H1 & Hq1 & Hrows).
  destruct (fetchLessons_quiet s w1 courseId Hq1) as (w2 & H2 & _).
  exists (db w1). split; [|exact Hrows].
  unfold fetched_after, bind. rewrite H1, H2. reflexivity.
Qed.

(** C7: on a database that serves the statement, [fetchLessons(courseId)]
    puts into the store exactly the stored lessons of that course, in
    ascending order of sequenceNumber.  The order in which lessons were
    created does not matter: creating the same drafts in another order and
    fetching gives the same sequence of sequence numbers and the same
    lessons (up to the ids the insertion order hands out), and the very same
    sequence of lessons when the sequence numbers are pairwise distinct. *)
Theorem fetchLessons_ordered (s : CourseStore.St.t) (w : World) (courseId : Z) :
  quiet w ->
  let r := CourseStore.fetchLessons courseId (s, w) in
  let fetched := CourseStore.St.lessons (store r) in
  let ascending (a b : Lesson.row) :=
    Lesson.sequenceNumber a <= Lesson.sequenceNumber b in
  outcome r = Ok tt
  /\ Permutation fetched
       (select_where (fun l => Lesson.courseId l =? courseId) (lessons (db w)))
  /\ (forall l, In l fetched
                <-> In l (rows (lessons (db w))) /\ Lesson.courseId l = courseId)
  /\ StronglySorted ascending fetched
  /\ (forall ds ds', Permutation ds ds' ->
      let f1 := fetched_after ds courseId s w in
      let f2 := fetched_after ds' courseId s w in
      StronglySorted ascending f1
      /\ Permutation (map lesson_content f1) (map lesson_content f2)
      /\ map Lesson.sequenceNumber f1 = map Lesson.sequenceNumber f2
      /\ (NoDup (map Lesson.sequenceNumber f1) ->
          map lesson_content f1 = map lesson_content f2)).
Proof.
  intros Hq r fetched ascending.
  destruct (fetchLessons_quiet s w courseId Hq) as (w' & Hrun & _).
  assert (Hfetched : fetched = CourseStore.lessons_of_course courseId (db w))
    by (subst fetched r; rewrite Hrun; reflexivity).
  assert (Hperm : Permutation fetched
                    (select_where (fun l => Lesson.courseId l =? courseId)
                       (lessons (db w))))
    by (rewrite Hfetched; apply order_by_perm).
  split; [subst r; rewrite Hrun; reflexivity|].
  split; [exact Hperm|]. split; [|split].
  - intros l. split.
    + intros Hin. apply (Permutation_in _ Hperm) in Hin.
      apply filter_In in Hin. rewrite Z.eqb_eq in Hin. exact Hin.
    + intros [Hin Hc]. apply (Permutation_in _ (Permutation_sym Hperm)).
      apply filter_In. rewrite Z.eqb_eq. split; assumption.
  - rewrite Hfetched. apply (order_by_key_sorted Lesson.sequenceNumber).
  - intros ds ds' Hds f1 f2.
    destruct (fetched_after_quiet ds courseId s w Hq) as (d1 & Hf1 & Hr1).
    destruct (fetched_after_quiet ds' courseId s w Hq) as (d2 & Hf2 & Hr2).
    subst f1 f2. rewrite Hf1, Hf2.
    split; [apply (order_by_key_sorted Lesson.sequenceNumber)|].
    assert (Hseq : forall l : list Lesson.row,
              map Lesson.sequenceNumber l
              = map LessonDraft.sequenceNumber (map lesson_content l))
      by (intros l; rewrite map_map; reflexivity).
    rewrite !Hseq, !content_of_course, Hr1, Hr2.
    apply (order_by_key_independent LessonDraft.sequenceNumber).
    apply filter_perm. apply Permutation_app_head.
    apply Permutation_map. exact Hds.
Qed.

Lemma fetchLessons_ordered_witness :
  StronglySorted
    (fun a b => Lesson.sequenceNumber a <= Lesson.sequenceNumber b)
    (CourseStore.St.lessons
       (store (CourseStore.fetchLessons 3
                 (CourseStore.initial, sample_world course_db))))
  /\ map Lesson.sequenceNumber
       (fetched_after
          [LessonDraft.mk 3 "Rings" None None None None None None 4;
           LessonDraft.mk 3 "Fields" None None None None None None 3]
          3 CourseStore.initial (sample_world course_db))
     = map Lesson.sequenceNumber
         (fetched_after
            [LessonDraft.mk 3 "Fields" None None None None None None 3;
             LessonDraft.mk 3 "Rings" None None None None None None 4]
            3 CourseStore.initial (sample_world course_db)).
Proof.
  destruct (fetchLessons_ordered CourseStore.initial (sample_world course_db) 3
              eq_refl) as (_ & _ & _ & Hsorted & Hany).
  split; [exact Hsorted|].
  apply (Hany [LessonDraft.mk 3 "Rings" None None None None None None 4;
               LessonDraft.mk 3 "Fields" None None None None None None 3]
              [LessonDraft.mk 3 "Fields" None None None None None None 3;
               LessonDraft.mk 3 "Rings" None None None None None None 4]).
  apply perm_swap.
Defined.

(** The end-to-end scenario of the specification: lessons created with
    sequence numbers 2 and 1 come back as 1 then 2. *)
Example lessons_two_then_one :
  map (fun l => (Lesson.title l, Lesson.sequenceNumber l))
    (fetched_after
       [LessonDraft.mk 3 "Second" None None None None None None 2;
        LessonDraft.mk 3 "First" None None None None None None 1]
       3 CourseStore.initial (sample_world seeded_db))
  = [("First", 1); ("Second", 2)].
Proof. vm_compute. reflexivity. Qed.

(** ** Engine failures in the progress store *)

Section SecondStatementFails.

Variables (s : Progress.St.t) (w : World) (fs : list bool).
Hypothesis Hfaults : faults w = false :: true :: fs.

Lemma enroll_second_fails (studentId courseId : Z) :
  outcome (Progress.enrollInCourse studentId courseId (s, w))
  = Raise (SqliteError SQLITE_ERROR)
  \/ outcome (Progress.enrollInCourse studentId courseId (s, w))
     = Raise (JsError Progress.already_enrolled).
Proof.
  unfold Progress.enrollInCourse, try_catch, bind, getFirstAsync, runAsync;
    cbv beta.
  rewrite (statement_pass _ _ s w (true :: fs)) by exact Hfaults. simpl.
  destruct (select_where (Progress.enrollment_of studentId courseId)
              (enrollments (db w))) as [|e rest]; simpl.
  - left. reflexivity.
  - destruct (Enrollment.status e); simpl; auto.
Qed.

Lemma complete_second_fails (studentId lessonId : Z) :
  outcome (Progress.markLessonComplete studentId lessonId (s, w))
  = Raise (SqliteError SQLITE_ERROR).
Proof.
  unfold Progress.markLessonComplete, try_catch, bind, getFirstAsync, runAsync;
    cbv beta.
  rewrite (statement_pass _ _ s w (true :: fs)) by exact Hfaults. simpl.
  destruct (select_where (Progress.progress_of studentId lessonId)
              (lesson_progress (db w))) as [|p rest]; reflexivity.
Qed.

Lemma time_second_fails (studentId lessonId timeSpent : Z) :
  outcome (Progress.updateLessonTimeSpent studentId lessonId timeSpent (s, w))
  = Raise (SqliteError SQLITE_ERROR).
Proof.
  unfold Progress.updateLessonTimeSpent, try_catch, bind, getFirstAsync,
    runAsync; cbv beta.
  rewrite (statement_pass _ _ s w (true :: fs)) by exact Hfaults. simpl.
  destruct (select_where (Progress.progress_of studentId lessonId)
              (lesson_progress (db w))) as [|p rest]; reflexivity.
Qed.

End SecondStatementFails.

(** C8 (amended): when the database raises on the statement of a read
    operation of the progress store, the error is swallowed: [getEnrollment]
    and [getLessonProgress] return null, [getCourseProgress] returns 0, the
    two analytics queries return the empty list, and [fetchStudentEnrollments]
    and [fetchCourseLessonProgress] resolve leaving the cached collection as
    it was (not emptied), with [isLoading] back to false.  Every write
    operation re-raises the engine's error, whether its first statement fails
    or, for the operations that look up before they write, the second
    ([enrollInCourse] may have failed with its own already-enrolled error
    before reaching it). *)
Theorem progress_store_failures (s : Progress.St.t) (w : World)
    (fs : list bool) (a b c : Z) (p : Q) :
  (faults w = true :: fs ->
     outcome (Progress.getEnrollment a b (s, w)) = Ok None
     /\ outcome (Progress.getLessonProgress a b (s, w)) = Ok None
     /\ outcome (Progress.getCourseProgress a b (s, w)) = Ok 0%Q
     /\ outcome (Progress.fetchTeacherStudentProgress a (s, w)) = Ok []
     /\ outcome (Progress.fetchCourseStudentProgress a (s, w)) = Ok []
     /\ (outcome (Progress.fetchStudentEnrollments a (s, w)) = Ok tt
         /\ store (Progress.fetchStudentEnrollments a (s, w))
            = Progress.St.mk (Progress.St.enrollments s)
                (Progress.St.lessonProgress s) false)
     /\ (outcome (Progress.fetchCourseLessonProgress a b (s, w)) = Ok tt
         /\ store (Progress.fetchCourseLessonProgress a b (s, w))
            = Progress.St.mk (Progress.St.enrollments s)
                (Progress.St.lessonProgress s) false)
     /\ outcome (Progress.enrollInCourse a b (s, w))
        = Raise (SqliteError SQLITE_ERROR)
     /\ outcome (Progress.unenrollFromCourse a b (s, w))
        = Raise (SqliteError SQLITE_ERROR)
     /\ outcome (Progress.updateEnrollmentProgress a p (s, w))
        = Raise (SqliteError SQLITE_ERROR)
     /\ outcome (Progress.markLessonComplete a b (s, w))
        = Raise (SqliteError SQLITE_ERROR)
     /\ outcome (Progress.markLessonIncomplete a b (s, w))
        = Raise (SqliteError SQLITE_ERROR)
     /\ outcome (Progress.updateLessonTimeSpent a b c (s, w))
        = Raise (SqliteError SQLITE_ERROR))
  /\ (faults w = false :: true :: fs ->
     (outcome (Progress.enrollInCourse a b (s, w))
      = Raise (SqliteError SQLITE_ERROR)
      \/ outcome (Progress.enrollInCourse a b (s, w))
         = Raise (JsError "Already enrolled in this course"))
     /\ outcome (Progress.markLessonComplete a b (s, w))
        = Raise (SqliteError SQLITE_ERROR)
     /\ outcome (Progress.updateLessonTimeSpent a b c (s, w))
        = Raise (SqliteError SQLITE_ERROR)).
Proof.
  split.
  - destruct w as [d f i n cu kv]. cbn [faults]. intros ->.
    repeat split.
  - intros Hf. split; [|split].
    + apply (enroll_second_fails s w fs Hf).
    + apply (complete_second_fails s w fs Hf).
    + apply (time_second_fails s w fs Hf).
Qed.

Lemma progress_store_failures_witness :
  outcome (Progress.getCourseProgress 7 3
             (Progress.initial, with_faults [true] (sample_world enrolled_db)))
  = Ok 0%Q
  /\ outcome (Progress.updateEnrollmentProgress 1 50%Q
                (Progress.initial,
                 with_faults [true] (sample_world enrolled_db)))
     = Raise (SqliteError SQLITE_ERROR)
  /\ outcome (Progress.markLessonComplete 7 11
                (Progress.initial,
                 with_faults [false; true] (sample_world enrolled_db)))
     = Raise (SqliteError SQLITE_ERROR).
Proof.
  destruct (progress_store_failures Progress.initial
              (with_faults [true] (sample_world enrolled_db)) [] 7 3 0 50%Q)
    as (Hfirst & _).
  destruct (progress_store_failures Progress.initial
              (with_faults [false; true] (sample_world enrolled_db)) [] 7 11 0
              0%Q)
    as (_ & Hsecond).
  destruct (Hfirst eq_refl) as (_ & _ & Hread & _).
  destruct (progress_store_failures Progress.initial
              (with_faults [true] (sample_world enrolled_db)) [] 1 3 0 50%Q)
    as (Hwrite & _).
  destruct (Hwrite eq_refl)
    as (_ & _ & _ & _ & _ & _ & _ & _ & _ & Hupdate & _).
  destruct (Hsecond eq_refl) as (_ & Hcomplete & _).
  split; [exact Hread|]. split; [exact Hupdate | exact Hcomplete].
Defined.

(** C8, the claim as written fails for the fetch operations: the first
    [fetchStudentEnrollments] succeeds and caches the three enrollments of
    student 7; the database raises on the second one, which resolves without
    an error and leaves the three cached rows in the store - not the empty
    collection. *)
Lemma failed_fetch_keeps_cached_rows :
  outcome ((Progress.fetchStudentEnrollments 7 ;;
            Progress.fetchStudentEnrollments 7)
             (Progress.initial,
              with_faults [false; true] (sample_world enrolled_db)))
  = Ok tt
  /\ faults (world ((Progress.fetchStudentEnrollments 7 ;;
                     Progress.fetchStudentEnrollments 7)
                      (Progress.initial,
                       with_faults [false; true] (sample_world enrolled_db))))
     = []
  /\ Progress.St.enrollments
       (store ((Progress.fetchStudentEnrollments 7 ;;
                Progress.fetchStudentEnrollments 7)
                 (Progress.initial,
                  with_faults [false; true] (sample_world enrolled_db))))
     = [Enrollment.mk 3 7 6 "2024-01-12 08:00:00" 100%Q completed;
        Enrollment.mk 2 7 4 "2024-01-11 08:00:00" 55%Q dropped;
        Enrollment.mk 1 7 3 "2024-01-10 08:00:00" 40%Q active]
  /\ Progress.St.enrollments
       (store ((Progress.fetchStudentEnrollments 7 ;;
                Progress.fetchStudentEnrollments 7)
                 (Progress.initial,
                  with_faults [false; true] (sample_world enrolled_db))))
     <> [].
Proof. vm_compute. repeat split. discriminate. Qed.

(** ** The uniqueness constraints are invariants of the operations *)

Lemma insert_unique_keys {R K} (k : R -> K) (conflict : R -> bool)
    (mk : Z -> R) (t t' : Table R) :
  (forall r, conflict r = false -> k r <> k (mk (seq t + 1))) ->
  NoDup (map k (rows t)) ->
  insert_unique conflict mk t = Some t' ->
  NoDup (map k (rows t')).
Proof.
  unfold insert_unique, insert_row. intros Hc Hnd.
  destruct (existsb conflict (rows t)) eqn:Hex; [discriminate|].
  intros [= <-]. simpl. rewrite map_app. simpl.
  apply (Permutation_NoDup (Permutation_cons_append _ _)).
  constructor; [|exact Hnd].
  intros Hin. apply in_map_iff in Hin. destruct Hin as (r & Hk & Hr).
  apply (Hc r); [|exact Hk].
  destruct (conflict r) eqn:Hcr; [|reflexivity].
  assert (Htrue : existsb conflict (rows t) = true)
    by (apply existsb_exists; exists r; split; assumption).
  congruence.
Qed.

Lemma update_where_keys {R K} (k : R -> K) (p : R -> bool) (f : R -> R)
    (t : Table R) :
  (forall r, k (f r) = k r) ->
  map k (rows (update_where p f t)) = map k (rows t).
Proof.
  intros Hk. unfold update_where. simpl. rewrite map_map.
  apply map_ext. intros r. destruct (p r); [apply Hk | reflexivity].
Qed.

Lemma delete_where_keys {R K} (k : R -> K) (p : R -> bool) (t : Table R) :
  NoDup (map k (rows t)) -> NoDup (map k (rows (delete_where p t))).
Proof.
  unfold delete_where. simpl. induction (rows t) as [|a l IH]; simpl; intros Hnd.
  - constructor.
  - inversion Hnd as [|? ? Hnotin Hnd']; subst.
    destruct (p a); simpl; [apply IH; exact Hnd'|].
    constructor; [|apply IH; exact Hnd'].
    intros Hin. apply Hnotin. apply in_map_iff in Hin.
    destruct Hin as (r & Hk & Hr). apply filter_In in Hr.
    rewrite <- Hk. apply in_map. apply Hr.
Qed.

Lemma enrollment_key_differs (studentId courseId : Z) (r : Enrollment.row) :
  Progress.enrollment_of studentId courseId r = false ->
  (Enrollment.studentId r, Enrollment.courseId r) <> (studentId, courseId).
Proof.
  unfold Progress.enrollment_of. intros H [= H1 H2].
  rewrite H1, H2, !Z.eqb_refl in H. discriminate.
Qed.

Lemma progress_key_differs (studentId lessonId : Z) (r : LessonProgress.row) :
  Progress.progress_of studentId lessonId r = false ->
  (LessonProgress.studentId r, LessonProgress.lessonId r)
  <> (studentId, lessonId).
Proof.
  unfold Progress.progress_of. intros H [= H1 H2].
  rewrite H1, H2, !Z.eqb_refl in H. discriminate.
Qed.

(** Case analysis along a run: on the next entry of the fault schedule, on
    the result of a look-up, on a status, on the verdict of a UNIQUE
    constraint. *)
Ltac run_cases :=
  repeat (cbn -[Z.eqb String.eqb select_where insert_unique update_where
                delete_where];
    match goal with
    | |- context [next_fault ?f] => is_var f; next_statement f
    | |- context [hd_error (map _ (select_where ?p ?t))] =>
        destruct (select_where p t)
    | |- context [status_eqb ?st _] => destruct st
    | |- context [option_map _ (insert_unique ?c ?m ?t)] =>
        destruct (insert_unique c m t) eqn:?
    end);
  cbn -[Z.eqb String.eqb select_where insert_unique update_where delete_where].

(** Whatever the engine does, the operations of the progress store keep
    UNIQUE(studentId, courseId) on enrollments. *)
Lemma enrollInCourse_keeps_unique (s : Progress.St.t) (w : World)
    (studentId courseId : Z) :
  unique_enrollments (db w) ->
  unique_enrollments
    (db (world (Progress.enrollInCourse studentId courseId (s, w)))).
Proof.
  destruct w as [d f i n cu kv]. unfold unique_enrollments. cbn [db].
  intros Hu.
  unfold Progress.enrollInCourse, try_catch, bind, getFirstAsync, runAsync,
    statement, throw, world.
  cbn [faults db issued now].
  run_cases.
  all: try exact Hu.
  all: try (rewrite (update_where_keys
                       (fun e => (Enrollment.studentId e, Enrollment.courseId e)))
              by reflexivity; exact Hu).
  all: eapply (insert_unique_keys
                 (fun e => (Enrollment.studentId e, Enrollment.courseId e)));
    [|exact Hu|eassumption];
    intros r Hr; cbn; apply enrollment_key_differs; exact Hr.
Qed.

Lemma unenrollFromCourse_keeps_unique (s : Progress.St.t) (w : World)
    (studentId courseId : Z) :
  unique_enrollments (db w) ->
  unique_enrollments
    (db (world (Progress.unenrollFromCourse studentId courseId (s, w)))).
Proof.
  destruct w as [d f i n cu kv]. unfold unique_enrollments. cbn [db].
  intros Hu.
  unfold Progress.unenrollFromCourse, try_catch, runAsync, statement, throw,
    world.
  cbn [faults db issued now].
  run_cases.
  all: try exact Hu.
  all: apply (delete_where_keys
                (fun e => (Enrollment.studentId e, Enrollment.courseId e)));
    exact Hu.
Qed.

Lemma updateEnrollmentProgress_keeps_unique (s : Progress.St.t) (w : World)
    (enrollmentId : Z) (p : Q) :
  unique_enrollments (db w) ->
  unique_enrollments
    (db (world (Progress.updateEnrollmentProgress enrollmentId p (s, w)))).
Proof.
  destruct w as [d f i n cu kv]. unfold unique_enrollments. cbn [db].
  intros Hu.
  unfold Progress.updateEnrollmentProgress, try_catch, runAsync, statement,
    throw, world.
  cbn [faults db issued now].
  run_cases.
  all: try exact Hu.
  all: rewrite (update_where_keys
                  (fun e => (Enrollment.studentId e, Enrollment.courseId e)))
         by reflexivity; exact Hu.
Qed.

(** Likewise UNIQUE(studentId, lessonId) on lesson_progress. *)
Lemma markLessonComplete_keeps_unique (s : Progress.St.t) (w : World)
    (studentId lessonId : Z) :
  unique_progress (db w) ->
  unique_progress
    (db (world (Progress.markLessonComplete studentId lessonId (s, w)))).
Proof.
  destruct w as [d f i n cu kv]. unfold unique_progress. cbn [db].
  intros Hu.
  unfold Progress.markLessonComplete, try_catch, bind, getFirstAsync, runAsync,
    statement, throw, world.
  cbn [faults db issued now].
  run_cases.
  all: try exact Hu.
  all: try (rewrite (update_where_keys
                       (fun p => (LessonProgress.studentId p,
                                  LessonProgress.lessonId p)))
              by reflexivity; exact Hu).
  all: eapply (insert_unique_keys
                 (fun p => (LessonProgress.studentId p,
                            LessonProgress.lessonId p)));
    [|exact Hu|eassumption];
    intros r Hr; cbn; apply progress_key_differs; exact Hr.
Qed.

Lemma markLessonIncomplete_keeps_unique (s : Progress.St.t) (w : World)
    (studentId lessonId : Z) :
  unique_progress (db w) ->
  unique_progress
    (db (world (Progress.markLessonIncomplete studentId lessonId (s, w)))).
Proof.
  destruct w as [d f i n cu kv]. unfold unique_progress. cbn [db].
  intros Hu.
  unfold Progress.markLessonIncomplete, try_catch, runAsync, statement, throw,
    world.
  cbn [faults db issued now].
  run_cases.
  all: try exact Hu.
  all: rewrite (update_where_keys
                  (fun p => (LessonProgress.studentId p,
                             LessonProgress.lessonId p)))
         by reflexivity; exact Hu.
Qed.

Lemma updateLessonTimeSpent_keeps_unique (s : Progress.St.t) (w : World)
    (studentId lessonId timeSpent : Z) :
  unique_progress (db w) ->
  unique_progress
    (db (world (Progress.updateLessonTimeSpent studentId lessonId timeSpent
                  (s, w)))).
Proof.
  destruct w as [d f i n cu kv]. unfold unique_progress. cbn [db].
  intros Hu.
  unfold Progress.updateLessonTimeSpent, try_catch, bind, getFirstAsync,
    runAsync, statement, throw, world.
  cbn [faults db issued now].
  run_cases.
  all: try exact Hu.
  all: try (rewrite (update_where_keys
                       (fun p => (LessonProgress.studentId p,
                                  LessonProgress.lessonId p)))
              by reflexivity; exact Hu).
  all: eapply (insert_unique_keys
                 (fun p => (LessonProgress.studentId p,
                            LessonProgress.lessonId p)));
    [|exact Hu|eassumption];
    intros r Hr; cbn; apply progress_key_differs; exact Hr.
Qed.

(** And [signup] keeps [users.email] UNIQUE. *)
Lemma signup_keeps_unique (s : Auth.State) (w : World)
    (email password name : string) (role : Role) :
  unique_emails (db w) ->
  unique_emails (db (world (Auth.signup email password name role (s, w)))).
Proof.
  destruct w as [d f i n cu kv]. unfold unique_emails. cbn [db].
  intros Hu.
  unfold Auth.signup, try_finally, try_catch, bind, getFirstAsync, runAsync,
    statement, throw, set, world.
  cbn [faults db issued now].
  run_cases.
  all: try exact Hu.
  all: eapply (insert_unique_keys User.email); [|exact Hu|eassumption];
    intros r Hr; cbn; unfold Auth.has_email in Hr;
    apply String.eqb_neq; exact Hr.
Qed.

(** ** Worked runs on the sample data *)

Example teacher_report_sample :
  outcome (Progress.fetchTeacherStudentProgress 1
             (Progress.initial, sample_world course_db))
  = Ok [TeacherReport.mk 7 "Bob Wilson" "student2@school.com" 3 "Algebra I"
          40%Q "2024-01-10 08:00:00" active 2 1].
Proof. vm_compute. reflexivity. Qed.

Example course_report_sample :
  outcome (Progress.fetchCourseStudentProgress 3
             (Progress.initial, sample_world course_db))
  = Ok [CourseReport.mk 7 "Bob Wilson" "student2@school.com" 40%Q
          "2024-01-10 08:00:00" active 2 1 (Some 120)].
Proof. vm_compute. reflexivity. Qed.

(** [deleteCourse] leaves the school-wide announcement in place. *)
Example school_wide_announcement_stays :
  map Announcement.title
    (rows (announcements
             (db (world (CourseStore.deleteCourse 3
                           (CourseStore.initial, sample_world course_db))))))
  = ["Holiday"].
Proof. vm_compute. reflexivity. Qed.

(** A fresh account can log in with the triple it signed up with. *)
Example signup_then_login :
  Auth.user
    (store ((Auth.signup "carol@school.com" "secret" "Carol" student ;;
             Auth.login "carol@school.com" "secret" student)
              (Auth.initial, sample_world seeded_db)))
  = Some (User.mk 3 "carol@school.com" "secret" "Carol" student None None
            "2024-03-01 09:00:00").
Proof. vm_compute. reflexivity. Qed.

(** Enrolling again after [unenrollFromCourse] starts from a fresh row. *)
Example unenroll_then_enroll :
  select_where (Progress.enrollment_of 7 3)
    (enrollments
       (db (world ((Progress.unenrollFromCourse 7 3 ;;
                    Progress.enrollInCourse 7 3)
                     (Progress.initial, sample_world enrolled_db)))))
  = [Enrollment.mk 4 7 3 "2024-03-01 09:00:00" 0%Q active].
Proof. vm_compute. reflexivity. Qed.

(** ** The progress store: what reads and writes leave alone *)

(** X1: whatever the engine does, a read of the progress store resolves,
    sends exactly one statement and leaves the database as it was; the
    getters leave the store as it was too. *)
Theorem progress_reads_never_write (s : Progress.St.t) (w : World) (a b : Z) :
  ((exists v, outcome (Progress.getEnrollment a b (s, w)) = Ok v)
   /\ store (Progress.getEnrollment a b (s, w)) = s
   /\ db (world (Progress.getEnrollment a b (s, w))) = db w
   /\ List.length (issued (world (Progress.getEnrollment a b (s, w))))
      = S (List.length (issued w)))
  /\ ((exists v, outcome (Progress.getLessonProgress a b (s, w)) = Ok v)
      /\ store (Progress.getLessonProgress a b (s, w)) = s
      /\ db (world (Progress.getLessonProgress a b (s, w))) = db w
      /\ List.length (issued (world (Progress.getLessonProgress a b (s, w))))
         = S (List.length (issued w)))
  /\ ((exists v, outcome (Progress.getCourseProgress a b (s, w)) = Ok v)
      /\ store (Progress.getCourseProgress a b (s, w)) = s
      /\ db (world (Progress.getCourseProgress a b (s, w))) = db w
      /\ List.length (issued (world (Progress.getCourseProgress a b (s, w))))
         = S (List.length (issued w)))
  /\ ((exists v, outcome (Progress.fetchTeacherStudentProgress a (s, w)) = Ok v)
      /\ store (Progress.fetchTeacherStudentProgress a (s, w)) = s
      /\ db (world (Progress.fetchTeacherStudentProgress a (s, w))) = db w
      /\ List.length
           (issued (world (Progress.fetchTeacherStudentProgress a (s, w))))
         = S (List.length (issued w)))
  /\ ((exists v, outcome (Progress.fetchCourseStudentProgress a (s, w)) = Ok v)
      /\ store (Progress.fetchCourseStudentProgress a (s, w)) = s
      /\ db (world (Progress.fetchCourseStudentProgress a (s, w))) = db w
      /\ List.length
           (issued (world (Progress.fetchCourseStudentProgress a (s, w))))
         = S (List.length (issued w)))
  /\ (outcome (Progress.fetchStudentEnrollments a (s, w)) = Ok tt
      /\ Progress.St.lessonProgress
           (store (Progress.fetchStudentEnrollments a (s, w)))
         = Progress.St.lessonProgress s
      /\ Progress.St.isLoading
           (store (Progress.fetchStudentEnrollments a (s, w))) = false
      /\ db (world (Progress.fetchStudentEnrollments a (s, w))) = db w
      /\ List.length
           (issued (world (Progress.fetchStudentEnrollments a (s, w))))
         = S (List.length (issued w)))
  /\ (outcome (Progress.fetchCourseLessonProgress a b (s, w)) = Ok tt
      /\ Progress.St.enrollments
           (store (Progress.fetchCourseLessonProgress a b (s, w)))
         = Progress.St.enrollments s
      /\ Progress.St.isLoading
           (store (Progress.fetchCourseLessonProgress a b (s, w))) = false
      /\ db (world (Progress.fetchCourseLessonProgress a b (s, w))) = db w
      /\ List.length
           (issued (world (Progress.fetchCourseLessonProgress a b (s, w))))
         = S (List.length (issued w))).
Proof.
  destruct w as [d f i n cu kv].
  assert (Hlen : forall st : Statement,
             List.length (i ++ [st]) = S (List.length i))
    by (intros st; rewrite length_app; simpl; lia).
  next_statement f;
    (repeat split; try reflexivity;
     try first [ apply Hlen | eexists; reflexivity ]).
  all: unfold Progress.getLessonProgress, Progress.getCourseProgress,
         try_catch, bind, getFirstAsync, statement, outcome, store, world;
    cbn -[Z.eqb select_where List.length app];
    match goal with
    | |- context [select_where ?p ?t] => destruct (select_where p t)
    end;
    cbn -[List.length app];
    first [ apply Hlen | eexists; reflexivity | reflexivity ].
Qed.

Lemma same_database_frames (d : Database) :
  only_enrollments_changed d d /\ only_lesson_progress_changed d d
  /\ only_users_changed d d.
Proof. destruct d. repeat split. Qed.

Lemma enrollment_writes_frame (s : Progress.St.t) (w : World) (a b : Z) (p : Q) :
  only_enrollments_changed (db w)
    (db (world (Progress.enrollInCourse a b (s, w))))
  /\ only_enrollments_changed (db w)
       (db (world (Progress.unenrollFromCourse a b (s, w))))
  /\ only_enrollments_changed (db w)
       (db (world (Progress.updateEnrollmentProgress a p (s, w)))).
Proof.
  destruct w as [d f i n cu kv]. unfold only_enrollments_changed.
  unfold Progress.enrollInCourse, Progress.unenrollFromCourse,
    Progress.updateEnrollmentProgress, try_catch, bind, getFirstAsync,
    runAsync, statement, throw, world.
  cbn [faults db issued now].
  repeat split; run_cases; try reflexivity;
    try (destruct d; reflexivity).
Qed.

Lemma lesson_writes_frame (s : Progress.St.t) (w : World) (a b c : Z) :
  only_lesson_progress_changed (db w)
    (db (world (Progress.markLessonComplete a b (s, w))))
  /\ only_lesson_progress_changed (db w)
       (db (world (Progress.markLessonIncomplete a b (s, w))))
  /\ only_lesson_progress_changed (db w)
       (db (world (Progress.updateLessonTimeSpent a b c (s, w)))).
Proof.
  destruct w as [d f i n cu kv]. unfold only_lesson_progress_changed.
  unfold Progress.markLessonComplete, Progress.markLessonIncomplete,
    Progress.updateLessonTimeSpent, try_catch, bind, getFirstAsync,
    runAsync, statement, throw, world.
  cbn [faults db issued now].
  repeat split; run_cases; try reflexivity;
    try (destruct d; reflexivity).
Qed.

Lemma unique_progress_across (d d' : Database) :
  only_enrollments_changed d d' -> unique_progress d -> unique_progress d'.
Proof. unfold only_enrollments_changed. intros ->. trivial. Qed.

Lemma unique_enrollments_across (d d' : Database) :
  only_lesson_progress_changed d d' ->
  unique_enrollments d -> unique_enrollments d'.
Proof. unfold only_lesson_progress_changed. intros ->. trivial. Qed.

(** X2: whatever the engine does (every fault schedule), each write of the
    progress store changes at most its own table - enrollments or
    lesson_progress - and leaves both UNIQUE constraints in force. *)
Theorem progress_writes_keep_constraints (s : Progress.St.t) (w : World)
    (a b c : Z) (p : Q) :
  unique_enrollments (db w) -> unique_progress (db w) ->
  let kept (r : Outcome unit * (Progress.St.t * World)) :=
    unique_enrollments (db (world r)) /\ unique_progress (db (world r)) in
  (kept (Progress.enrollInCourse a b (s, w))
   /\ only_enrollments_changed (db w)
        (db (world (Progress.enrollInCourse a b (s, w)))))
  /\ (kept (Progress.unenrollFromCourse a b (s, w))
      /\ only_enrollments_changed (db w)
           (db (world (Progress.unenrollFromCourse a b (s, w)))))
  /\ (kept (Progress.updateEnrollmentProgress a p (s, w))
      /\ only_enrollments_changed (db w)
           (db (world (Progress.updateEnrollmentProgress a p (s, w)))))
  /\ (kept (Progress.markLessonComplete a b (s, w))
      /\ only_lesson_progress_changed (db w)
           (db (world (Progress.markLessonComplete a b (s, w)))))
  /\ (kept (Progress.markLessonIncomplete a b (s, w))
      /\ only_lesson_progress_changed (db w)
           (db (world (Progress.markLessonIncomplete a b (s, w)))))
  /\ (kept (Progress.updateLessonTimeSpent a b c (s, w))
      /\ only_lesson_progress_changed (db w)
           (db (world (Progress.updateLessonTimeSpent a b c (s, w))))).
Proof.
  intros He Hp kept. subst kept. cbv beta.
  destruct (enrollment_writes_frame s w a b p) as (F1 & F2 & F3).
  destruct (lesson_writes_frame s w a b c) as (F4 & F5 & F6).
  repeat split; try assumption.
  - apply enrollInCourse_keeps_unique. exact He.
  - apply (unique_progress_across _ _ F1 Hp).
  - apply unenrollFromCourse_keeps_unique. exact He.
  - apply (unique_progress_across _ _ F2 Hp).
  - apply updateEnrollmentProgress_keeps_unique. exact He.
  - apply (unique_progress_across _ _ F3 Hp).
  - apply (unique_enrollments_across _ _ F4 He).
  - apply markLessonComplete_keeps_unique. exact Hp.
  - apply (unique_enrollments_across _ _ F5 He).
  - apply markLessonIncomplete_keeps_unique. exact Hp.
  - apply (unique_enrollments_across _ _ F6 He).
  - apply updateLessonTimeSpent_keeps_unique. exact Hp.
Qed.

Lemma course_db_unique :
  unique_enrollments course_db /\ unique_progress course_db.
Proof.
  unfold unique_enrollments, unique_progress. simpl.
  split; repeat constructor; simpl; intuition congruence.
Qed.

Lemma progress_writes_keep_constraints_witness :
  unique_enrollments
    (db (world (Progress.enrollInCourse 7 9
                  (Progress.initial,
                   with_faults [false; true] (sample_world course_db)))))
  /\ unique_progress
       (db (world (Progress.updateLessonTimeSpent 7 12 30
                     (Progress.initial, sample_world course_db)))).
Proof.
  destruct course_db_unique as [He Hp].
  destruct (progress_writes_keep_constraints Progress.initial
              (with_faults [false; true] (sample_world course_db)) 7 9 0 0%Q
              He Hp) as (((H1 & _) & _) & _).
  destruct (progress_writes_keep_constraints Progress.initial
              (sample_world course_db) 7 12 30 0%Q He Hp)
    as (_ & _ & _ & _ & _ & ((_ & H6) & _)).
  split; [exact H1 | exact H6].
Defined.

(** ** Enrollment: leaving, coming back, and the stored percentage *)

Lemma unenroll_quiet (s : Progress.St.t) (w : World) (a b : Z) :
  quiet w ->
  exists w',
    Progress.unenrollFromCourse a b (s, w) = (Ok tt, (s, w'))
    /\ quiet w' /\ now w' = now w
    /\ db w'
       = with_enrollments
           (delete_where (Progress.enrollment_of a b) (enrollments (db w)))
           (db w).
Proof.
  intros Hq. unfold Progress.unenrollFromCourse, try_catch, runAsync; cbv beta.
  rewrite statement_quiet by exact Hq. simpl. eexists. repeat split.
Qed.

Lemma updateEnrollmentProgress_quiet (s : Progress.St.t) (w : World) (x : Z)
    (p : Q) :
  quiet w ->
  exists w',
    Progress.updateEnrollmentProgress x p (s, w) = (Ok tt, (s, w'))
    /\ quiet w' /\ now w' = now w
    /\ db w'
       = with_enrollments
           (update_where (fun e => Enrollment.id e =? x)
              (Progress.set_percentage p) (enrollments (db w)))
           (db w).
Proof.
  intros Hq.
  unfold Progress.updateEnrollmentProgress, try_catch, runAsync; cbv beta.
  rewrite statement_quiet by exact Hq. simpl. eexists. repeat split.
Qed.

Lemma getCourseProgress_quiet (s : Progress.St.t) (w : World) (a b : Z) :
  quiet w ->
  outcome (Progress.getCourseProgress a b (s, w))
  = Ok match select_where (Progress.enrollment_of a b) (enrollments (db w)) with
       | e :: _ => Enrollment.completionPercentage e
       | [] => 0%Q
       end.
Proof.
  intros Hq.
  unfold Progress.getCourseProgress, try_catch, bind, getFirstAsync; cbv beta.
  rewrite statement_quiet by exact Hq. simpl.
  destruct (select_where (Progress.enrollment_of a b) (enrollments (db w)));
    reflexivity.
Qed.

Lemma enroll_quiet_world (s : Progress.St.t) (w : World) (a b : Z) :
  quiet w ->
  select_where (Progress.enrollment_of a b) (enrollments (db w)) = [] ->
  exists w',
    Progress.enrollInCourse a b (s, w) = (Ok tt, (s, w'))
    /\ quiet w' /\ now w' = now w
    /\ db w'
       = with_enrollments
           (insert_row
              (fun id => Enrollment.mk id a b (now w) 0%Q active)
              (enrollments (db w)))
           (db w).
Proof.
  intros Hq Hsel.
  unfold Progress.enrollInCourse, try_catch, bind, getFirstAsync, runAsync;
    cbv beta.
  rewrite statement_quiet by exact Hq. simpl. rewrite Hsel. simpl.
  unfold insert_unique. rewrite existsb_none by exact Hsel. simpl.
  eexists. repeat split.
Qed.

Lemma enrollment_of_new (a b id : Z) (ts : string) (p : Q) (st : Status) :
  Progress.enrollment_of a b (Enrollment.mk id a b ts p st) = true.
Proof. unfold Progress.enrollment_of. simpl. rewrite !Z.eqb_refl. reflexivity. Qed.

(** X3: on a database that serves the statements, [unenrollFromCourse]
    removes the row of the pair for good (a hard delete, whatever its
    status), and enrolling again afterwards always succeeds with a fresh row:
    a new id, status active, completion 0, which [getCourseProgress] then
    reads back as 0. *)
Theorem unenroll_then_enroll_is_fresh (s : Progress.St.t) (w : World)
    (studentId courseId : Z) :
  quiet w ->
  let mine := Progress.enrollment_of studentId courseId in
  let others := filter (fun e => negb (mine e)) (rows (enrollments (db w))) in
  let gone := Progress.unenrollFromCourse studentId courseId (s, w) in
  let again :=
    (Progress.unenrollFromCourse studentId courseId ;;
     Progress.enrollInCourse studentId courseId) (s, w) in
  let seen :=
    (Progress.unenrollFromCourse studentId courseId ;;
     Progress.enrollInCourse studentId courseId ;;
     Progress.getCourseProgress studentId courseId) (s, w) in
  outcome gone = Ok tt
  /\ rows (enrollments (db (world gone))) = others
  /\ seq (enrollments (db (world gone))) = seq (enrollments (db w))
  /\ outcome again = Ok tt
  /\ rows (enrollments (db (world again)))
     = others ++ [Enrollment.mk (seq (enrollments (db w)) + 1) studentId
                    courseId (now w) 0%Q active]
  /\ outcome seen = Ok 0%Q.
Proof.
  intros Hq mine others gone again seen.
  subst mine others gone again seen. cbv beta.
  destruct (unenroll_quiet s w studentId courseId Hq)
    as (w1 & H1 & Hq1 & Hn1 & Hdb1).
  assert (Hsel1 : select_where (Progress.enrollment_of studentId courseId)
                    (enrollments (db w1)) = []).
  { rewrite Hdb1. cbn [enrollments with_enrollments]. apply select_deleted. }
  destruct (enroll_quiet_world s w1 studentId courseId Hq1 Hsel1)
    as (w2 & H2 & Hq2 & Hn2 & Hdb2).
  pose proof (getCourseProgress_quiet s w2 studentId courseId Hq2) as H3.
  unfold bind. rewrite H1, H2. unfold outcome, world in *. simpl fst. simpl snd.
  rewrite H3, Hdb2, Hdb1, Hn1.
  cbn [enrollments with_enrollments rows seq insert_row delete_where].
  repeat split.
  rewrite select_after_insert;
    [reflexivity | apply select_deleted | apply enrollment_of_new].
Qed.

Lemma unenroll_then_enroll_is_fresh_witness :
  rows (enrollments
          (db (world ((Progress.unenrollFromCourse 7 6 ;;
                       Progress.enrollInCourse 7 6)
                        (Progress.initial, sample_world enrolled_db)))))
  = [Enrollment.mk 1 7 3 "2024-01-10 08:00:00" 40%Q active;
     Enrollment.mk 2 7 4 "2024-01-11 08:00:00" 55%Q dropped;
     Enrollment.mk 4 7 6 "2024-03-01 09:00:00" 0%Q active].
Proof.
  destruct (unenroll_then_enroll_is_fresh Progress.initial
              (sample_world enrolled_db) 7 6 eq_refl)
    as (_ & _ & _ & _ & Hrows & _).
  exact Hrows.
Defined.

Lemma set_percentage_keeps_key (a b x : Z) (p : Q) (r : Enrollment.row) :
  Progress.enrollment_of a b r
  = Progress.enrollment_of a b
      (if Enrollment.id r =? x then Progress.set_percentage p r else r).
Proof. destruct (Enrollment.id r =? x); reflexivity. Qed.

(** X4: on a database that serves the statements, the percentage written by
    [updateEnrollmentProgress] on an enrollment's id is the one
    [getCourseProgress] reads back for that enrollment's student and course -
    as given, with no clamping to 0..100; an id that no row has changes
    nothing and still succeeds; and [getCourseProgress] of a pair that is not
    enrolled is 0. *)
Theorem enrollment_percentage_round_trip (s : Progress.St.t) (w : World)
    (studentId courseId : Z) (p : Q) :
  quiet w ->
  (forall e, unique_enrollments (db w) ->
     In e (rows (enrollments (db w))) ->
     Progress.enrollment_of studentId courseId e = true ->
     outcome ((Progress.updateEnrollmentProgress (Enrollment.id e) p ;;
               Progress.getCourseProgress studentId courseId) (s, w))
     = Ok p)
  /\ (forall x, (forall e, In e (rows (enrollments (db w))) ->
                           Enrollment.id e <> x) ->
     outcome (Progress.updateEnrollmentProgress x p (s, w)) = Ok tt
     /\ db (world (Progress.updateEnrollmentProgress x p (s, w))) = db w)
  /\ ((forall e, In e (rows (enrollments (db w))) ->
                 Progress.enrollment_of studentId courseId e = false) ->
     outcome (Progress.getCourseProgress studentId courseId (s, w)) = Ok 0%Q).
Proof.
  intros Hq. split; [|split].
  - intros e Hu Hin He.
    destruct (updateEnrollmentProgress_quiet s w (Enrollment.id e) p Hq)
      as (w1 & H1 & Hq1 & _ & Hdb1).
    pose proof (getCourseProgress_quiet s w1 studentId courseId Hq1) as H2.
    unfold bind. rewrite H1. rewrite H2, Hdb1.
    cbn [enrollments with_enrollments].
    unfold select_where, update_where. cbn [rows].
    rewrite <- (map_filter_through
                  (fun r => if Enrollment.id r =? Enrollment.id e
                            then Progress.set_percentage p r else r)
                  (Progress.enrollment_of studentId courseId)
                  (Progress.enrollment_of studentId courseId))
      by (intros r; apply set_percentage_keeps_key).
    pose proof (select_enrollment (db w) studentId courseId e Hu Hin He) as Hsel.
    unfold select_where in Hsel. rewrite Hsel. simpl.
    rewrite Z.eqb_refl. reflexivity.
  - intros x Hnone.
    destruct (updateEnrollmentProgress_quiet s w x p Hq)
      as (w1 & H1 & _ & _ & Hdb1).
    rewrite H1. unfold outcome, world. simpl fst. simpl snd.
    split; [reflexivity|]. rewrite Hdb1.
    rewrite update_none.
    + destruct (db w). reflexivity.
    + apply filter_none. intros e Hin. apply Z.eqb_neq. apply Hnone. exact Hin.
  - intros Hnone. rewrite getCourseProgress_quiet by exact Hq.
    unfold select_where. rewrite filter_none by exact Hnone. reflexivity.
Qed.

Lemma enrollment_percentage_round_trip_witness :
  outcome ((Progress.updateEnrollmentProgress 2 (250 # 1) ;;
            Progress.getCourseProgress 7 4)
             (Progress.initial, sample_world enrolled_db))
  = Ok (250 # 1)
  /\ outcome (Progress.getCourseProgress 8 3
                (Progress.initial, sample_world enrolled_db)) = Ok 0%Q.
Proof.
  split.
  - destruct (enrollment_percentage_round_trip Progress.initial
                (sample_world enrolled_db) 7 4 (250 # 1) eq_refl)
      as (Hback & _).
    apply (Hback (Enrollment.mk 2 7 4 "2024-01-11 08:00:00" 55%Q dropped));
      [exact enrolled_db_unique | simpl; auto | reflexivity].
  - destruct (enrollment_percentage_round_trip Progress.initial
                (sample_world enrolled_db) 8 3 0%Q eq_refl)
      as (_ & _ & Hzero).
    apply Hzero. simpl. intros e [<-|[<-|[<-|[]]]]; reflexivity.
Defined.

(** ** Lesson progress: how the marks and the time counter compose *)

Lemma update_compose {R} (p : R -> bool) (f g : R -> R) (t : Table R) :
  (forall r, p (f r) = p r) ->
  update_where p g (update_where p f t) = update_where p (fun r => g (f r)) t.
Proof.
  intros Hp. unfold update_where. simpl. f_equal.
  rewrite map_map. apply map_ext. intros r.
  destruct (p r) eqn:Hr.
  - rewrite Hp, Hr. reflexivity.
  - rewrite Hr. reflexivity.
Qed.

Lemma update_where_ext {R} (p : R -> bool) (f g : R -> R) (t : Table R) :
  (forall r, f r = g r) -> update_where p f t = update_where p g t.
Proof.
  intros H. unfold update_where. f_equal. apply map_ext. intros r.
  destruct (p r); [apply H | reflexivity].
Qed.

Lemma update_inserted {R} (p : R -> bool) (f : R -> R) (mk : Z -> R)
    (t : Table R) :
  select_where p t = [] -> p (mk (seq t + 1)) = true ->
  update_where p f (insert_row mk t) = insert_row (fun id => f (mk id)) t.
Proof.
  unfold select_where, update_where, insert_row. simpl. intros Hnone Hp.
  f_equal. rewrite map_app. simpl. rewrite Hp. f_equal.
  apply update_rows_none. intros e He.
  destruct (p e) eqn:Hpe; [|reflexivity].
  exfalso. assert (Hin : In e (filter p (rows t)))
    by (apply filter_In; split; assumption).
  rewrite Hnone in Hin. exact Hin.
Qed.

Lemma getLessonProgress_quiet (s : Progress.St.t) (w : World) (a b : Z) :
  quiet w ->
  outcome (Progress.getLessonProgress a b (s, w))
  = Ok match select_where (Progress.progress_of a b)
               (lesson_progress (db w)) with
       | r :: _ => Some (LessonProgress.of_row r)
       | [] => None
       end.
Proof.
  intros Hq.
  unfold Progress.getLessonProgress, try_catch, bind, getFirstAsync; cbv beta.
  rewrite statement_quiet by exact Hq. simpl.
  destruct (select_where (Progress.progress_of a b) (lesson_progress (db w)));
    reflexivity.
Qed.

Lemma with_now_quiet (t : string) (w : World) : quiet w -> quiet (with_now t w).
Proof. unfold quiet. trivial. Qed.

(** X5: on a database that serves the statements, [markLessonComplete] and
    [updateLessonTimeSpent] with a safe-integer increment on the same
    (student, lesson) commute: either order succeeds and leaves the same
    database, whether or not the pair had a progress row - the time spent is
    added, the pair is completed, and completedAt is the time at which
    [markLessonComplete] ran. *)
Theorem complete_and_time_commute (s : Progress.St.t) (w : World)
    (studentId lessonId d : Z) (completion_time other_time : string) :
  quiet w -> safe_integer d ->
  let complete_first :=
    Progress.updateLessonTimeSpent studentId lessonId d
      (s, with_now other_time
            (world (Progress.markLessonComplete studentId lessonId
                      (s, with_now completion_time w)))) in
  let time_first :=
    Progress.markLessonComplete studentId lessonId
      (s, with_now completion_time
            (world (Progress.updateLessonTimeSpent studentId lessonId d
                      (s, with_now other_time w)))) in
  outcome complete_first = Ok tt /\ outcome time_first = Ok tt
  /\ db (world complete_first) = db (world time_first).
Proof.
  intros Hq Hd cf tf. subst cf tf.
  pose proof (with_now_quiet completion_time w Hq) as Hqc.
  pose proof (with_now_quiet other_time w Hq) as Hqo.
  destruct (select_where (Progress.progress_of studentId lessonId)
              (lesson_progress (db w))) as [|p rest] eqn:Hsel.
  - destruct (complete_when_absent s (with_now completion_time w) studentId
                lessonId Hqc Hsel) as (w1 & H1 & Hq1 & _ & Hdb1).
    destruct (time_when_absent s (with_now other_time w) studentId lessonId d
                Hqo Hsel) as (w3 & H3 & Hq3 & _ & Hdb3).
    cbn [db now with_now] in Hdb1, Hdb3.
    rewrite (js_number_safe d Hd) in Hdb3.
    assert (Hs1 : select_where (Progress.progress_of studentId lessonId)
                    (lesson_progress (db (with_now other_time w1)))
                  = [LessonProgress.mk (seq (lesson_progress (db w)) + 1)
                       studentId lessonId 1 (Some completion_time) 0]).
    { cbn [db with_now]. rewrite Hdb1, lesson_progress_with.
      apply (select_after_insert _
               (fun id => LessonProgress.mk id studentId lessonId 1
                            (Some completion_time) 0));
        [exact Hsel | apply progress_of_new]. }
    assert (Hs3 : select_where (Progress.progress_of studentId lessonId)
                    (lesson_progress (db (with_now completion_time w3)))
                  = [LessonProgress.mk (seq (lesson_progress (db w)) + 1)
                       studentId lessonId 0 None d]).
    { cbn [db with_now]. rewrite Hdb3, lesson_progress_with.
      apply (select_after_insert _
               (fun id => LessonProgress.mk id studentId lessonId 0 None d));
        [exact Hsel | apply progress_of_new]. }
    destruct (time_when_present s (with_now other_time w1) studentId lessonId d
                (with_now_quiet _ _ Hq1) _ _ Hs1) as (w2 & H2 & _ & _ & Hdb2).
    destruct (complete_when_present s (with_now completion_time w3) studentId
                lessonId (with_now_quiet _ _ Hq3) _ _ Hs3)
      as (w4 & H4 & _ & _ & Hdb4).
    cbn [db now with_now LessonProgress.timeSpent] in Hdb2, Hdb4.
    rewrite (js_add_safe 0 d) in Hdb2
      by (try exact Hd; unfold safe_integer, max_safe_integer; lia).
    unfold world. rewrite H1, H3. cbn [snd]. rewrite H2, H4.
    unfold outcome. cbn [fst snd].
    repeat split.
    rewrite Hdb2, Hdb4, Hdb1, Hdb3, !lesson_progress_with,
      !with_lesson_progress_twice.
    f_equal.
    rewrite !update_inserted by (try exact Hsel; apply progress_of_new).
    reflexivity.
  - destruct (complete_when_present s (with_now completion_time w) studentId
                lessonId Hqc p rest Hsel) as (w1 & H1 & Hq1 & _ & Hdb1).
    destruct (time_when_present s (with_now other_time w) studentId lessonId d
                Hqo p rest Hsel) as (w3 & H3 & Hq3 & _ & Hdb3).
    cbn [db now with_now] in Hdb1, Hdb3.
    assert (Hs1 : select_where (Progress.progress_of studentId lessonId)
                    (lesson_progress (db (with_now other_time w1)))
                  = Progress.stamp_complete completion_time p
                    :: map (Progress.stamp_complete completion_time) rest).
    { cbn [db with_now]. rewrite Hdb1, lesson_progress_with.
      rewrite select_after_update by reflexivity. rewrite Hsel. reflexivity. }
    assert (Hs3 : select_where (Progress.progress_of studentId lessonId)
                    (lesson_progress (db (with_now completion_time w3)))
                  = Progress.set_timeSpent
                      (js_add (LessonProgress.timeSpent p) d) p
                    :: map (Progress.set_timeSpent
                              (js_add (LessonProgress.timeSpent p) d)) rest).
    { cbn [db with_now]. rewrite Hdb3, lesson_progress_with.
      rewrite select_after_update by reflexivity. rewrite Hsel. reflexivity. }
    destruct (time_when_present s (with_now other_time w1) studentId lessonId d
                (with_now_quiet _ _ Hq1) _ _ Hs1) as (w2 & H2 & _ & _ & Hdb2).
    destruct (complete_when_present s (with_now completion_time w3) studentId
                lessonId (with_now_quiet _ _ Hq3) _ _ Hs3)
      as (w4 & H4 & _ & _ & Hdb4).
    cbn [db now with_now] in Hdb2, Hdb4.
    unfold world. rewrite H1, H3. cbn [snd]. rewrite H2, H4.
    unfold outcome. cbn [fst snd].
    repeat split.
    rewrite Hdb2, Hdb4, Hdb1, Hdb3, !lesson_progress_with,
      !with_lesson_progress_twice.
    f_equal. rewrite !update_compose by reflexivity.
    apply update_where_ext. reflexivity.
Qed.

Lemma complete_and_time_commute_witness :
  db (world (Progress.updateLessonTimeSpent 7 12 45
               (Progress.initial,
                with_now "2024-03-01 10:00:00"
                  (world (Progress.markLessonComplete 7 12
                            (Progress.initial,
                             with_now "2024-03-01 09:30:00"
                               (sample_world progress_db)))))))
  = db (world (Progress.markLessonComplete 7 12
                 (Progress.initial,
                  with_now "2024-03-01 09:30:00"
                    (world (Progress.updateLessonTimeSpent 7 12 45
                              (Progress.initial,
                               with_now "2024-03-01 10:00:00"
                                 (sample_world progress_db))))))).
Proof.
  apply (complete_and_time_commute Progress.initial (sample_world progress_db)
           7 12 45 "2024-03-01 09:30:00" "2024-03-01 10:00:00" eq_refl).
  unfold safe_integer, max_safe_integer. lia.
Defined.

(** X6: on a database that serves the statements, marking a lesson complete
    a second time adds no row and overwrites the first completion time:
    marking at one time and again at a later time leaves the database that a
    single marking at the later time leaves, and [getLessonProgress] reads
    the pair back as completed at the later time. *)
Theorem markLessonComplete_again (s : Progress.St.t) (w : World)
    (studentId lessonId : Z) (earlier later : string) :
  quiet w ->
  let first :=
    Progress.markLessonComplete studentId lessonId (s, with_now earlier w) in
  let second :=
    Progress.markLessonComplete studentId lessonId
      (s, with_now later (world first)) in
  let single :=
    Progress.markLessonComplete studentId lessonId (s, with_now later w) in
  let read := Progress.getLessonProgress studentId lessonId (s, world second) in
  outcome first = Ok tt /\ outcome second = Ok tt
  /\ db (world second) = db (world single)
  /\ exists lp,
       outcome read = Ok (Some lp)
       /\ LessonProgress.t_studentId lp = studentId
       /\ LessonProgress.t_lessonId lp = lessonId
       /\ LessonProgress.t_isCompleted lp = true
       /\ LessonProgress.t_completedAt lp = Some later.
Proof.
  intros Hq first second single read. subst first second single read.
  pose proof (with_now_quiet earlier w Hq) as Hqe.
  pose proof (with_now_quiet later w Hq) as Hql.
  destruct (select_where (Progress.progress_of studentId lessonId)
              (lesson_progress (db w))) as [|p rest] eqn:Hsel.
  - destruct (complete_when_absent s (with_now earlier w) studentId lessonId
                Hqe Hsel) as (w1 & H1 & Hq1 & _ & Hdb1).
    destruct (complete_when_absent s (with_now later w) studentId lessonId
                Hql Hsel) as (w3 & H3 & _ & _ & Hdb3).
    cbn [db now with_now] in Hdb1, Hdb3.
    assert (Hs1 : select_where (Progress.progress_of studentId lessonId)
                    (lesson_progress (db (with_now later w1)))
                  = [LessonProgress.mk (seq (lesson_progress (db w)) + 1)
                       studentId lessonId 1 (Some earlier) 0]).
    { cbn [db with_now]. rewrite Hdb1, lesson_progress_with.
      apply (select_after_insert _
               (fun id => LessonProgress.mk id studentId lessonId 1
                            (Some earlier) 0));
        [exact Hsel | apply progress_of_new]. }
    destruct (complete_when_present s (with_now later w1) studentId lessonId
                (with_now_quiet _ _ Hq1) _ _ Hs1)
      as (w2 & H2 & Hq2 & _ & Hdb2).
    cbn [db now with_now] in Hdb2.
    pose proof (getLessonProgress_quiet s w2 studentId lessonId Hq2) as Hread.
    unfold world. rewrite H1, H3. cbn [snd]. rewrite H2. cbn [snd].
    unfold outcome in *. cbn [fst]. rewrite Hread.
    assert (Hsame : db w2 = db w3).
    { rewrite Hdb2, Hdb3, Hdb1, lesson_progress_with,
        with_lesson_progress_twice.
      f_equal.
      rewrite update_inserted by (try exact Hsel; apply progress_of_new).
      reflexivity. }
    repeat split; [exact Hsame|].
    rewrite Hsame, Hdb3, lesson_progress_with.
    rewrite (select_after_insert _
               (fun id => LessonProgress.mk id studentId lessonId 1
                            (Some later) 0))
      by (try exact Hsel; apply progress_of_new).
    eexists. repeat split.
  - destruct (complete_when_present s (with_now earlier w) studentId lessonId
                Hqe p rest Hsel) as (w1 & H1 & Hq1 & _ & Hdb1).
    destruct (complete_when_present s (with_now later w) studentId lessonId
                Hql p rest Hsel) as (w3 & H3 & _ & _ & Hdb3).
    cbn [db now with_now] in Hdb1, Hdb3.
    assert (Hs1 : select_where (Progress.progress_of studentId lessonId)
                    (lesson_progress (db (with_now later w1)))
                  = Progress.stamp_complete earlier p
                    :: map (Progress.stamp_complete earlier) rest).
    { cbn [db with_now]. rewrite Hdb1, lesson_progress_with.
      rewrite select_after_update by reflexivity. rewrite Hsel. reflexivity. }
    destruct (complete_when_present s (with_now later w1) studentId lessonId
                (with_now_quiet _ _ Hq1) _ _ Hs1)
      as (w2 & H2 & Hq2 & _ & Hdb2).
    cbn [db now with_now] in Hdb2.
    pose proof (getLessonProgress_quiet s w2 studentId lessonId Hq2) as Hread.
    unfold world. rewrite H1, H3. cbn [snd]. rewrite H2. cbn [snd].
    unfold outcome in *. cbn [fst]. rewrite Hread.
    assert (Hsame : db w2 = db w3).
    { rewrite Hdb2, Hdb3, Hdb1, lesson_progress_with,
        with_lesson_progress_twice.
      f_equal. apply update_twice; reflexivity. }
    repeat split; [exact Hsame|].
    rewrite Hsame, Hdb3, lesson_progress_with.
    rewrite select_after_update by reflexivity. rewrite Hsel.
    assert (Hp : Progress.progress_of studentId lessonId p = true).
    { assert (Hin : In p (select_where (Progress.progress_of studentId lessonId)
                             (lesson_progress (db w))))
        by (rewrite Hsel; left; reflexivity).
      apply filter_In in Hin. apply Hin. }
    unfold Progress.progress_of in Hp. apply andb_true_iff in Hp.
    destruct Hp as [Hp1 Hp2]. apply Z.eqb_eq in Hp1, Hp2.
    eexists. split; [reflexivity|]. simpl. auto.
Qed.

Lemma markLessonComplete_again_witness :
  rows (lesson_progress
          (db (world (Progress.markLessonComplete 7 11
                        (Progress.initial,
                         with_now "2024-03-02 08:00:00"
                           (world (Progress.markLessonComplete 7 11
                                     (Progress.initial,
                                      with_now "2024-03-01 08:00:00"
                                        (sample_world progress_db)))))))))
  = [LessonProgress.mk 1 7 11 1 (Some "2024-03-02 08:00:00") 120].
Proof.
  destruct (markLessonComplete_again Progress.initial
              (sample_world progress_db) 7 11 "2024-03-01 08:00:00"
              "2024-03-02 08:00:00" eq_refl) as (_ & _ & H & _).
  rewrite H. reflexivity.
Defined.

(** ** Accounts: from signup to login *)

Lemma signup_fresh_world (s : Auth.State) (w : World)
    (email password name : string) (role : Role) :
  quiet w ->
  select_where (Auth.has_email email) (users (db w)) = [] ->
  exists w',
    Auth.signup email password name role (s, w)
    = (Ok tt, (Auth.set_isLoading false s, w'))
    /\ quiet w' /\ kv_faults w' = kv_faults w /\ now w' = now w
    /\ currentUser w' = currentUser w
    /\ db w'
       = with_users
           (insert_row
              (fun id => User.mk id email password name role None None (now w))
              (users (db w)))
           (db w).
Proof.
  intros Hq Hsel.
  unfold Auth.signup, bind, try_finally, try_catch, getFirstAsync, runAsync;
    cbv beta.
  simpl set. cbv beta iota. rewrite statement_quiet by exact Hq. simpl.
  rewrite Hsel. simpl.
  unfold insert_unique. rewrite existsb_none by exact Hsel. simpl.
  eexists. repeat split.
Qed.

(** X7: on a database and a key-value storage that serve the calls, an
    account created by [signup] with an unregistered email can log in at once
    with the same email, password and role: the login succeeds and the
    session user - in memory and in AsyncStorage - is the new row, with the
    id signup handed out, no bio and no profile image. *)
Theorem signup_then_login_succeeds (s : Auth.State) (w : World)
    (email password name : string) (role : Role) :
  quiet w -> kv_faults w = [] ->
  (forall u, In u (rows (users (db w))) -> User.email u <> email) ->
  let r :=
    (Auth.signup email password name role ;;
     Auth.login email password role) (s, w) in
  let account :=
    User.mk (seq (users (db w)) + 1) email password name role None None
      (now w) in
  outcome r = Ok tt
  /\ Auth.user (store r) = Some account
  /\ Auth.isLoggedIn (store r) = true
  /\ Auth.isLoading (store r) = false
  /\ currentUser (world r) = Some account
  /\ rows (users (db (world r))) = rows (users (db w)) ++ [account].
Proof.
  intros Hq Hkv Hnew r account. subst r account.
  assert (Hsel : select_where (Auth.has_email email) (users (db w)) = []).
  { apply filter_none. intros e Hin. unfold Auth.has_email.
    apply String.eqb_neq. apply Hnew. exact Hin. }
  destruct (signup_fresh_world s w email password name role Hq Hsel)
    as (w1 & H1 & Hq1 & Hkv1 & Hn1 & _ & Hdb1).
  assert (Hall : select_where (Auth.matches_all email password role)
                   (users (db w1))
                 = [User.mk (seq (users (db w)) + 1) email password name role
                      None None (now w)]).
  { rewrite Hdb1. cbn [users with_users].
    apply (select_after_insert _
             (fun id => User.mk id email password name role None None (now w))).
    - apply filter_none. intros e Hin.
      destruct (Auth.matches_all email password role e) eqn:E; [|reflexivity].
      apply matches_all_iff in E. destruct E as [E _].
      exfalso. exact (Hnew e Hin E).
    - apply matches_all_iff. repeat split. }
  destruct (login_match (Auth.set_isLoading false s) w1 email password role
              Hq1 _ [] Hall) as (w2 & H2 & Hdb2 & Hcur2).
  { rewrite Hkv1. exact Hkv. }
  unfold bind. rewrite H1, H2. unfold outcome, store, world.
  cbn [fst snd Auth.user Auth.isLoggedIn Auth.isLoading].
  rewrite Hdb2, Hdb1, Hcur2. repeat split.
Qed.

Lemma signup_then_login_succeeds_witness :
  Auth.user
    (store ((Auth.signup "dana@school.com" "pw" "Dana" teacher ;;
             Auth.login "dana@school.com" "pw" teacher)
              (Auth.initial, sample_world seeded_db)))
  = Some (User.mk 3 "dana@school.com" "pw" "Dana" teacher None None
            "2024-03-01 09:00:00").
Proof.
  destruct (signup_then_login_succeeds Auth.initial (sample_world seeded_db)
              "dana@school.com" "pw" "Dana" teacher eq_refl eq_refl)
    as (_ & Huser & _); [|exact Huser].
  simpl. intros u [<-|[<-|[]]]; discriminate.
Defined.

(** X8: whatever the engine does (every fault schedule), [signup] never
    alters or removes a stored user - the users it leaves are the ones it
    found, followed by at most one new row - touches no other table, keeps
    [email] UNIQUE, leaves the session (in memory and in AsyncStorage) as it
    was and ends with [isLoading] false. *)
Theorem signup_only_appends (s : Auth.State) (w : World)
    (email password name : string) (role : Role) :
  let r := Auth.signup email password name role (s, w) in
  (exists tail,
     rows (users (db (world r))) = rows (users (db w)) ++ tail
     /\ (List.length tail <= 1)%nat)
  /\ only_users_changed (db w) (db (world r))
  /\ (unique_emails (db w) -> unique_emails (db (world r)))
  /\ Auth.user (store r) = Auth.user s
  /\ Auth.isLoggedIn (store r) = Auth.isLoggedIn s
  /\ Auth.isLoading (store r) = false
  /\ currentUser (world r) = currentUser w.
Proof.
  intros r. split; [|split; [|split]].
  - subst r. destruct w as [d f i n cu kv].
    unfold Auth.signup, try_finally, try_catch, bind, getFirstAsync, runAsync,
      statement, throw, set, world.
    cbn [faults db issued now].
    run_cases.
    all: try (exists []; rewrite app_nil_r; split; [reflexivity | simpl; lia]).
    all: match goal with
         | H : insert_unique _ _ _ = Some _ |- _ =>
             unfold insert_unique in H;
             destruct (existsb _ _); [discriminate|];
             injection H as <-
         end.
    all: eexists; split; [reflexivity | simpl; lia].
  - subst r. destruct w as [d f i n cu kv]. unfold only_users_changed.
    unfold Auth.signup, try_finally, try_catch, bind, getFirstAsync, runAsync,
      statement, throw, set, world.
    cbn [faults db issued now].
    run_cases; try reflexivity; destruct d; reflexivity.
  - intros Hu. apply signup_keeps_unique. exact Hu.
  - subst r. destruct w as [d f i n cu kv].
    unfold Auth.signup, try_finally, try_catch, bind, getFirstAsync, runAsync,
      statement, throw, set, world, store.
    cbn [faults db issued now].
    run_cases; repeat split.
Qed.

Lemma signup_only_appends_witness :
  unique_emails
    (db (world (Auth.signup "erin@school.com" "pw" "Erin" student
                  (Auth.initial,
                   with_faults [false; true] (sample_world seeded_db))))).
Proof.
  destruct (signup_only_appends Auth.initial
              (with_faults [false; true] (sample_world seeded_db))
              "erin@school.com" "pw" "Erin" student) as (_ & _ & Hu & _).
  apply Hu. exact seeded_db_unique.
Defined.

(** ** The session: login, restart, logout *)

Lemma login_match_world (s : Auth.State) (w : World) (email password : string)
    (role : Role) (u : User.row) (rest : list User.row) :
  quiet w ->
  select_where (Auth.matches_all email password role) (users (db w))
  = u :: rest ->
  kv_faults w = [] ->
  exists w',
    Auth.login email password role (s, w)
    = (Ok tt, (Auth.mkState (Some u) false true, w'))
    /\ quiet w' /\ kv_faults w' = [] /\ db w' = db w
    /\ currentUser w' = Some u.
Proof.
  intros Hq Hsel Hkv.
  unfold Auth.login, bind, try_finally, try_catch, getFirstAsync; cbv beta.
  simpl set. cbv beta iota. rewrite statement_quiet by exact Hq. simpl.
  rewrite Hsel. simpl. unfold with_kv_faults, with_currentUser. simpl.
  rewrite Hkv. simpl. eexists. repeat split.
Qed.

(** X9: with a database and a key-value storage that serve the calls, a
    successful login survives a restart - [getCurrentUser], run from any
    store state, returns the logged-in user and marks the session active -
    and a logout does not: after [logout] the in-memory session is cleared,
    [getCurrentUser] returns null and leaves the store as it found it.  None
    of this writes to the database. *)
Theorem session_restart_round_trip (s restarted : Auth.State) (w : World)
    (email password : string) (role : Role) (u : User.row) :
  quiet w -> kv_faults w = [] -> unique_emails (db w) ->
  In u (rows (users (db w))) ->
  User.email u = email -> User.password u = password -> User.role u = role ->
  let logged_in := world (Auth.login email password role (s, w)) in
  let restore := Session.getCurrentUser (restarted, logged_in) in
  let leave := Session.logout (store restore, world restore) in
  let restore_again := Session.getCurrentUser (restarted, world leave) in
  (outcome restore = Ok (Some u)
   /\ Auth.user (store restore) = Some u
   /\ Auth.isLoggedIn (store restore) = true)
  /\ (outcome leave = Ok tt
      /\ Auth.user (store leave) = None
      /\ Auth.isLoggedIn (store leave) = false
      /\ currentUser (world leave) = None)
  /\ (outcome restore_again = Ok None /\ store restore_again = restarted)
  /\ db (world restore_again) = db w.
Proof.
  intros Hq Hkv Hu Hin He Hp Hr logged_in restore leave restore_again.
  pose proof (select_all_three (db w) email password role u Hu Hin He Hp)
    as Hall.
  assert (Heq : role_eqb (User.role u) role = true)
    by (apply role_eqb_eq; exact Hr).
  rewrite Heq in Hall.
  destruct (login_match_world s w email password role u [] Hq Hall Hkv)
    as (w1 & H1 & Hq1 & Hkv1 & Hdb1 & Hcur1).
  subst restore_again leave restore logged_in.
  rewrite H1. unfold world at 5 8 9 12 13.
  cbn [snd].
  destruct w1 as [d1 f1 i1 n1 cu1 kv1].
  cbn [kv_faults currentUser db] in Hkv1, Hcur1, Hdb1. subst kv1 cu1 d1.
  destruct restarted as [ru rl ri].
  repeat split.
Qed.

Lemma session_restart_round_trip_witness :
  outcome (Session.getCurrentUser
             (Auth.initial,
              world (Auth.login "student1@school.com" "password123" student
                       (Auth.initial, sample_world seeded_db))))
  = Ok (Some (User.mk 2 "student1@school.com" "password123" "Alice Brown"
                student None (Some "Grade 10 Student") "2024-01-01 00:00:00")).
Proof.
  destruct (session_restart_round_trip Auth.initial Auth.initial
              (sample_world seeded_db) "student1@school.com" "password123"
              student
              (User.mk 2 "student1@school.com" "password123" "Alice Brown"
                 student None (Some "Grade 10 Student") "2024-01-01 00:00:00")
              eq_refl eq_refl seeded_db_unique)
    as ((H & _) & _);
    [simpl; auto | reflexivity | reflexivity | reflexivity | exact H].
Defined.

(** X10: when AsyncStorage rejects a call, [getCurrentUser] swallows the
    error - it never raises, returns null and leaves the store as it was -
    while [logout] raises after it has already cleared the in-memory
    session: the stored session is still there, so the next
    [getCurrentUser] logs the user back in. *)
Theorem session_storage_failures (s restarted : Auth.State) (w : World)
    (fs : list bool) :
  (exists v, outcome (Session.getCurrentUser (s, w)) = Ok v)
  /\ (kv_faults w = true :: fs ->
      outcome (Session.getCurrentUser (s, w)) = Ok None
      /\ store (Session.getCurrentUser (s, w)) = s)
  /\ (kv_faults w = true :: fs ->
      outcome (Session.logout (s, w)) = Raise (JsError "AsyncStorage")
      /\ Auth.user (store (Session.logout (s, w))) = None
      /\ Auth.isLoggedIn (store (Session.logout (s, w))) = false
      /\ currentUser (world (Session.logout (s, w))) = currentUser w)
  /\ (forall u, kv_faults w = [true] -> currentUser w = Some u ->
      outcome (Session.getCurrentUser (restarted, world (Session.logout (s, w))))
      = Ok (Some u)
      /\ Auth.isLoggedIn
           (store (Session.getCurrentUser
                     (restarted, world (Session.logout (s, w))))) = true).
Proof.
  destruct w as [d f i n cu kv]. cbn [kv_faults currentUser].
  split; [|split; [|split]].
  - destruct kv as [|[|] kv]; [destruct cu | | destruct cu];
      eexists; reflexivity.
  - intros ->. split; reflexivity.
  - intros ->. repeat split.
  - intros u -> ->. split; reflexivity.
Qed.

Lemma session_storage_failures_witness :
  outcome (Session.getCurrentUser
             (Auth.initial,
              world (Session.logout
                       (Auth.initial,
                        with_kv_faults [true]
                          (with_currentUser
                             (Some (User.mk 2 "student1@school.com"
                                      "password123" "Alice Brown" student None
                                      (Some "Grade 10 Student")
                                      "2024-01-01 00:00:00"))
                             (sample_world seeded_db))))))
  = Ok (Some (User.mk 2 "student1@school.com" "password123" "Alice Brown"
                student None (Some "Grade 10 Student") "2024-01-01 00:00:00")).
Proof.
  destruct (session_storage_failures Auth.initial Auth.initial
              (with_kv_faults [true]
                 (with_currentUser
                    (Some (User.mk 2 "student1@school.com" "password123"
                             "Alice Brown" student None
                             (Some "Grade 10 Student") "2024-01-01 00:00:00"))
                    (sample_world seeded_db))) [])
    as (_ & _ & _ & H).
  destruct (H _ eq_refl eq_refl) as (Hout & _). exact Hout.
Defined.

(** ** updateProfile *)

(** X11: [updateProfile] needs a session.  Without a logged-in user it
    fails with "No user logged in" whatever the engine would have done: no
    statement is sent, the database, the fault schedule and the stored
    session stay as they were, and [isLoading] is back to false. *)
Theorem updateProfile_needs_session (s : Auth.State) (w : World)
    (name bio : string) :
  Auth.user s = None ->
  Session.updateProfile name bio (s, w)
  = (Raise (JsError "No user logged in"), (Auth.set_isLoading false s, w)).
Proof.
  intros Hnone. destruct s as [u l i]. cbn [Auth.user] in Hnone. subst u.
  destruct w as [d f lg n cu kv]. reflexivity.
Qed.

Lemma updateProfile_needs_session_witness :
  outcome (Session.updateProfile "Mallory" "intruder"
             (Auth.initial, sample_world seeded_db))
  = Raise (JsError "No user logged in")
  /\ db (world (Session.updateProfile "Mallory" "intruder"
                  (Auth.initial, sample_world seeded_db))) = seeded_db.
Proof.
  rewrite (updateProfile_needs_session Auth.initial (sample_world seeded_db)
             "Mallory" "intruder" eq_refl).
  split; reflexivity.
Defined.

(** X12: with a logged-in user, and a database and a key-value storage that
    serve the calls, [updateProfile] rewrites name and bio of the stored rows
    with the session user's id and of no other row, and makes the in-memory
    user and the stored session that user with the new name and bio.  If
    instead the database serves the UPDATE and AsyncStorage then rejects the
    write, the call raises with the database and the in-memory user already
    updated and the stored session still the old one. *)
Theorem updateProfile_outcomes (s : Auth.State) (w : World) (u : User.row)
    (name bio : string) :
  Auth.user s = Some u -> quiet w ->
  let r := Session.updateProfile name bio (s, w) in
  let updated :=
    User.mk (User.id u) (User.email u) (User.password u) name (User.role u)
      (User.profileImage u) (Some bio) (User.createdAt u) in
  rows (users (db (world r)))
  = map (fun x => if User.id x =? User.id u
                  then User.mk (User.id x) (User.email x) (User.password x)
                         name (User.role x) (User.profileImage x) (Some bio)
                         (User.createdAt x)
                  else x)
      (rows (users (db w)))
  /\ only_users_changed (db w) (db (world r))
  /\ Auth.user (store r) = Some updated
  /\ Auth.isLoggedIn (store r) = Auth.isLoggedIn s
  /\ Auth.isLoading (store r) = false
  /\ (kv_faults w = [] ->
      outcome r = Ok tt /\ currentUser (world r) = Some updated)
  /\ (forall fs, kv_faults w = true :: fs ->
      outcome r = Raise (JsError "AsyncStorage")
      /\ currentUser (world r) = currentUser w).
Proof.
  intros Hs Hq r updated. subst r updated.
  destruct s as [su sl si]. cbn [Auth.user] in Hs. subst su.
  destruct w as [d f lg n cu kv]. unfold quiet in Hq. cbn [faults] in Hq.
  subst f. unfold only_users_changed.
  repeat split.
  - destruct kv as [|[|] kv]; reflexivity.
  - destruct kv as [|[|] kv]; reflexivity.
  - destruct kv as [|[|] kv]; reflexivity.
  - destruct kv as [|[|] kv]; reflexivity.
  - destruct kv as [|[|] kv]; reflexivity.
  - cbn [kv_faults] in H. subst kv. reflexivity.
  - cbn [kv_faults] in H. subst kv. reflexivity.
  - cbn [kv_faults] in H. subst kv. reflexivity.
  - cbn [kv_faults] in H. subst kv. reflexivity.
Qed.

Lemma updateProfile_outcomes_witness :
  rows (users
          (db (world (Session.updateProfile "Alice B." "Grade 11 Student"
                        (Auth.mkState
                           (Some (User.mk 2 "student1@school.com" "password123"
                                    "Alice Brown" student None
                                    (Some "Grade 10 Student")
                                    "2024-01-01 00:00:00"))
                           false true,
                         sample_world seeded_db)))))
  = [User.mk 1 "teacher1@school.com" "password123" "John Smith" teacher None
       (Some "Mathematics Teacher") "2024-01-01 00:00:00";
     User.mk 2 "student1@school.com" "password123" "Alice B." student None
       (Some "Grade 11 Student") "2024-01-01 00:00:00"].
Proof.
  destruct (updateProfile_outcomes
              (Auth.mkState
                 (Some (User.mk 2 "student1@school.com" "password123"
                          "Alice Brown" student None (Some "Grade 10 Student")
                          "2024-01-01 00:00:00"))
                 false true)
              (sample_world seeded_db)
              (User.mk 2 "student1@school.com" "password123" "Alice Brown"
                 student None (Some "Grade 10 Student") "2024-01-01 00:00:00")
              "Alice B." "Grade 11 Student" eq_refl eq_refl) as (H & _).
  rewrite H. reflexivity.
Defined.

(** ** Creating and deleting a course from the teacher's screens *)


Lemma fetchTeacherCourses_quiet (s : CourseStore.St.t) (w : World) (t : Z) :
  quiet w ->
  exists w',
    Courses.fetchTeacherCourses t (s, w)
    = (Ok tt,
       (CourseStore.St.mk (Courses.courses_of_teacher t (db w))
          (CourseStore.St.lessons s) (CourseStore.St.currentCourse s) false,
        w'))
    /\ quiet w' /\ db w' = db w.
Proof.
  intros Hq.
  unfold Courses.fetchTeacherCourses, bind, try_finally, try_catch,
    getAllAsync; cbv beta.
  simpl set. cbv beta iota. rewrite statement_quiet by exact Hq. simpl.
  eexists. repeat split.
Qed.


Lemma courses_of_teacher_in (t : Z) (d : Database) (c : Course.row) :
  In c (Courses.courses_of_teacher t d)
  <-> In c (rows (courses d)) /\ Course.teacherId c = t.
Proof.
  unfold Courses.courses_of_teacher, select_where. split.
  - intros Hin. apply (Permutation_in _ (order_by_perm _ _)) in Hin.
    apply filter_In in Hin. rewrite Z.eqb_eq in Hin. exact Hin.
  - intros [Hin Ht].
    apply (Permutation_in _ (Permutation_sym (order_by_perm _ _))).
    apply filter_In. rewrite Z.eqb_eq. split; assumption.
Qed.



Lemma try_catch_ret_never_raises {St A} (body : M St A) (a : A) (st : St) :
  exists v, outcome (try_catch body (fun _ => ret a) st) = Ok v.
Proof.
  unfold try_catch, outcome. destruct (body st) as [[v|e] st'];
    eexists; reflexivity.
Qed.

Lemma deleteCourse_quiet_world (s : CourseStore.St.t) (w : World) (c : Z) :
  quiet w ->
  exists w',
    CourseStore.deleteCourse c (s, w) = (Ok tt, (s, w'))
    /\ quiet w' /\ db w' = cascade_applied 6 c (db w).
Proof.
  destruct w as [d f lg n cu kv]. unfold quiet. cbn [faults]. intros ->.
  eexists. split; [vm_compute; reflexivity|]. split; reflexivity.
Qed.

Lemma deleteCourse_fault_world (s : CourseStore.St.t) (w : World) (c : Z)
    (k : nat) (fs : list bool) :
  (k < 6)%nat -> faults w = repeat false k ++ true :: fs ->
  exists w',
    CourseStore.deleteCourse c (s, w)
    = (Raise (SqliteError SQLITE_ERROR), (s, w'))
    /\ db w' = cascade_applied k c (db w).
Proof.
  destruct w as [d f lg n cu kv]. cbn [faults]. intros Hk ->.
  do 6 (destruct k as [|k];
        [eexists; split; [vm_compute; reflexivity | reflexivity]|]).
  lia.
Qed.

Lemma course_row_gone (k : nat) (c : Z) (d : Database) :
  k = 6%nat ->
  select_where (fun x => Course.id x =? c) (courses (cascade_applied k c d))
  = [].
Proof.
  intros ->. unfold cascade_applied.
  cbn -[Z.eqb select_where delete_where]. apply select_deleted.
Qed.

(** X14: confirming the deletion of a course on the teacher dashboard never
    raises.  On a database that serves the statements it runs the whole
    cascade, refreshes the teacher's list - in which no course with the
    deleted id is left - and reports success.  If a statement of the cascade
    fails, it reports the failure and does not refresh: the list still shows
    what it showed, while the deletes issued before the failure stay
    applied. *)
Theorem confirmDeleteCourse_outcomes (s : CourseStore.St.t) (w : World)
    (user : option User.row) (courseId : Z) :
  let r := TeacherDashboard.confirmDeleteCourse user courseId (s, w) in
  (exists fb, outcome r = Ok fb)
  /\ (forall id, user_id user = Some id -> quiet w ->
      outcome r = Ok (Alert "Success" "Course deleted successfully")
      /\ db (world r) = cascade_applied 6 courseId (db w)
      /\ CourseStore.St.courses (store r)
         = Courses.courses_of_teacher id (db (world r))
      /\ (forall c, In c (CourseStore.St.courses (store r)) ->
                    Course.id c <> courseId))
  /\ (forall k fs, (k < 6)%nat -> faults w = repeat false k ++ true :: fs ->
      outcome r = Ok (Alert "Error" "Failed to delete course")
      /\ store r = s
      /\ db (world r) = cascade_applied k courseId (db w)).
Proof.
  intros r. subst r. unfold TeacherDashboard.confirmDeleteCourse.
  split; [apply try_catch_ret_never_raises|]. split.
  - intros id Hu Hq. rewrite Hu.
    destruct (deleteCourse_quiet_world s w courseId Hq)
      as (w1 & H1 & Hq1 & Hdb1).
    destruct (fetchTeacherCourses_quiet s w1 id Hq1) as (w2 & H2 & _ & Hdb2).
    unfold try_catch, bind. rewrite H1, H2.
    unfold outcome, store, world. cbn [fst snd ret CourseStore.St.courses].
    rewrite Hdb2, Hdb1. repeat split.
    intros c Hin Hid. apply courses_of_teacher_in in Hin. destruct Hin as [Hin _].
    assert (Hsel : In c (select_where (fun x => Course.id x =? courseId)
                           (courses (cascade_applied 6 courseId (db w)))))
      by (apply filter_In; split; [exact Hin | apply Z.eqb_eq; exact Hid]).
    rewrite course_row_gone in Hsel by reflexivity. exact Hsel.
  - intros k fs Hk Hf.
    destruct (deleteCourse_fault_world s w courseId k fs Hk Hf)
      as (w1 & H1 & Hdb1).
    unfold try_catch, bind. rewrite H1.
    unfold outcome, store, world. cbn [fst snd ret]. auto.
Qed.

Lemma confirmDeleteCourse_outcomes_witness :
  outcome (TeacherDashboard.confirmDeleteCourse
             (Some (User.mk 1 "teacher1@school.com" "password123" "John Smith"
                      teacher None (Some "Mathematics Teacher")
                      "2024-01-01 00:00:00"))
             3 (CourseStore.initial, sample_world course_db))
  = Ok (Alert "Success" "Course deleted successfully")
  /\ outcome (TeacherDashboard.confirmDeleteCourse
                (Some (User.mk 1 "teacher1@school.com" "password123"
                         "John Smith" teacher None (Some "Mathematics Teacher")
                         "2024-01-01 00:00:00"))
                3 (CourseStore.initial,
                   with_faults [false; true] (sample_world course_db)))
     = Ok (Alert "Error" "Failed to delete course").
Proof.
  split.
  - destruct (confirmDeleteCourse_outcomes CourseStore.initial
                (sample_world course_db)
                (Some (User.mk 1 "teacher1@school.com" "password123"
                         "John Smith" teacher None (Some "Mathematics Teacher")
                         "2024-01-01 00:00:00")) 3) as (_ & Hok & _).
    apply (Hok 1 eq_refl eq_refl).
  - destruct (confirmDeleteCourse_outcomes CourseStore.initial
                (with_faults [false; true] (sample_world course_db))
                (Some (User.mk 1 "teacher1@school.com" "password123"
                         "John Smith" teacher None (Some "Mathematics Teacher")
                         "2024-01-01 00:00:00")) 3) as (_ & _ & Hfail).
    apply (Hfail 1%nat [] ltac:(lia) eq_refl).
Defined.

(** ** The student dashboard reads the enrollment cache *)

Lemma fetchStudentEnrollments_quiet (s : Progress.St.t) (w : World) (a : Z) :
  quiet w ->
  exists w' cache,
    Progress.fetchStudentEnrollments a (s, w)
    = (Ok tt, (Progress.St.mk cache (Progress.St.lessonProgress s) false, w'))
    /\ quiet w' /\ db w' = db w
    /\ Permutation cache
         (select_where (fun e => Enrollment.studentId e =? a)
            (enrollments (db w))).
Proof.
  intros Hq.
  unfold Progress.fetchStudentEnrollments, bind, try_finally, try_catch,
    getAllAsync; cbv beta.
  simpl set. cbv beta iota. rewrite statement_quiet by exact Hq. simpl.
  eexists. eexists. split; [reflexivity|]. repeat split.
  apply order_by_perm.
Qed.

(** X15: after [fetchStudentEnrollments] for a student, on a database that
    serves the statements and keeps UNIQUE(studentId, courseId), the
    percentage the student dashboard computes from the cached enrollments
    ([getProgressPercentage], which looks the course up by courseId alone)
    is the percentage [getCourseProgress] reads from the database for that
    student and course - 0 when the student is not enrolled. *)
Theorem dashboard_progress_agrees (s : Progress.St.t) (w : World)
    (studentId courseId : Z) :
  quiet w -> unique_enrollments (db w) ->
  let fetched := Progress.fetchStudentEnrollments studentId (s, w) in
  let shown :=
    StudentDashboard.getProgressPercentage
      (Progress.St.enrollments (store fetched)) courseId in
  exists v,
    outcome (Progress.getCourseProgress studentId courseId
               (store fetched, world fetched)) = Ok v
    /\ Qeq shown v.
Proof.
  intros Hq Hu fetched shown. subst shown fetched.
  destruct (fetchStudentEnrollments_quiet s w studentId Hq)
    as (w1 & cache & H1 & Hq1 & Hdb1 & Hperm).
  rewrite H1. unfold store, world. cbn [fst snd Progress.St.enrollments].
  rewrite getCourseProgress_quiet by exact Hq1. rewrite Hdb1.
  eexists. split; [reflexivity|].
  unfold StudentDashboard.getProgressPercentage.
  assert (Hcache : forall x, In x cache ->
            In x (rows (enrollments (db w)))
            /\ Enrollment.studentId x = studentId).
  { intros x Hx. apply (Permutation_in _ Hperm) in Hx.
    apply filter_In in Hx. rewrite Z.eqb_eq in Hx. exact Hx. }
  destruct (find (fun e => Enrollment.courseId e =? courseId) cache)
    as [x|] eqn:Hfind.
  - apply find_some in Hfind. destruct Hfind as [Hx Hc].
    destruct (Hcache x Hx) as [Hin Hs].
    assert (Hmine : Progress.enrollment_of studentId courseId x = true).
    { unfold Progress.enrollment_of. rewrite Hc, Hs, Z.eqb_refl. reflexivity. }
    rewrite (select_enrollment (db w) studentId courseId x Hu Hin Hmine).
    destruct (Qeq_bool (Enrollment.completionPercentage x) 0) eqn:Hz.
    + apply Qeq_bool_iff in Hz. symmetry. exact Hz.
    + reflexivity.
  - destruct (select_where (Progress.enrollment_of studentId courseId)
                (enrollments (db w))) as [|e rest] eqn:Hsel; [reflexivity|].
    exfalso.
    assert (He : In e (select_where (Progress.enrollment_of studentId courseId)
                         (enrollments (db w))))
      by (rewrite Hsel; left; reflexivity).
    apply filter_In in He. destruct He as [Hin Hmine].
    unfold Progress.enrollment_of in Hmine. apply andb_true_iff in Hmine.
    destruct Hmine as [Hs Hc].
    assert (Hincache : In e cache).
    { apply (Permutation_in _ (Permutation_sym Hperm)).
      apply filter_In. split; assumption. }
    pose proof (find_none _ _ Hfind e Hincache) as Hno. cbv beta in Hno.
    congruence.
Qed.

Lemma dashboard_progress_agrees_witness :
  Qeq (StudentDashboard.getProgressPercentage
         (Progress.St.enrollments
            (store (Progress.fetchStudentEnrollments 7
                      (Progress.initial, sample_world enrolled_db))))
         4)
      55%Q.
Proof.
  destruct (dashboard_progress_agrees Progress.initial
              (sample_world enrolled_db) 7 4 eq_refl enrolled_db_unique)
    as (v & Hv & Heq).
  vm_compute in Hv. injection Hv as <-. exact Heq.
Defined.

(** ** The list of enrolled courses follows the enrollments table *)

Lemma courses_of_student_in (a : Z) (d : Database) (c : Course.row) :
  In c (Courses.courses_of_student a d)
  <-> In c (rows (courses d))
      /\ exists e, In e (rows (enrollments d))
                   /\ Enrollment.studentId e = a
                   /\ Enrollment.courseId e = Course.id c.
Proof.
  unfold Courses.courses_of_student. split.
  - intros Hin. apply (Permutation_in _ (order_by_perm _ _)) in Hin.
    apply in_map_iff in Hin. destruct Hin as ([c' e] & Hfst & Hin).
    simpl in Hfst. subst c'.
    apply filter_In in Hin. destruct Hin as [Hin Hs]. simpl in Hs.
    apply in_flat_map in Hin. destruct Hin as (c' & Hc' & Hin).
    apply in_map_iff in Hin. destruct Hin as (e' & Heq & He').
    injection Heq as -> ->.
    apply filter_In in He'. destruct He' as [He' Hid].
    apply Z.eqb_eq in Hs, Hid.
    split; [exact Hc'|]. exists e. auto.
  - intros (Hc & e & He & Hs & Hid).
    apply (Permutation_in _ (Permutation_sym (order_by_perm _ _))).
    apply in_map_iff. exists (c, e). split; [reflexivity|].
    apply filter_In. split; [|simpl; apply Z.eqb_eq; exact Hs].
    apply in_flat_map. exists c. split; [exact Hc|].
    apply in_map. apply filter_In. split; [exact He|].
    apply Z.eqb_eq. symmetry. exact Hid.
Qed.

Lemma fetchEnrolledCourses_quiet (s : CourseStore.St.t) (w : World) (a : Z) :
  quiet w ->
  CourseStore.St.courses (store (Courses.fetchEnrolledCourses a (s, w)))
  = Courses.courses_of_student a (db w).
Proof.
  intros Hq.
  unfold Courses.fetchEnrolledCourses, bind, try_finally, try_catch,
    getAllAsync; cbv beta.
  simpl set. cbv beta iota. rewrite statement_quiet by exact Hq. reflexivity.
Qed.

(** X16: on a database that serves the statements, the student's course
    list ([fetchEnrolledCourses]) follows the enrollments table across the
    stores: a stored course is listed as soon as the student has enrolled in
    it, it is listed for an enrollment of any status (the query does not look
    at the status), and after [unenrollFromCourse] no course with that id is
    listed. *)
Theorem enrolled_courses_follow_enrollment (ps : Progress.St.t)
    (cs : CourseStore.St.t) (w : World) (studentId : Z) (c : Course.row) :
  quiet w -> In c (rows (courses (db w))) ->
  let listed (w' : World) :=
    CourseStore.St.courses
      (store (Courses.fetchEnrolledCourses studentId (cs, w'))) in
  ((forall e, In e (rows (enrollments (db w))) ->
              Progress.enrollment_of studentId (Course.id c) e = false) ->
     In c (listed (world (Progress.enrollInCourse studentId (Course.id c)
                            (ps, w)))))
  /\ (forall e, In e (rows (enrollments (db w))) ->
                Progress.enrollment_of studentId (Course.id c) e = true ->
      In c (listed w))
  /\ (forall x,
        In x (listed (world (Progress.unenrollFromCourse studentId
                               (Course.id c) (ps, w)))) ->
        Course.id x <> Course.id c).
Proof.
  intros Hq Hc listed. subst listed. cbv beta. split; [|split].
  - intros Hnone.
    assert (Hsel : select_where (Progress.enrollment_of studentId (Course.id c))
                     (enrollments (db w)) = [])
      by (apply filter_none; exact Hnone).
    destruct (enroll_quiet_world ps w studentId (Course.id c) Hq Hsel)
      as (w1 & H1 & Hq1 & _ & Hdb1).
    rewrite H1. unfold world. cbn [snd].
    rewrite fetchEnrolledCourses_quiet by exact Hq1.
    apply courses_of_student_in. rewrite Hdb1.
    cbn [courses enrollments with_enrollments rows insert_row].
    split; [exact Hc|].
    eexists. split; [apply in_or_app; right; left; reflexivity|].
    split; reflexivity.
  - intros e He Hmine.
    rewrite fetchEnrolledCourses_quiet by exact Hq.
    apply courses_of_student_in. split; [exact Hc|].
    unfold Progress.enrollment_of in Hmine. apply andb_true_iff in Hmine.
    destruct Hmine as [Hs Hid]. apply Z.eqb_eq in Hs, Hid.
    exists e. auto.
  - intros x Hx Hid.
    destruct (unenroll_quiet ps w studentId (Course.id c) Hq)
      as (w1 & H1 & Hq1 & _ & Hdb1).
    rewrite H1 in Hx. unfold world in Hx. cbn [snd] in Hx.
    rewrite fetchEnrolledCourses_quiet in Hx by exact Hq1.
    apply courses_of_student_in in Hx.
    destruct Hx as (_ & e & He & Hs & Hce).
    rewrite Hdb1 in He. cbn [enrollments with_enrollments] in He.
    assert (Hin : In e (select_where
                          (Progress.enrollment_of studentId (Course.id c))
                          (delete_where
                             (Progress.enrollment_of studentId (Course.id c))
                             (enrollments (db w))))).
    { apply filter_In. split; [exact He|].
      unfold Progress.enrollment_of. rewrite Hs, Hce, Hid, !Z.eqb_refl.
      reflexivity. }
    rewrite select_deleted in Hin. exact Hin.
Qed.

Lemma enrolled_courses_follow_enrollment_witness :
  In (Course.mk 3 1 "Algebra I" None None None None None
        "2024-01-05 00:00:00" "2024-01-05 00:00:00")
     (CourseStore.St.courses
        (store (Courses.fetchEnrolledCourses 2
                  (CourseStore.initial,
                   world (Progress.enrollInCourse 2 3
                            (Progress.initial, sample_world course_db)))))).
Proof.
  destruct (enrolled_courses_follow_enrollment Progress.initial
              CourseStore.initial (sample_world course_db) 2
              (Course.mk 3 1 "Algebra I" None None None None None
                 "2024-01-05 00:00:00" "2024-01-05 00:00:00") eq_refl)
    as (Hnew & _); [simpl; auto|].
  apply Hnew. simpl. intros e [<-|[<-|[<-|[]]]]; reflexivity.
Defined.

(** ** The quiz store and the quiz screen *)

Lemma with_quiz_answers_twice (a b : Table QuizAnswer.row) (d : Database) :
  with_quiz_answers a (with_quiz_answers b d) = with_quiz_answers a d.
Proof. destruct d. reflexivity. Qed.

Lemma with_quiz_answers_same (d : Database) :
  with_quiz_answers
    (mkTable (rows (quiz_answers d) ++ []) (seq (quiz_answers d) + 0)) d = d.
Proof.
  destruct d as [? ? ? ? ? ? ? ? [r s] ? ?]. simpl.
  rewrite app_nil_r, Z.add_0_r. reflexivity.
Qed.

Lemma recordAnswer_served (st : QuizStore.St.t) (w : World)
    (attemptId questionId : Z) (answer : string) (isCorrect : bool)
    (fs : list bool) :
  next_fault (faults w) = (false, fs) ->
  exists w',
    Quizzes.recordAnswer attemptId questionId answer isCorrect (st, w)
    = (Ok tt, (st, w'))
    /\ db w'
       = with_quiz_answers
           (insert_row
              (fun id => QuizAnswer.mk id attemptId questionId (Some answer)
                           (Some (Quizzes.flag isCorrect)))
              (quiz_answers (db w)))
           (db w)
    /\ faults w' = fs /\ now w' = now w.
Proof.
  intros Hf.
  unfold Quizzes.recordAnswer, try_catch, runAsync, statement.
  rewrite Hf. cbn. eexists. repeat split.
Qed.

Lemma recordAnswer_fault (st : QuizStore.St.t) (w : World)
    (attemptId questionId : Z) (answer : string) (isCorrect : bool)
    (fs : list bool) :
  faults w = true :: fs ->
  exists w',
    Quizzes.recordAnswer attemptId questionId answer isCorrect (st, w)
    = (Raise (SqliteError SQLITE_ERROR), (st, w'))
    /\ db w' = db w.
Proof.
  intros Hf.
  unfold Quizzes.recordAnswer, try_catch, runAsync, statement, throw.
  rewrite Hf. cbn. eexists. repeat split.
Qed.

Lemma correct_count_cons (answers : Z -> option string)
    (q : QuizQuestion.row) (qs : list QuizQuestion.row) (c : Z) :
  (if QuizScreen.is_correct (QuizScreen.answer_of answers (QuizQuestion.id q)) q
   then c + 1 else c) + correct_count answers qs
  = c + correct_count answers (q :: qs).
Proof.
  unfold correct_count. simpl filter.
  destruct (QuizScreen.is_correct _ q); simpl List.length; lia.
Qed.

(** The loop over the questions when every INSERT is served. *)
Lemma record_answers_served (attemptId : Z) (answers : Z -> option string)
    (qs : list QuizQuestion.row) :
  forall (c : Z) (st : QuizStore.St.t) (w : World),
    forallb negb (firstn (List.length qs) (faults w)) = true ->
    exists w',
      QuizScreen.record_answers attemptId answers qs c (st, w)
      = (Ok (c + correct_count answers qs), (st, w'))
      /\ db w'
         = with_quiz_answers
             (mkTable
                (rows (quiz_answers (db w))
                 ++ answer_rows attemptId answers qs
                      (seq (quiz_answers (db w)) + 1))
                (seq (quiz_answers (db w)) + Z.of_nat (List.length qs)))
             (db w)
      /\ faults w' = skipn (List.length qs) (faults w)
      /\ now w' = now w.
Proof.
  induction qs as [|q qs IH]; intros c st w Hf.
  - exists w. simpl. rewrite with_quiz_answers_same.
    unfold correct_count. simpl. rewrite Z.add_0_r. repeat split.
  - assert (Hn : exists fs, next_fault (faults w) = (false, fs)
                            /\ skipn (List.length (q :: qs)) (faults w)
                               = skipn (List.length qs) fs
                            /\ forallb negb (firstn (List.length qs) fs) = true).
    { destruct (faults w) as [|b fs].
      - exists []. simpl. destruct (List.length qs); repeat split.
      - simpl in Hf. apply andb_prop in Hf. destruct Hf as [Hb Hf].
        destruct b; [discriminate|]. exists fs. repeat split. exact Hf. }
    destruct Hn as (fs & Hnext & Hskip & Hrest).
    destruct (recordAnswer_served st w attemptId (QuizQuestion.id q)
                (QuizScreen.answer_of answers (QuizQuestion.id q))
                (QuizScreen.is_correct
                   (QuizScreen.answer_of answers (QuizQuestion.id q)) q)
                fs Hnext)
      as (w1 & Hrun & Hdb & Hfs & Hnow).
    cbn [QuizScreen.record_answers]. unfold bind at 1. rewrite Hrun.
    destruct (IH (if QuizScreen.is_correct
                       (QuizScreen.answer_of answers (QuizQuestion.id q)) q
                  then c + 1 else c) st w1) as (w2 & Hrun2 & Hdb2 & Hfs2 & Hnow2).
    { rewrite Hfs. exact Hrest. }
    exists w2. rewrite Hrun2, correct_count_cons.
    repeat split.
    + rewrite Hdb2, Hdb, with_quiz_answers_twice.
      destruct (db w) as [? ? ? ? ? ? ? ? [r s] ? ?].
      cbn [quiz_answers with_quiz_answers insert_row rows seq answer_rows].
      rewrite <- app_assoc. cbn [app List.length].
      rewrite Nat2Z.inj_succ. f_equal. f_equal. lia.
    + rewrite Hfs2, Hfs, Hskip. reflexivity.
    + rewrite Hnow2. exact Hnow.
Qed.

(** The loop when the INSERT of answer [k + 1] is rejected by the engine. *)
Lemma record_answers_fault (attemptId : Z) (answers : Z -> option string) :
  forall (k : nat) (qs : list QuizQuestion.row) (c : Z)
         (st : QuizStore.St.t) (w : World) (rest : list bool),
    faults w = repeat false k ++ true :: rest ->
    (k < List.length qs)%nat ->
    exists w',
      QuizScreen.record_answers attemptId answers qs c (st, w)
      = (Raise (SqliteError SQLITE_ERROR), (st, w'))
      /\ db w'
         = with_quiz_answers
             (mkTable
                (rows (quiz_answers (db w))
                 ++ answer_rows attemptId answers (firstn k qs)
                      (seq (quiz_answers (db w)) + 1))
                (seq (quiz_answers (db w)) + Z.of_nat k))
             (db w).
Proof.
  induction k as [|k IH]; intros qs c st w rest Hf Hk.
  - destruct qs as [|q qs]; [simpl in Hk; lia|].
    destruct (recordAnswer_fault st w attemptId (QuizQuestion.id q)
                (QuizScreen.answer_of answers (QuizQuestion.id q))
                (QuizScreen.is_correct
                   (QuizScreen.answer_of answers (QuizQuestion.id q)) q)
                rest Hf)
      as (w1 & Hrun & Hdb).
    exists w1. cbn [QuizScreen.record_answers]. unfold bind at 1.
    rewrite Hrun. split; [reflexivity|].
    rewrite Hdb. simpl. rewrite with_quiz_answers_same. reflexivity.
  - destruct qs as [|q qs]; [simpl in Hk; lia|].
    destruct (recordAnswer_served st w attemptId (QuizQuestion.id q)
                (QuizScreen.answer_of answers (QuizQuestion.id q))
                (QuizScreen.is_correct
                   (QuizScreen.answer_of answers (QuizQuestion.id q)) q)
                (repeat false k ++ true :: rest))
      as (w1 & Hrun & Hdb & Hfs & Hnow).
    { rewrite Hf. reflexivity. }
    cbn [QuizScreen.record_answers]. unfold bind at 1. rewrite Hrun.
    destruct (IH qs (if QuizScreen.is_correct
                          (QuizScreen.answer_of answers (QuizQuestion.id q)) q
                     then c + 1 else c) st w1 rest Hfs) as (w2 & Hrun2 & Hdb2).
    { simpl in Hk. lia. }
    exists w2. rewrite Hrun2. split; [reflexivity|].
    rewrite Hdb2, Hdb, with_quiz_answers_twice.
    destruct (db w) as [? ? ? ? ? ? ? ? [r s] ? ?].
    cbn [quiz_answers with_quiz_answers insert_row rows seq answer_rows firstn].
    rewrite <- app_assoc. cbn [app].
    rewrite Nat2Z.inj_succ. f_equal. f_equal. lia.
Qed.

Lemma submitQuizAttempt_served (st : QuizStore.St.t) (w : World)
    (attempt : AttemptDraft.t) (fs : list bool) :
  next_fault (faults w) = (false, fs) ->
  exists w',
    Quizzes.submitQuizAttempt attempt (st, w)
    = (Ok (seq (quiz_attempts (db w)) + 1), (st, w'))
    /\ db w'
       = with_quiz_attempts
           (insert_row (Quizzes.attempt_row attempt (now w))
              (quiz_attempts (db w)))
           (db w)
    /\ faults w' = fs /\ now w' = now w.
Proof.
  intros Hf.
  unfold Quizzes.submitQuizAttempt, try_catch, bind, runAsync_insert,
    statement.
  rewrite Hf. cbn. eexists. repeat split.
Qed.

Lemma submitQuizAttempt_fault (st : QuizStore.St.t) (w : World)
    (attempt : AttemptDraft.t) (fs : list bool) :
  faults w = true :: fs ->
  exists w',
    Quizzes.submitQuizAttempt attempt (st, w)
    = (Raise (SqliteError SQLITE_ERROR), (st, w'))
    /\ db w' = db w.
Proof.
  intros Hf.
  unfold Quizzes.submitQuizAttempt, try_catch, bind, runAsync_insert,
    statement, throw.
  rewrite Hf. cbn. eexists. repeat split.
Qed.

(** The submit handler on a database that serves the statements. *)
Lemma submit_run_quiet (st : QuizStore.St.t) (w : World)
    (userId quizId courseId : Z) (answers : Z -> option string)
    (elapsed : Z) (isoNow : string) :
  quiet w ->
  let questions := QuizStore.St.quizQuestions st in
  let n := Z.of_nat (List.length questions) in
  let attemptId := seq (quiz_attempts (db w)) + 1 in
  exists w',
    QuizScreen.confirmSubmitQuiz userId quizId courseId answers elapsed
      isoNow (st, w)
    = (Ok (QuizScreen.ToQuizResult
             (QuizScreen.mkResultParams quizId courseId
                (QuizScreen.score_of (correct_count answers questions) n)
                (correct_count answers questions) n)),
       (st, w'))
    /\ db w'
       = with_quiz_answers
           (mkTable
              (rows (quiz_answers (db w))
               ++ answer_rows attemptId answers questions
                    (seq (quiz_answers (db w)) + 1))
              (seq (quiz_answers (db w)) + n))
           (with_quiz_attempts
              (mkTable
                 (rows (quiz_attempts (db w))
                  ++ [QuizAttempt.mk attemptId userId quizId (Some 0%Q)
                        (Some n) (Some 0) (now w)
                        (Some elapsed)])
                 attemptId)
              (db w))
    /\ quiet w'.
Proof.
  intros Hq questions n attemptId.
  destruct (submitQuizAttempt_served st w
              (AttemptDraft.mk userId quizId 0%Q n 0 isoNow
                 (Some elapsed)) [])
    as (w1 & H1 & Hdb1 & Hf1 & Hnow1).
  { rewrite Hq. reflexivity. }
  destruct (record_answers_served attemptId answers questions 0 st w1)
    as (w2 & H2 & Hdb2 & Hf2 & _).
  { rewrite Hf1. destruct (List.length questions); reflexivity. }
  exists w2. split; [|split].
  - unfold QuizScreen.confirmSubmitQuiz, try_catch.
    unfold bind at 1. unfold getState at 1. cbv beta iota.
    fold questions. fold n.
    unfold bind at 1. rewrite H1. fold attemptId.
    unfold bind. rewrite H2. rewrite Z.add_0_l. reflexivity.
  - rewrite Hdb2, Hdb1.
    destruct (db w) as [? ? ? ? ? ? ? [ra sa] [rb sb] ? ?]. reflexivity.
  - unfold quiet. rewrite Hf2, Hf1.
    destruct (List.length questions); reflexivity.
Qed.



Lemma fetchStudentAttempts_quiet (st : QuizStore.St.t) (w : World)
    (studentId quizId : Z) :
  quiet w ->
  exists w',
    Quizzes.fetchStudentAttempts studentId quizId (st, w)
    = (Ok tt,
       (Quizzes.set_quizAttempts (Quizzes.attempts_of studentId quizId (db w))
          st, w'))
    /\ quiet w' /\ db w' = db w.
Proof.
  intros Hq.
  unfold Quizzes.fetchStudentAttempts, try_catch, bind, getAllAsync.
  rewrite statement_quiet by exact Hq. simpl. eexists. repeat split.
Qed.

Lemma all_correct_count (answers : Z -> option string)
    (qs : list QuizQuestion.row) :
  (forall q, In q qs ->
     QuizScreen.is_correct (QuizScreen.answer_of answers (QuizQuestion.id q)) q
     = true) ->
  correct_count answers qs = Z.of_nat (List.length qs).
Proof.
  unfold correct_count. intros H. f_equal. f_equal.
  induction qs as [|q qs IH]; [reflexivity|]. simpl.
  rewrite (H q) by (left; reflexivity). simpl. f_equal.
  apply IH. intros x Hx. apply H. right. exact Hx.
Qed.

(** X18: a submission that answers every question of a non-empty quiz
    correctly hands the result screen as many correct answers as there are
    questions, but the attempt it stored carries score 0 and 0 correct
    answers: that is what [fetchStudentAttempts] puts into the student's
    attempt history right afterwards. *)
Theorem perfect_submission_recorded_as_zero (st : QuizStore.St.t) (w : World)
    (userId quizId courseId : Z) (answers : Z -> option string)
    (elapsed : Z) (isoNow : string) :
  quiet w ->
  QuizStore.St.quizQuestions st <> [] ->
  (forall q, In q (QuizStore.St.quizQuestions st) ->
     QuizScreen.is_correct (QuizScreen.answer_of answers (QuizQuestion.id q)) q
     = true) ->
  let run :=
    QuizScreen.confirmSubmitQuiz userId quizId courseId answers elapsed
      isoNow (st, w) in
  let history :=
    Quizzes.fetchStudentAttempts userId quizId (store run, world run) in
  (exists p,
     outcome run = Ok (QuizScreen.ToQuizResult p)
     /\ 0 < QuizScreen.totalQuestions p
     /\ QuizScreen.correctAnswers p = QuizScreen.totalQuestions p)
  /\ (exists a,
        In a (QuizStore.St.quizAttempts (store history))
        /\ QuizAttempt.id a = seq (quiz_attempts (db w)) + 1
        /\ QuizAttempt.score a = Some 0%Q
        /\ QuizAttempt.correctAnswers a = Some 0).
Proof.
  intros Hq Hne Hall run history.
  destruct (submit_run_quiet st w userId quizId courseId answers elapsed
              isoNow Hq) as (w1 & Hrun & Hdb & Hq1).
  cbv zeta in Hrun, Hdb.
  rewrite (all_correct_count answers _ Hall) in Hrun.
  subst history run. rewrite Hrun. unfold outcome, store, world.
  cbn [fst snd]. split.
  - eexists. split; [reflexivity|]. cbn [QuizScreen.totalQuestions
      QuizScreen.correctAnswers]. split; [|reflexivity].
    destruct (QuizStore.St.quizQuestions st); [contradiction|].
    simpl List.length. lia.
  - destruct (fetchStudentAttempts_quiet st w1 userId quizId Hq1)
      as (w2 & H2 & _).
    rewrite H2. cbn [fst snd Quizzes.set_quizAttempts QuizStore.St.quizAttempts].
    exists (QuizAttempt.mk (seq (quiz_attempts (db w)) + 1) userId quizId
              (Some 0%Q)
              (Some (Z.of_nat (List.length (QuizStore.St.quizQuestions st))))
              (Some 0) (now w) (Some elapsed)).
    split.
    + unfold Quizzes.attempts_of.
      apply (Permutation_in _ (Permutation_sym (order_by_perm _ _))).
      unfold select_where. apply filter_In. split.
      * rewrite Hdb.
        destruct (db w) as [? ? ? ? ? ? ? [ra sa] [rb sb] ? ?].
        cbn. apply in_or_app. right. left. reflexivity.
      * cbn. rewrite !Z.eqb_refl. reflexivity.
    + cbn. repeat split.
Qed.

Lemma perfect_submission_recorded_as_zero_witness :
  exists a,
    In a (QuizStore.St.quizAttempts
            (store
               (Quizzes.fetchStudentAttempts 7 5
                  (let run :=
                     QuizScreen.confirmSubmitQuiz 7 5 3
                       (fun q => if q =? 1 then Some "True" else None) 61 "2024-03-01T09:00:00.000Z"
                       (Quizzes.set_quizQuestions
                          (rows (quiz_questions course_db)) QuizStore.initial,
                        sample_world course_db) in
                   (store run, world run)))))
    /\ QuizAttempt.id a = 2
    /\ QuizAttempt.score a = Some 0%Q
    /\ QuizAttempt.correctAnswers a = Some 0.
Proof.
  destruct (perfect_submission_recorded_as_zero
              (Quizzes.set_quizQuestions
                 (rows (quiz_questions course_db)) QuizStore.initial)
              (sample_world course_db) 7 5 3
              (fun q => if q =? 1 then Some "True" else None) 61
              "2024-03-01T09:00:00.000Z" eq_refl)
    as (_ & H).
  - discriminate.
  - intros q [<-|[]]. reflexivity.
  - exact H.
Defined.

(** X19: the submit handler never raises: any failure ends in the alert
    'Failed to submit quiz'.  Nothing is rolled back, though.  If the INSERT
    of the attempt is rejected, nothing was written; if the attempt is stored
    and the INSERT of answer [k + 1] is rejected, the student is told that
    the submission failed while the attempt row and the first [k] answers
    stay in the database. *)
Theorem submit_failure_is_not_rolled_back (st : QuizStore.St.t) (w : World)
    (userId quizId courseId : Z) (answers : Z -> option string)
    (elapsed : Z) (isoNow : string) :
  let questions := QuizStore.St.quizQuestions st in
  let n := Z.of_nat (List.length questions) in
  let attemptId := seq (quiz_attempts (db w)) + 1 in
  let run :=
    QuizScreen.confirmSubmitQuiz userId quizId courseId answers elapsed
      isoNow (st, w) in
  (exists r, outcome run = Ok r)
  /\ (forall rest, faults w = true :: rest ->
      outcome run = Ok (QuizScreen.SubmitAlert "Error" "Failed to submit quiz")
      /\ db (world run) = db w /\ store run = st)
  /\ (forall k rest,
      (k < List.length questions)%nat ->
      faults w = false :: repeat false k ++ true :: rest ->
      outcome run = Ok (QuizScreen.SubmitAlert "Error" "Failed to submit quiz")
      /\ rows (quiz_attempts (db (world run)))
         = rows (quiz_attempts (db w))
           ++ [QuizAttempt.mk attemptId userId quizId (Some 0%Q) (Some n)
                 (Some 0) (now w) (Some elapsed)]
      /\ rows (quiz_answers (db (world run)))
         = rows (quiz_answers (db w))
           ++ answer_rows attemptId answers (firstn k questions)
                (seq (quiz_answers (db w)) + 1)
      /\ store run = st).
Proof.
  intros questions n attemptId run. split; [|split].
  - subst run. unfold QuizScreen.confirmSubmitQuiz.
    apply try_catch_ret_never_raises.
  - intros rest Hf.
    destruct (submitQuizAttempt_fault st w
                (AttemptDraft.mk userId quizId 0%Q n 0 isoNow
                   (Some elapsed)) rest Hf)
      as (w1 & H1 & Hdb1).
    assert (Hrun : run = (Ok (QuizScreen.SubmitAlert "Error"
                                "Failed to submit quiz"), (st, w1))).
    { subst run. unfold QuizScreen.confirmSubmitQuiz, try_catch.
      unfold bind at 1. unfold getState at 1. cbv beta iota.
      fold questions. fold n. unfold bind at 1. rewrite H1. reflexivity. }
    rewrite Hrun. unfold outcome, store, world. cbn [fst snd]. auto.
  - intros k rest Hk Hf.
    destruct (submitQuizAttempt_served st w
                (AttemptDraft.mk userId quizId 0%Q n 0 isoNow
                   (Some elapsed))
                (repeat false k ++ true :: rest))
      as (w1 & H1 & Hdb1 & Hf1 & Hnow1).
    { rewrite Hf. reflexivity. }
    destruct (record_answers_fault attemptId answers k questions 0 st w1 rest
                Hf1 Hk) as (w2 & H2 & Hdb2).
    assert (Hrun : run = (Ok (QuizScreen.SubmitAlert "Error"
                                "Failed to submit quiz"), (st, w2))).
    { subst run. unfold QuizScreen.confirmSubmitQuiz, try_catch.
      unfold bind at 1. unfold getState at 1. cbv beta iota.
      fold questions. fold n. unfold bind at 1. rewrite H1. fold attemptId.
      unfold bind. rewrite H2. reflexivity. }
    rewrite Hrun. unfold outcome, store, world. cbn [fst snd].
    rewrite Hdb2, Hdb1.
    destruct (db w) as [? ? ? ? ? ? ? [ra sa] [rb sb] ? ?].
    cbn. repeat split.
Qed.

Lemma submit_failure_is_not_rolled_back_witness :
  outcome (QuizScreen.confirmSubmitQuiz 7 5 3
             (fun q => if q =? 1 then Some "True" else None) 61
             "2024-03-01T09:00:00.000Z"
             (Quizzes.set_quizQuestions
                (rows (quiz_questions course_db)) QuizStore.initial,
              with_faults [false; true] (sample_world course_db)))
  = Ok (QuizScreen.SubmitAlert "Error" "Failed to submit quiz")
  /\ List.length
       (rows (quiz_attempts
                (db (world
                       (QuizScreen.confirmSubmitQuiz 7 5 3
                          (fun q => if q =? 1 then Some "True" else None)
                          61 "2024-03-01T09:00:00.000Z"
                          (Quizzes.set_quizQuestions
                             (rows (quiz_questions course_db))
                             QuizStore.initial,
                           with_faults [false; true]
                             (sample_world course_db)))))))
     = 2%nat.
Proof.
  destruct (submit_failure_is_not_rolled_back
              (Quizzes.set_quizQuestions
                 (rows (quiz_questions course_db)) QuizStore.initial)
              (with_faults [false; true] (sample_world course_db)) 7 5 3
              (fun q => if q =? 1 then Some "True" else None) 61
              "2024-03-01T09:00:00.000Z") as (_ & _ & H).
  destruct (H 0%nat [] ltac:(simpl; lia) eq_refl) as (Hout & Hrows & _).
  split; [exact Hout|]. rewrite Hrows. reflexivity.
Defined.

(** ** Quizzes and their questions *)

Lemma createQuiz_quiet (st : QuizStore.St.t) (w : World) (quiz : QuizDraft.t) :
  quiet w ->
  exists w',
    Quizzes.createQuiz quiz (st, w)
    = (Ok (seq (quizzes (db w)) + 1), (st, w'))
    /\ quiet w'
    /\ db w'
       = with_quizzes
           (insert_row (Quizzes.quiz_row quiz (now w)) (quizzes (db w)))
           (db w).
Proof.
  intros Hq.
  unfold Quizzes.createQuiz, try_catch, bind, runAsync_insert.
  rewrite statement_quiet by exact Hq. simpl. eexists. repeat split.
Qed.

Lemma getQuizById_quiet (st : QuizStore.St.t) (w : World) (quizId : Z) :
  quiet w ->
  exists w',
    Quizzes.getQuizById quizId (st, w)
    = (Ok (hd_error (select_where (fun q => Quiz.id q =? quizId)
                       (quizzes (db w)))),
       (st, w'))
    /\ quiet w' /\ db w' = db w.
Proof.
  intros Hq.
  unfold Quizzes.getQuizById, try_catch, bind, getFirstAsync.
  rewrite statement_quiet by exact Hq. simpl. eexists. repeat split.
Qed.

Lemma deleteQuiz_quiet_world (st : QuizStore.St.t) (w : World) (quizId : Z) :
  quiet w ->
  exists w',
    QuizStore.deleteQuiz quizId (st, w) = (Ok tt, (st, w'))
    /\ quiet w'
    /\ db w'
       = with_quizzes
           (delete_where (fun q => Quiz.id q =? quizId) (quizzes (db w)))
           (with_quiz_attempts
              (delete_where (fun a => QuizAttempt.quizId a =? quizId)
                 (quiz_attempts (db w)))
              (with_quiz_questions
                 (delete_where (fun q => QuizQuestion.quizId q =? quizId)
                    (quiz_questions (db w)))
                 (db w))).
Proof.
  intros Hq.
  unfold QuizStore.deleteQuiz, try_catch, bind, runAsync.
  rewrite statement_quiet by exact Hq. simpl.
  destruct (db w). eexists. repeat split.
Qed.

Lemma select_fresh_id {R} (id : R -> Z) (t : Table R) :
  ids_below_seq id t ->
  select_where (fun r => id r =? seq t + 1) t = [].
Proof.
  intros Hb. apply filter_none. intros e He.
  apply Z.eqb_neq. specialize (Hb e He). lia.
Qed.

(** X20: on a database that serves the statements, with the stored quiz ids
    at most the AUTOINCREMENT counter, the id [createQuiz] returns is new and
    [getQuizById] of it finds the quiz just created, with the draft's fields;
    after [deleteQuiz] of that id the lookup finds nothing.  Creating a quiz
    keeps the ids below the counter. *)
Theorem created_quiz_is_found_until_deleted (st : QuizStore.St.t) (w : World)
    (quiz : QuizDraft.t) :
  quiet w ->
  ids_below_seq Quiz.id (quizzes (db w)) ->
  let id := seq (quizzes (db w)) + 1 in
  (forall q, In q (rows (quizzes (db w))) -> Quiz.id q <> id)
  /\ outcome ((quizId <- Quizzes.createQuiz quiz ;;
               Quizzes.getQuizById quizId) (st, w))
     = Ok (Some (Quiz.mk id (QuizDraft.courseId quiz) (QuizDraft.title quiz)
                   (QuizDraft.description quiz)
                   (Some (QuizDraft.totalQuestions quiz))
                   (Some (QuizDraft.passingScore quiz))
                   (QuizDraft.timeLimit quiz) (now w) (now w)))
  /\ outcome ((quizId <- Quizzes.createQuiz quiz ;;
               QuizStore.deleteQuiz quizId ;;
               Quizzes.getQuizById quizId) (st, w))
     = Ok None
  /\ ids_below_seq Quiz.id
       (quizzes (db (world (Quizzes.createQuiz quiz (st, w))))).
Proof.
  intros Hq Hb id.
  destruct (createQuiz_quiet st w quiz Hq) as (w1 & H1 & Hq1 & Hdb1).
  destruct (getQuizById_quiet st w1 id Hq1) as (w2 & H2 & _).
  destruct (deleteQuiz_quiet_world st w1 id Hq1) as (w3 & H3 & Hq3 & Hdb3).
  destruct (getQuizById_quiet st w3 id Hq3) as (w4 & H4 & _).
  split; [|split; [|split]].
  - intros q Hin. specialize (Hb q Hin). subst id. lia.
  - unfold bind. rewrite H1. fold id. rewrite H2. unfold outcome. cbn [fst].
    rewrite Hdb1.
    replace (quizzes (with_quizzes
                        (insert_row (Quizzes.quiz_row quiz (now w))
                           (quizzes (db w))) (db w)))
      with (insert_row (Quizzes.quiz_row quiz (now w)) (quizzes (db w)))
      by (destruct (db w); reflexivity).
    subst id. rewrite select_after_insert.
    + reflexivity.
    + apply select_fresh_id. exact Hb.
    + cbn. apply Z.eqb_refl.
  - unfold bind. rewrite H1. fold id. rewrite H3, H4. unfold outcome.
    cbn [fst]. rewrite Hdb3.
    replace (quizzes (with_quizzes
                        (delete_where (fun q => Quiz.id q =? id)
                           (quizzes (db w1)))
                        (with_quiz_attempts
                           (delete_where
                              (fun a => QuizAttempt.quizId a =? id)
                              (quiz_attempts (db w1)))
                           (with_quiz_questions
                              (delete_where
                                 (fun q => QuizQuestion.quizId q =? id)
                                 (quiz_questions (db w1)))
                              (db w1)))))
      with (delete_where (fun q => Quiz.id q =? id) (quizzes (db w1)))
      by (destruct (db w1); reflexivity).
    rewrite select_deleted. reflexivity.
  - rewrite H1. unfold world. cbn [snd]. rewrite Hdb1.
    destruct (db w) as [? ? ? [rq sq] ? ? ? ? ? ? ?].
    unfold ids_below_seq in *. cbn in *.
    intros r Hr. apply in_app_or in Hr. destruct Hr as [Hr|[<-|[]]].
    + specialize (Hb r Hr). lia.
    + cbn. lia.
Qed.

Lemma course_db_quiz_ids : ids_below_seq Quiz.id (quizzes course_db).
Proof. intros r [<-|[]]. cbn. lia. Qed.

Lemma created_quiz_is_found_until_deleted_witness :
  outcome ((quizId <- Quizzes.createQuiz
                        (QuizDraft.mk 3 "Week 2" None 4 (60%Q) (Some 15)) ;;
            Quizzes.getQuizById quizId)
             (QuizStore.initial, sample_world course_db))
  = Ok (Some (Quiz.mk 6 3 "Week 2" None (Some 4) (Some 60%Q) (Some 15)
                "2024-03-01 09:00:00" "2024-03-01 09:00:00"))
  /\ outcome ((quizId <- Quizzes.createQuiz
                           (QuizDraft.mk 3 "Week 2" None 4 (60%Q) (Some 15)) ;;
               QuizStore.deleteQuiz quizId ;;
               Quizzes.getQuizById quizId)
                (QuizStore.initial, sample_world course_db))
     = Ok None.
Proof.
  destruct (created_quiz_is_found_until_deleted QuizStore.initial
              (sample_world course_db)
              (QuizDraft.mk 3 "Week 2" None 4 (60%Q) (Some 15))
              eq_refl course_db_quiz_ids) as (_ & Hget & Hdel & _).
  split; [exact Hget | exact Hdel].
Defined.

Section OrderByTotal.

Context {R : Type} (le : R -> R -> bool).

Hypothesis le_total : forall a b, le a b = true \/ le b a = true.
Hypothesis le_trans :
  forall a b c, le a b = true -> le b c = true -> le a c = true.

Lemma insert_by_total_sorted (x : R) (l : list R) :
  StronglySorted (fun a b => le a b = true) l ->
  StronglySorted (fun a b => le a b = true) (insert_by le x l).
Proof.
  induction l as [|y l IH]; simpl; intros Hs.
  - constructor; constructor.
  - apply StronglySorted_inv in Hs. destruct Hs as [Hs Hall].
    destruct (le x y) eqn:Hxy.
    + constructor.
      * constructor; assumption.
      * constructor; [exact Hxy|].
        eapply Forall_impl; [|exact Hall].
        intros a Ha. cbv beta in *. eapply le_trans; eassumption.
    + constructor.
      * apply IH. exact Hs.
      * eapply Permutation_Forall.
        -- symmetry. apply insert_by_perm.
        -- constructor; [|exact Hall].
           destruct (le_total x y) as [H|H]; [congruence | exact H].
Qed.

Lemma order_by_total_sorted (l : list R) :
  StronglySorted (fun a b => le a b = true) (order_by le l).
Proof.
  induction l as [|x l IH]; simpl; [constructor|].
  apply insert_by_total_sorted. exact IH.
Qed.

End OrderByTotal.

Lemma nullable_le_total (a b : option Z) :
  Quizzes.nullable_le a b = true \/ Quizzes.nullable_le b a = true.
Proof.
  destruct a as [x|], b as [y|]; simpl; auto.
  destruct (Z.leb_spec x y); [left; reflexivity|].
  right. apply Z.leb_le. lia.
Qed.

Lemma nullable_le_trans (a b c : option Z) :
  Quizzes.nullable_le a b = true -> Quizzes.nullable_le b c = true ->
  Quizzes.nullable_le a c = true.
Proof.
  destruct a as [x|], b as [y|], c as [z|]; simpl; try congruence.
  rewrite !Z.leb_le. lia.
Qed.

Lemma addQuestion_quiet (st : QuizStore.St.t) (w : World)
    (question : QuestionDraft.t) :
  quiet w ->
  exists w',
    Quizzes.addQuestion question (st, w) = (Ok tt, (st, w'))
    /\ quiet w'
    /\ quiz_questions (db w')
       = insert_row
           (fun id =>
              QuizQuestion.mk id (QuestionDraft.quizId question)
                (QuestionDraft.questionText question)
                (QuestionDraft.questionType question)
                (QuestionDraft.options question)
                (Some (QuestionDraft.correctAnswer question))
                (Some (QuestionDraft.sequenceNumber question)) (now w))
           (quiz_questions (db w)).
Proof.
  intros Hq.
  unfold Quizzes.addQuestion, try_catch, bind, runAsync.
  rewrite statement_quiet by exact Hq. simpl.
  destruct (db w). eexists. repeat split.
Qed.

Lemma fetchQuizQuestions_quiet (st : QuizStore.St.t) (w : World) (quizId : Z) :
  quiet w ->
  exists w',
    Quizzes.fetchQuizQuestions quizId (st, w)
    = (Ok tt,
       (QuizStore.St.mk (QuizStore.St.quizzes st) (QuizStore.St.currentQuiz st)
          (Quizzes.questions_of_quiz quizId (db w))
          (QuizStore.St.quizAttempts st) false, w'))
    /\ quiet w' /\ db w' = db w.
Proof.
  intros Hq.
  unfold Quizzes.fetchQuizQuestions, bind, try_finally, try_catch,
    getAllAsync; cbv beta.
  simpl set. cbv beta iota. rewrite statement_quiet by exact Hq. simpl.
  eexists. repeat split.
Qed.

(** X21: on a database that serves the statements, [addQuestion] followed by
    [fetchQuizQuestions] of the question's quiz leaves in the store exactly
    the questions the quiz had plus the new one (its id the next
    AUTOINCREMENT value), in ascending order of sequenceNumber with NULL
    sequence numbers first, and [isLoading] back to false. *)
Theorem added_question_is_fetched_in_order (st : QuizStore.St.t) (w : World)
    (question : QuestionDraft.t) :
  quiet w ->
  let quizId := QuestionDraft.quizId question in
  let r := (Quizzes.addQuestion question ;;
            Quizzes.fetchQuizQuestions quizId) (st, w) in
  let cached := QuizStore.St.quizQuestions (store r) in
  outcome r = Ok tt
  /\ Permutation cached
       (select_where (fun q => QuizQuestion.quizId q =? quizId)
          (quiz_questions (db w))
        ++ [QuizQuestion.mk (seq (quiz_questions (db w)) + 1) quizId
              (QuestionDraft.questionText question)
              (QuestionDraft.questionType question)
              (QuestionDraft.options question)
              (Some (QuestionDraft.correctAnswer question))
              (Some (QuestionDraft.sequenceNumber question)) (now w)])
  /\ StronglySorted
       (fun a b => Quizzes.nullable_le (QuizQuestion.sequenceNumber a)
                     (QuizQuestion.sequenceNumber b) = true)
       cached
  /\ QuizStore.St.isLoading (store r) = false.
Proof.
  intros Hq quizId r cached.
  destruct (addQuestion_quiet st w question Hq) as (w1 & H1 & Hq1 & Hdb1).
  destruct (fetchQuizQuestions_quiet st w1 quizId Hq1) as (w2 & H2 & _).
  assert (Hr : r = (Ok tt,
                    (QuizStore.St.mk (QuizStore.St.quizzes st)
                       (QuizStore.St.currentQuiz st)
                       (Quizzes.questions_of_quiz quizId (db w1))
                       (QuizStore.St.quizAttempts st) false, w2))).
  { subst r. unfold bind. rewrite H1. exact H2. }
  subst cached. rewrite Hr. unfold outcome, store.
  cbn [fst snd QuizStore.St.quizQuestions QuizStore.St.isLoading].
  split; [reflexivity|]. split; [|split; [|reflexivity]].
  - unfold Quizzes.questions_of_quiz. rewrite order_by_perm, Hdb1.
    unfold select_where, insert_row. cbn [rows].
    rewrite filter_app. cbn [filter QuizQuestion.quizId].
    fold quizId. rewrite Z.eqb_refl. reflexivity.
  - unfold Quizzes.questions_of_quiz.
    apply (order_by_total_sorted
             (fun a b => Quizzes.nullable_le (QuizQuestion.sequenceNumber a)
                           (QuizQuestion.sequenceNumber b))).
    + intros a b. apply nullable_le_total.
    + intros a b c. apply nullable_le_trans.
Qed.

Lemma added_question_is_fetched_in_order_witness :
  Permutation
    (QuizStore.St.quizQuestions
       (store ((Quizzes.addQuestion
                  (QuestionDraft.mk 5 "1 + 1 = 3" true_false None "False" 0) ;;
                Quizzes.fetchQuizQuestions 5)
                 (QuizStore.initial, sample_world course_db))))
    [QuizQuestion.mk 1 5 "2 + 2 = 4" true_false None (Some "True") (Some 1)
       "2024-01-08 00:00:00";
     QuizQuestion.mk 2 5 "1 + 1 = 3" true_false None (Some "False") (Some 0)
       "2024-03-01 09:00:00"].
Proof.
  destruct (added_question_is_fetched_in_order QuizStore.initial
              (sample_world course_db)
              (QuestionDraft.mk 5 "1 + 1 = 3" true_false None "False" 0)
              eq_refl) as (_ & H & _).
  exact H.
Defined.

Lemma fetchQuizQuestions_fault (st : QuizStore.St.t) (w : World) (quizId : Z)
    (fs : list bool) :
  faults w = true :: fs ->
  exists w',
    Quizzes.fetchQuizQuestions quizId (st, w)
    = (Ok tt,
       (QuizStore.St.mk (QuizStore.St.quizzes st) (QuizStore.St.currentQuiz st)
          (QuizStore.St.quizQuestions st) (QuizStore.St.quizAttempts st) false,
        w'))
    /\ faults w' = fs /\ db w' = db w /\ now w' = now w.
Proof.
  intros Hf.
  unfold Quizzes.fetchQuizQuestions, bind, try_finally, try_catch,
    getAllAsync; cbv beta.
  simpl set. cbv beta iota.
  rewrite (statement_fault _ _ _ _ fs) by exact Hf. simpl.
  eexists. repeat split.
Qed.

(** X22: a failed [fetchQuizQuestions] resolves without an error and leaves
    the questions cached before - those of whatever quiz was loaded last - in
    the store.  The submit handler reads that cache: once the engine serves
    statements again, a submission for the quiz on screen stores an attempt
    for that quiz whose size and answers are those of the stale questions. *)
Theorem failed_question_fetch_submits_stale (st : QuizStore.St.t) (w : World)
    (userId quizId courseId : Z) (answers : Z -> option string)
    (elapsed : Z) (isoNow : string) :
  faults w = [true] ->
  let fetched := Quizzes.fetchQuizQuestions quizId (st, w) in
  let run :=
    QuizScreen.confirmSubmitQuiz userId quizId courseId answers elapsed
      isoNow (store fetched, world fetched) in
  let stale := QuizStore.St.quizQuestions st in
  let attemptId := seq (quiz_attempts (db w)) + 1 in
  outcome fetched = Ok tt
  /\ QuizStore.St.quizQuestions (store fetched) = stale
  /\ QuizStore.St.isLoading (store fetched) = false
  /\ rows (quiz_attempts (db (world run)))
     = rows (quiz_attempts (db w))
       ++ [QuizAttempt.mk attemptId userId quizId (Some 0%Q)
             (Some (Z.of_nat (List.length stale))) (Some 0) (now w)
             (Some elapsed)]
  /\ rows (quiz_answers (db (world run)))
     = rows (quiz_answers (db w))
       ++ answer_rows attemptId answers stale (seq (quiz_answers (db w)) + 1).
Proof.
  intros Hf fetched run stale attemptId.
  destruct (fetchQuizQuestions_fault st w quizId [] Hf)
    as (w1 & H1 & Hf1 & Hdb1 & Hnow1).
  subst run fetched. rewrite H1. unfold outcome at 1, store, world.
  cbn [fst snd QuizStore.St.quizQuestions QuizStore.St.isLoading].
  repeat (split; [reflexivity|]).
  destruct (submit_run_quiet
              (QuizStore.St.mk (QuizStore.St.quizzes st)
                 (QuizStore.St.currentQuiz st) (QuizStore.St.quizQuestions st)
                 (QuizStore.St.quizAttempts st) false)
              w1 userId quizId courseId answers elapsed isoNow Hf1)
    as (w2 & H2 & Hdb2 & _).
  cbv zeta in H2, Hdb2. cbn [QuizStore.St.quizQuestions] in H2, Hdb2.
  rewrite H2. cbn [fst snd]. rewrite Hdb2, Hdb1, Hnow1.
  destruct (db w) as [? ? ? ? ? ? ? [ra sa] [rb sb] ? ?].
  cbn. split; reflexivity.
Qed.

Lemma failed_question_fetch_submits_stale_witness :
  map QuizAnswer.questionId
    (rows (quiz_answers
             (db (world
                    (let fetched :=
                       Quizzes.fetchQuizQuestions 6
                         (Quizzes.set_quizQuestions
                            (rows (quiz_questions course_db))
                            QuizStore.initial,
                          with_faults [true] (sample_world course_db)) in
                     QuizScreen.confirmSubmitQuiz 7 6 3 (fun _ => None) 61 "2024-03-01T09:00:00.000Z"
                       (store fetched, world fetched))))))
  = [1; 1].
Proof.
  destruct (failed_question_fetch_submits_stale
              (Quizzes.set_quizQuestions
                 (rows (quiz_questions course_db)) QuizStore.initial)
              (with_faults [true] (sample_world course_db)) 7 6 3
              (fun _ => None) 61 "2024-03-01T09:00:00.000Z" eq_refl)
    as (_ & _ & _ & _ & H).
  cbv zeta. rewrite H. reflexivity.
Defined.

(** ** Sample accounts *)

Lemma insert_user_fresh (w : World) (email password name : string)
    (role : Role) (bio : string) :
  quiet w ->
  existsb (Auth.has_email email) (rows (users (db w))) = false ->
  exists w',
    Seed.insert_user email password name role bio (tt, w) = (Ok tt, (tt, w'))
    /\ quiet w'
    /\ db w'
       = with_users
           (insert_row
              (fun id => User.mk id email password name role None (Some bio)
                           (now w))
              (users (db w)))
           (db w)
    /\ now w' = now w /\ kv_faults w' = kv_faults w.
Proof.
  intros Hq He.
  unfold Seed.insert_user, runAsync.
  rewrite statement_quiet by exact Hq.
  unfold insert_unique. rewrite He. simpl. eexists. repeat split.
Qed.

Lemma no_such_email (email : string) (l : list User.row) :
  (forall u, In u l -> User.email u <> email) ->
  existsb (Auth.has_email email) l = false.
Proof.
  intros H. apply existsb_none. apply filter_none. intros u Hu.
  unfold Auth.has_email. apply String.eqb_neq. apply H. exact Hu.
Qed.

Lemma seed_fresh_run (w : World) :
  quiet w ->
  (forall u, In u (rows (users (db w))) ->
     ~ In (User.email u)
         ["teacher1@school.com"; "teacher2@school.com"; "student1@school.com";
          "student2@school.com"]) ->
  exists w',
    Seed.seedDatabase (tt, w) = (Ok tt, (tt, w'))
    /\ quiet w' /\ kv_faults w' = kv_faults w
    /\ db w'
       = with_users
           (mkTable
              (rows (users (db w))
               ++ [User.mk (seq (users (db w)) + 1) "teacher1@school.com"
                     "password123" "John Smith" teacher None
                     (Some "Mathematics Teacher") (now w);
                   User.mk (seq (users (db w)) + 2) "teacher2@school.com"
                     "password123" "Sarah Johnson" teacher None
                     (Some "Science Teacher") (now w);
                   User.mk (seq (users (db w)) + 3) "student1@school.com"
                     "password123" "Alice Brown" student None
                     (Some "Grade 10 Student") (now w);
                   User.mk (seq (users (db w)) + 4) "student2@school.com"
                     "password123" "Bob Wilson" student None
                     (Some "Grade 10 Student") (now w)])
              (seq (users (db w)) + 4))
           (db w).
Proof.
  intros Hq Hfree.
  assert (Hno : forall e,
            In e ["teacher1@school.com"; "teacher2@school.com";
                  "student1@school.com"; "student2@school.com"] ->
            existsb (Auth.has_email e) (rows (users (db w))) = false).
  { intros e He. apply no_such_email. intros u Hu Heq.
    apply (Hfree u Hu). rewrite Heq. exact He. }
  assert (Hsel : select_where (Auth.has_email "teacher1@school.com")
                   (users (db w)) = []).
  { apply filter_none. intros u Hu. unfold Auth.has_email.
    apply String.eqb_neq. intros Heq. apply (Hfree u Hu). rewrite Heq.
    left. reflexivity. }
  unfold Seed.seedDatabase, try_catch. unfold bind at 1.
  unfold getFirstAsync. rewrite statement_quiet by exact Hq.
  cbn [fst snd]. rewrite Hsel. cbn [map hd_error].
  set (w0 := served _ _ w).
  assert (Hq0 : quiet w0) by reflexivity.
  assert (Hdb0 : db w0 = db w) by reflexivity.
  assert (Hnow0 : now w0 = now w) by reflexivity.
  assert (Hkv0 : kv_faults w0 = kv_faults w) by reflexivity.
  clearbody w0.
  destruct (insert_user_fresh w0 "teacher1@school.com" "password123"
              "John Smith" teacher "Mathematics Teacher" Hq0)
    as (w1 & H1 & Hq1 & Hdb1 & Hnow1 & Hkv1).
  { rewrite Hdb0. apply Hno. simpl. auto. }
  destruct (insert_user_fresh w1 "teacher2@school.com" "password123"
              "Sarah Johnson" teacher "Science Teacher" Hq1)
    as (w2 & H2 & Hq2 & Hdb2 & Hnow2 & Hkv2).
  { rewrite Hdb1, Hdb0. destruct (db w) as [[ru su] ? ? ? ? ? ? ? ? ? ?].
    unfold insert_row, with_users. cbn [users rows]. rewrite existsb_app.
    cbn [users rows] in Hno. rewrite Hno by (simpl; auto). reflexivity. }
  destruct (insert_user_fresh w2 "student1@school.com" "password123"
              "Alice Brown" student "Grade 10 Student" Hq2)
    as (w3 & H3 & Hq3 & Hdb3 & Hnow3 & Hkv3).
  { rewrite Hdb2, Hdb1, Hdb0. destruct (db w) as [[ru su] ? ? ? ? ? ? ? ? ? ?].
    unfold insert_row, with_users. cbn [users rows]. rewrite !existsb_app.
    cbn [users rows] in Hno. rewrite Hno by (simpl; auto). reflexivity. }
  destruct (insert_user_fresh w3 "student2@school.com" "password123"
              "Bob Wilson" student "Grade 10 Student" Hq3)
    as (w4 & H4 & Hq4 & Hdb4 & Hnow4 & Hkv4).
  { rewrite Hdb3, Hdb2, Hdb1, Hdb0.
    destruct (db w) as [[ru su] ? ? ? ? ? ? ? ? ? ?].
    unfold insert_row, with_users. cbn [users rows]. rewrite !existsb_app.
    cbn [users rows] in Hno. rewrite Hno by (simpl; auto). reflexivity. }
  exists w4. unfold bind. rewrite H1, H2, H3, H4.
  split; [reflexivity|]. split; [exact Hq4|]. split.
  - rewrite Hkv4, Hkv3, Hkv2, Hkv1. exact Hkv0.
  - rewrite Hdb4, Hdb3, Hdb2, Hdb1, Hdb0, Hnow3, Hnow2, Hnow1, Hnow0.
    destruct (db w) as [[ru su] ? ? ? ? ? ? ? ? ? ?].
    unfold insert_row, with_users. cbn [users rows seq].
    rewrite <- !app_assoc. cbn [app].
    replace (su + 1 + 1) with (su + 2) by lia.
    replace (su + 2 + 1) with (su + 3) by lia.
    replace (su + 3 + 1) with (su + 4) by lia.
    reflexivity.
Qed.

Lemma existsb_last {R} (p : R -> bool) (l : list R) (x : R) :
  p x = true -> existsb p (l ++ [x]) = true.
Proof.
  intros H. rewrite existsb_app. simpl. rewrite H. apply orb_true_r.
Qed.

Lemma existsb_keep {R} (p : R -> bool) (l l' : list R) :
  existsb p l = true -> existsb p (l ++ l') = true.
Proof. intros H. rewrite existsb_app, H. reflexivity. Qed.

(** One INSERT of a sample account, whatever the engine does: it is served
    and appends the account, or it fails and leaves the database alone. *)
Lemma insert_user_run (w : World) (email password name : string)
    (role : Role) (bio : string) :
  let r := Seed.insert_user email password name role bio (tt, w) in
  (outcome r = Ok tt
   /\ existsb (Auth.has_email email) (rows (users (db w))) = false
   /\ db (world r)
      = with_users
          (insert_row
             (fun id => User.mk id email password name role None (Some bio)
                          (now w))
             (users (db w)))
          (db w))
  \/ ((exists e, outcome r = Raise e) /\ db (world r) = db w).
Proof.
  destruct w as [d f lg n cu kv].
  unfold Seed.insert_user, runAsync, statement, insert_unique, outcome, world.
  cbn [faults db issued now].
  next_statement f; cbn [next_fault].
  - destruct (existsb (Auth.has_email email) (rows (users d))) eqn:He;
      cbn [option_map fst snd db with_db].
    + right. split; [eexists; reflexivity | reflexivity].
    + left. repeat split.
  - right. split; [eexists; reflexivity | reflexivity].
  - destruct (existsb (Auth.has_email email) (rows (users d))) eqn:He;
      cbn [option_map fst snd db with_db].
    + right. split; [eexists; reflexivity | reflexivity].
    + left. repeat split.
Qed.

Lemma insert_user_now (w : World) (email password name : string)
    (role : Role) (bio : string) :
  now (world (Seed.insert_user email password name role bio (tt, w))) = now w.
Proof.
  destruct w as [d f lg n cu kv].
  unfold Seed.insert_user, runAsync, statement, insert_unique, world.
  cbn [faults db issued now].
  next_statement f; cbn [next_fault]; try reflexivity.
  all: destruct (existsb (Auth.has_email email) (rows (users d)));
    reflexivity.
Qed.

Lemma bind_world {A B} (m : M (unit * World) A) (k : A -> M (unit * World) B)
    (w : World) (I : Database -> Prop) :
  I (db (world (m (tt, w)))) ->
  (forall a w', I (db w') -> I (db (world (k a (tt, w'))))) ->
  I (db (world (bind m k (tt, w)))).
Proof.
  unfold bind, world. destruct (m (tt, w)) as [[a|e] [[] w1]]; cbn [snd].
  - intros H1 Hk. apply Hk. exact H1.
  - intros H1 _. exact H1.
Qed.

Lemma try_catch_rethrow {St A} (m : M St A) (st : St) :
  try_catch m (fun error => throw error) st = m st.
Proof.
  unfold try_catch, throw. destruct (m st) as [[a|e] st']; reflexivity.
Qed.

Lemma getFirstAsync_db {S R} (q : string) (ps : list SqlValue)
    (result : Database -> list R) (s : S) (w : World) :
  db (world (getFirstAsync q ps result (s, w))) = db w.
Proof.
  destruct w as [d f lg n cu kv].
  unfold getFirstAsync, statement, world. cbn [faults db issued now].
  next_statement f; reflexivity.
Qed.

Lemma seed_inserts_keep (I : Database -> Prop) (w : World) :
  kept_by_insert I -> I (db w) ->
  I (db (world (Seed.seedDatabase (tt, w)))).
Proof.
  intros Hk HI.
  unfold Seed.seedDatabase. rewrite try_catch_rethrow.
  apply bind_world.
  - rewrite getFirstAsync_db. exact HI.
  - intros [x|] w' HI'; [exact HI'|].
    repeat (apply bind_world; [apply Hk; assumption | intros ? ? ?]).
    apply Hk. assumption.
Qed.

Lemma insert_keeps_unique : kept_by_insert unique_emails.
Proof.
  intros w email password name role bio Hu.
  destruct (insert_user_run w email password name role bio)
    as [(_ & He & Hdb)|(_ & Hdb)]; rewrite Hdb; [|exact Hu].
  unfold unique_emails in *.
  apply (insert_unique_keys User.email (Auth.has_email email)
           (fun id => User.mk id email password name role None (Some bio)
                        (now w))
           (users (db w))).
  - intros r Hr. unfold Auth.has_email in Hr. apply String.eqb_neq in Hr.
    exact Hr.
  - exact Hu.
  - unfold insert_unique. rewrite He. destruct (db w); reflexivity.
Qed.

Lemma insert_keeps_teacher1 : kept_by_insert teacher1_stored.
Proof.
  intros w email password name role bio Ht.
  destruct (insert_user_run w email password name role bio)
    as [(_ & _ & Hdb)|(_ & Hdb)]; rewrite Hdb; [|exact Ht].
  unfold teacher1_stored in *. destruct (db w) as [[ru su] ? ? ? ? ? ? ? ? ? ?].
  apply existsb_keep. exact Ht.
Qed.

Lemma bind_cases {A B} (m : M (unit * World) A) (k : A -> M (unit * World) B)
    (w : World) (Q : World -> Prop) :
  (forall a w', m (tt, w) = (Ok a, (tt, w')) -> Q (world (k a (tt, w')))) ->
  (forall e w', m (tt, w) = (Raise e, (tt, w')) -> Q w') ->
  Q (world (bind m k (tt, w))).
Proof.
  unfold bind, world. destruct (m (tt, w)) as [[a|e] [[] w1]]; cbn [snd].
  - intros H _. apply H. reflexivity.
  - intros _ H. apply (H e). reflexivity.
Qed.

(** A run of [seedDatabase] that changes the database has stored the first
    sample teacher. *)
Lemma seed_writes_teacher1_first (w : World) :
  db (world (Seed.seedDatabase (tt, w))) = db w
  \/ teacher1_stored (db (world (Seed.seedDatabase (tt, w)))).
Proof.
  unfold Seed.seedDatabase. rewrite try_catch_rethrow.
  apply (bind_cases _ _ w
           (fun w' => db w' = db w \/ teacher1_stored (db w'))).
  - intros existing w0 H0.
    assert (Hdb0 : db w0 = db w).
    { rewrite <- (getFirstAsync_db (S := unit)
                    "SELECT id FROM users WHERE email = ?"
                    [VText "teacher1@school.com"]
                    (fun d => map User.id
                                (select_where
                                   (Auth.has_email "teacher1@school.com")
                                   (users d))) tt w).
      rewrite H0. reflexivity. }
    destruct existing as [x|]; [left; exact Hdb0|].
    apply (bind_cases _ _ w0
             (fun w' => db w' = db w \/ teacher1_stored (db w'))).
    + intros [] w1 H1. right.
      assert (Ht : teacher1_stored (db w1)).
      { destruct (insert_user_run w0 "teacher1@school.com" "password123"
                    "John Smith" teacher "Mathematics Teacher")
          as [(_ & _ & Hdb1)|((e & He) & _)];
          rewrite H1 in *; unfold outcome, world in *; cbn [fst snd] in *;
          [|discriminate].
        rewrite Hdb1. unfold teacher1_stored.
        destruct (db w0) as [[ru su] ? ? ? ? ? ? ? ? ? ?].
        apply existsb_last. reflexivity. }
      repeat (apply (bind_world _ _ _ teacher1_stored);
              [apply insert_keeps_teacher1; assumption | intros ? ? ?]).
      apply insert_keeps_teacher1. assumption.
    + intros e w1 H1. left.
      destruct (insert_user_run w0 "teacher1@school.com" "password123"
                  "John Smith" teacher "Mathematics Teacher")
        as [(He & _)|(_ & Hdb1)];
        rewrite H1 in *; unfold outcome, world in *; cbn [fst snd] in *;
        [discriminate|].
      rewrite Hdb1. exact Hdb0.
  - intros e w0 H0. left.
    rewrite <- (getFirstAsync_db (S := unit)
                  "SELECT id FROM users WHERE email = ?"
                  [VText "teacher1@school.com"]
                  (fun d => map User.id
                              (select_where
                                 (Auth.has_email "teacher1@school.com")
                                 (users d))) tt w).
    rewrite H0. reflexivity.
Qed.

Lemma seed_skips (w : World) :
  teacher1_stored (db w) ->
  db (world (Seed.seedDatabase (tt, w))) = db w.
Proof.
  destruct w as [d f lg n cu kv]. unfold teacher1_stored. cbn [db]. intros He.
  unfold Seed.seedDatabase. rewrite try_catch_rethrow.
  unfold bind, getFirstAsync, statement, world.
  cbn [faults db issued now].
  assert (Hsel : exists u l,
            select_where (Auth.has_email "teacher1@school.com") (users d)
            = u :: l).
  { destruct (select_where (Auth.has_email "teacher1@school.com") (users d))
      as [|u l] eqn:Hsel; [|eauto].
    apply existsb_none in Hsel. congruence. }
  destruct Hsel as (u & l & Hsel).
  next_statement f; cbn [next_fault fst snd]; try reflexivity.
  all: rewrite Hsel; reflexivity.
Qed.

Lemma other_email_no_match (email password : string) (role : Role)
    (l : list User.row) :
  (forall u, In u l -> User.email u <> email) ->
  filter (Auth.matches_all email password role) l = [].
Proof.
  intros H. apply filter_none. intros u Hu. unfold Auth.matches_all.
  specialize (H u Hu). apply String.eqb_neq in H. rewrite H. reflexivity.
Qed.

(** X23: on a database and a key-value storage that serve the calls, and
    with none of the four sample emails registered yet, [seedDatabase]
    succeeds, and afterwards each of the four sample accounts logs in with
    the password [password123] and its own role: the session user is the
    account's row, with the id the account got from its position. *)
Theorem seeded_accounts_can_log_in (s : Auth.State) (w : World) :
  quiet w -> kv_faults w = [] ->
  (forall u, In u (rows (users (db w))) ->
     ~ In (User.email u)
         ["teacher1@school.com"; "teacher2@school.com"; "student1@school.com";
          "student2@school.com"]) ->
  let seeded := Seed.seedDatabase (tt, w) in
  outcome seeded = Ok tt
  /\ List.length (rows (users (db (world seeded))))
     = (List.length (rows (users (db w))) + 4)%nat
  /\ forall k email name role bio,
       In (k, email, name, role, bio) sample_accounts ->
       let r := Auth.login email "password123" role (s, world seeded) in
       outcome r = Ok tt
       /\ Auth.user (store r)
          = Some (User.mk (seq (users (db w)) + k) email "password123" name
                    role None (Some bio) (now w))
       /\ Auth.isLoggedIn (store r) = true.
Proof.
  intros Hq Hkv Hfree seeded.
  destruct (seed_fresh_run w Hq Hfree) as (w' & Hrun & Hq' & Hkv' & Hdb').
  subst seeded. rewrite Hrun. unfold outcome at 1, world. cbn [fst snd].
  split; [reflexivity|]. split.
  - rewrite Hdb'. destruct (db w) as [[ru su] ? ? ? ? ? ? ? ? ? ?].
    cbn [users with_users rows]. rewrite length_app. reflexivity.
  - intros k email name role bio Hin.
    assert (Hsel : select_where (Auth.matches_all email "password123" role)
                     (users (db w'))
                   = [User.mk (seq (users (db w)) + k) email "password123"
                        name role None (Some bio) (now w)]).
    { rewrite Hdb'. destruct (db w) as [[ru su] ? ? ? ? ? ? ? ? ? ?].
      unfold select_where. cbn [users with_users rows seq] in *.
      rewrite filter_app.
      rewrite (other_email_no_match email "password123" role ru).
      - unfold sample_accounts in Hin.
        destruct Hin as [H|[H|[H|[H|[]]]]]; inversion H; subst; reflexivity.
      - intros u Hu Heq. apply (Hfree u Hu). rewrite Heq.
        unfold sample_accounts in Hin.
        destruct Hin as [H|[H|[H|[H|[]]]]]; inversion H; subst; simpl; auto. }
    destruct (login_match_world s w' email "password123" role _ [] Hq' Hsel)
      as (w2 & H2 & _).
    { rewrite Hkv'. exact Hkv. }
    rewrite H2. unfold outcome, store. cbn. repeat split.
Qed.

Lemma seeded_accounts_can_log_in_witness :
  Auth.user
    (store (Auth.login "student2@school.com" "password123" student
              (Auth.initial,
               world (Seed.seedDatabase
                        (tt, sample_world empty_database)))))
  = Some (User.mk 4 "student2@school.com" "password123" "Bob Wilson" student
            None (Some "Grade 10 Student") "2024-03-01 09:00:00").
Proof.
  destruct (seeded_accounts_can_log_in Auth.initial
              (sample_world empty_database) eq_refl eq_refl)
    as (_ & _ & H).
  - intros u [].
  - destruct (H 4 "student2@school.com" "Bob Wilson" student
                "Grade 10 Student") as (_ & Hu & _).
    + simpl. auto.
    + exact Hu.
Defined.

(** X24: [seedDatabase] is not resumed.  Whatever the engine does, once a run
    has added an account, every later run leaves the database as it finds
    it: if the first run stopped part-way - a later sample email was already
    registered, or a statement failed - the remaining sample accounts are
    never created.  Every run keeps users.email UNIQUE. *)
Theorem seedDatabase_is_not_resumed (w later : World) :
  let first := Seed.seedDatabase (tt, w) in
  (unique_emails (db w) -> unique_emails (db (world first)))
  /\ ((List.length (rows (users (db w)))
       < List.length (rows (users (db (world first)))))%nat ->
      db later = db (world first) ->
      db (world (Seed.seedDatabase (tt, later))) = db later).
Proof.
  intros first. split.
  - intros Hu. apply seed_inserts_keep; [exact insert_keeps_unique | exact Hu].
  - intros Hgrew Hlater. apply seed_skips. rewrite Hlater.
    destruct (seed_writes_teacher1_first w) as [Hsame|Ht]; [|exact Ht].
    subst first. rewrite Hsame in Hgrew. lia.
Qed.

Lemma seedDatabase_is_not_resumed_witness :
  outcome (Seed.seedDatabase (tt, sample_world early_signup_db))
  = Raise (SqliteError SQLITE_CONSTRAINT)
  /\ map User.email
       (rows (users
                (db (world
                       (Seed.seedDatabase
                          (tt,
                           sample_world
                             (db (world
                                    (Seed.seedDatabase
                                       (tt, sample_world early_signup_db))))))))))
     = ["student1@school.com"; "teacher1@school.com"; "teacher2@school.com"].
Proof.
  split; [reflexivity|].
  destruct (seedDatabase_is_not_resumed (sample_world early_signup_db)
              (sample_world
                 (db (world (Seed.seedDatabase
                               (tt, sample_world early_signup_db))))))
    as (_ & H).
  rewrite H.
  - reflexivity.
  - simpl. lia.
  - reflexivity.
Defined.

(** ** The progress reports of the teacher screens *)

Lemma add_to_groups_all {R} (same : R -> R -> bool) (P : R -> Prop) (x : R)
    (gs : list (list R)) :
  P x ->
  Forall (fun g => g <> [] /\ Forall P g) gs ->
  Forall (fun g => g <> [] /\ Forall P g) (add_to_groups same x gs).
Proof.
  intros Hx. induction gs as [|g gs IH]; simpl; intros Hgs.
  - constructor; [|constructor]. split; [discriminate|]. constructor; auto.
  - inversion Hgs as [|? ? [Hne Hg] Hrest]; subst.
    destruct g as [|y g']; [contradiction|].
    destruct (same y x).
    + constructor; [|exact Hrest]. split; [discriminate|].
      apply Forall_app. split; [exact Hg|]. constructor; auto.
    + constructor; [split; assumption|]. apply IH. exact Hrest.
Qed.

(** Every group of a GROUP BY is non-empty and made of rows of the input. *)
Lemma group_by_all {R} (same : R -> R -> bool) (P : R -> Prop) (l : list R) :
  Forall P l ->
  Forall (fun g => g <> [] /\ Forall P g) (group_by same l).
Proof.
  unfold group_by.
  assert (H : forall gs,
            Forall (fun g => g <> [] /\ Forall P g) gs ->
            Forall P l ->
            Forall (fun g => g <> [] /\ Forall P g)
              (fold_left (fun gs x => add_to_groups same x gs) l gs)).
  { induction l as [|x l IH]; simpl; intros gs Hgs Hl; [exact Hgs|].
    inversion Hl; subst. apply IH; [|assumption].
    apply add_to_groups_all; assumption. }
  apply H. constructor.
Qed.

Lemma count_le_count {R} (p q : R -> bool) (g : list R) :
  Forall (fun r => p r = true -> q r = true) g ->
  0 <= sql_count p g <= sql_count q g.
Proof.
  unfold sql_count. intros H. split; [lia|]. apply inj_le.
  induction H as [|r g Hr _ IH]; simpl; [lia|].
  destruct (p r) eqn:Hp.
  - rewrite (Hr eq_refl). simpl. lia.
  - destruct (q r); simpl; lia.
Qed.

Lemma status_eqb_active (st : Status) : status_eqb st active = true -> st = active.
Proof. destruct st; simpl; congruence. Qed.

(** A completed progress row of a join row belongs to a lesson. *)
Lemma join_progress_has_lesson (u : User.row) (l : option Lesson.row)
    (d : Database) (lp : option LessonProgress.row) :
  In lp (Progress.join_progress u l d) ->
  Progress.completed_progress lp = true -> Progress.is_some l = true.
Proof.
  destruct l as [l'|]; simpl; [reflexivity|].
  intros [<-|[]]. simpl. discriminate.
Qed.

Lemma teacher_join_rows (d : Database) :
  Forall (fun j => Progress.completed_progress (Progress.tj_lp j) = true ->
                   Progress.is_some (Progress.tj_l j) = true)
    (Progress.teacher_join d).
Proof.
  apply Forall_forall. intros j Hj. unfold Progress.teacher_join in Hj.
  apply in_flat_map in Hj. destruct Hj as (e & _ & Hj).
  apply in_flat_map in Hj. destruct Hj as (u & _ & Hj).
  apply in_flat_map in Hj. destruct Hj as (c & _ & Hj).
  apply in_flat_map in Hj. destruct Hj as (l & _ & Hj).
  apply in_map_iff in Hj. destruct Hj as (lp & <- & Hlp).
  simpl. apply (join_progress_has_lesson u l d lp Hlp).
Qed.

Lemma course_join_rows (d : Database) :
  Forall (fun j => Progress.completed_progress (Progress.cj_lp j) = true ->
                   Progress.is_some (Progress.cj_l j) = true)
    (Progress.course_join d).
Proof.
  apply Forall_forall. intros j Hj. unfold Progress.course_join in Hj.
  apply in_flat_map in Hj. destruct Hj as (e & _ & Hj).
  apply in_flat_map in Hj. destruct Hj as (u & _ & Hj).
  apply in_flat_map in Hj. destruct Hj as (l & _ & Hj).
  apply in_map_iff in Hj. destruct Hj as (lp & <- & Hlp).
  simpl. apply (join_progress_has_lesson u l d lp Hlp).
Qed.

Lemma Forall_filter_both {R} (p : R -> bool) (P : R -> Prop) (l : list R) :
  Forall P l -> Forall (fun r => P r /\ p r = true) (filter p l).
Proof.
  intros H. apply Forall_forall. intros r Hr. apply filter_In in Hr.
  destruct Hr as [Hin Hp]. split; [|exact Hp].
  rewrite Forall_forall in H. apply H. exact Hin.
Qed.

Lemma teacher_report_rows (teacherId : Z) (d : Database) :
  Forall (fun r => TeacherReport.status r = active
                   /\ 0 <= TeacherReport.completedLessons r
                      <= TeacherReport.totalLessons r)
    (Progress.teacher_student_progress teacherId d).
Proof.
  unfold Progress.teacher_student_progress.
  eapply Permutation_Forall; [symmetry; apply order_by_perm|].
  apply Forall_forall. intros r Hr.
  apply in_flat_map in Hr. destruct Hr as (g & Hg & Hr).
  pose proof (group_by_all
                (fun a b => (User.id (Progress.tj_u a) =? User.id (Progress.tj_u b))
                            && (Course.id (Progress.tj_c a)
                                =? Course.id (Progress.tj_c b)))
                _ _
                (Forall_filter_both
                   (fun j => (Course.teacherId (Progress.tj_c j) =? teacherId)
                             && status_eqb (Enrollment.status (Progress.tj_e j))
                                  active)
                   _ _ (teacher_join_rows d))) as Hall.
  rewrite Forall_forall in Hall. destruct (Hall g Hg) as [Hne Hrows].
  destruct g as [|j g']; [contradiction|].
  destruct Hr as [<-|[]]. cbn [TeacherReport.status
    TeacherReport.completedLessons TeacherReport.totalLessons]. split.
  - inversion Hrows as [|? ? [_ Hj] _]; subst.
    apply andb_prop in Hj. apply status_eqb_active. apply Hj.
  - apply count_le_count. eapply Forall_impl; [|exact Hrows].
    cbv beta. intros a [Ha _]. exact Ha.
Qed.

Lemma course_report_rows (courseId : Z) (d : Database) :
  Forall (fun r => CourseReport.status r = active
                   /\ 0 <= CourseReport.completedLessons r
                      <= CourseReport.totalLessons r)
    (Progress.course_student_progress courseId d).
Proof.
  unfold Progress.course_student_progress.
  eapply Permutation_Forall; [symmetry; apply order_by_perm|].
  apply Forall_forall. intros r Hr.
  apply in_flat_map in Hr. destruct Hr as (g & Hg & Hr).
  pose proof (group_by_all
                (fun a b => User.id (Progress.cj_u a) =? User.id (Progress.cj_u b))
                _ _
                (Forall_filter_both
                   (fun j => (Enrollment.courseId (Progress.cj_e j) =? courseId)
                             && status_eqb (Enrollment.status (Progress.cj_e j))
                                  active)
                   _ _ (course_join_rows d))) as Hall.
  rewrite Forall_forall in Hall. destruct (Hall g Hg) as [Hne Hrows].
  destruct g as [|j g']; [contradiction|].
  destruct Hr as [<-|[]]. cbn [CourseReport.status
    CourseReport.completedLessons CourseReport.totalLessons]. split.
  - inversion Hrows as [|? ? [_ Hj] _]; subst.
    apply andb_prop in Hj. apply status_eqb_active. apply Hj.
  - apply count_le_count. eapply Forall_impl; [|exact Hrows].
    cbv beta. intros a [Ha _]. exact Ha.
Qed.

(** X25: whatever the database holds and whatever the engine does, the two
    progress reports resolve to a list in which every row belongs to an
    active enrollment and counts no more completed lessons than lessons:
    0 <= completedLessons <= totalLessons. *)
Theorem progress_reports_are_bounded (s : Progress.St.t) (w : World)
    (teacherId courseId : Z) :
  (exists report,
     outcome (Progress.fetchTeacherStudentProgress teacherId (s, w))
     = Ok report
     /\ Forall (fun r => TeacherReport.status r = active
                         /\ 0 <= TeacherReport.completedLessons r
                            <= TeacherReport.totalLessons r)
          report)
  /\ (exists report,
        outcome (Progress.fetchCourseStudentProgress courseId (s, w))
        = Ok report
        /\ Forall (fun r => CourseReport.status r = active
                            /\ 0 <= CourseReport.completedLessons r
                               <= CourseReport.totalLessons r)
             report).
Proof.
  destruct w as [d f lg n cu kv]. split.
  - unfold Progress.fetchTeacherStudentProgress, try_catch, bind, getAllAsync,
      statement, outcome, ret.
    cbn [faults db issued now].
    next_statement f; cbn [next_fault fst snd]; eexists;
      (split; [reflexivity|]); try apply teacher_report_rows; constructor.
  - unfold Progress.fetchCourseStudentProgress, try_catch, bind, getAllAsync,
      statement, outcome, ret.
    cbn [faults db issued now].
    next_statement f; cbn [next_fault fst snd]; eexists;
      (split; [reflexivity|]); try apply course_report_rows; constructor.
Qed.
